(** * London Breakout back-tester: shallow embedding and verified properties

    The development embeds the deterministic core of the repository
    (strategy.py, risk_management.py, backtest.py, with config.py as an
    explicit configuration record) and proves properties of it.

    Conventions.
    - Python floats are read under exact arithmetic: a float is a rational
      [Q], compared with [Qeq]/[Qle]/[Qlt].  Where the code divides by a
      quantity that may be zero on NumPy values (no exception, an IEEE
      infinity or NaN instead) the outcome of the following comparison is
      written out case by case.
    - A [datetime] is a number of microseconds on the proleptic time line;
      [date_of] and [time_of] are its calendar day and its time of day.
    - A pandas DataFrame of bars is the list of its rows, in row order.
    - Position objects are mutable and shared (the open-position list, its
      snapshot copy and the callers all hold the same object), so the risk
      manager carries the store of Position objects and lists hold
      references into it.
    - Code that can raise returns the state reached together with a
      [result]. *)

From Stdlib Require Import ZArith QArith Qround Qabs Qminmax Lqa Lia.
From Stdlib Require Import String List Bool.
From stdpp Require Import base option list gmap strings.
Import ListNotations.

Local Open Scope string_scope.
Local Open Scope list_scope.
Local Open Scope Z_scope.

(** ** Numbers *)

Definition Qltb (x y : Q) : bool := negb (Qle_bool y x).
Definition Qgeb (x y : Q) : bool := Qle_bool y x.
Definition Qgtb (x y : Q) : bool := negb (Qle_bool x y).

(** Python's [round(x, 2)] under exact arithmetic: nearest multiple of 1/100,
    ties to the even one. *)
Definition round_half_even (x : Q) : Z :=
  let f := Qfloor x in
  match Qcompare (x - inject_Z f) (1 # 2) with
  | Lt => f
  | Gt => f + 1
  | Eq => if Z.even f then f else f + 1
  end.

Definition round2 (x : Q) : Q := (inject_Z (round_half_even (x * 100)) / 100)%Q.

(** Python's [sum(...)]: starts at 0 and adds from the left. *)
Definition py_sum (l : list Q) : Q := fold_left Qplus l 0%Q.

(** ** Exceptions *)

Inductive exn : Type :=
  | ValueError (msg : string)
  | KeyError (key : string).

Inductive result (A : Type) : Type :=
  | Ok (a : A)
  | Raise (e : exn).
Arguments Ok {A} a.
Arguments Raise {A} e.

(** ** Time *)

Definition datetime : Type := Z.
Definition usec_per_second : Z := 1000000.
Definition usec_per_minute : Z := 60 * usec_per_second.
Definition usec_per_hour : Z := 60 * usec_per_minute.
Definition usec_per_day : Z := 24 * usec_per_hour.

(** [dt.date()], as a day number *)
Definition date_of (t : datetime) : Z := t / usec_per_day.
(** [dt.time()], as microseconds since midnight *)
Definition time_of (t : datetime) : Z := t mod usec_per_day.
(** [datetime.combine(d, t)] *)
Definition datetime_combine (d : Z) (t : Z) : datetime := d * usec_per_day + t.
(** [time(h, m)] *)
Definition mk_time (h m : Z) : Z := h * usec_per_hour + m * usec_per_minute.

(** ** config.py *)

Record Config : Type := {
  ASIAN_SESSION_START : Z;
  ASIAN_SESSION_END : Z;
  LONDON_OPEN : Z;
  LONDON_CLOSE : Z;
  TRADING_WINDOW_HOURS : Z;
  BREAKOUT_BUFFER_PIPS : Q;
  MIN_RANGE_PIPS : Q;
  MAX_RANGE_PIPS : Q;
  RISK_PER_TRADE_PERCENT : Q;
  POSITION_SIZE_PER_100 : Q;
  RISK_REWARD_RATIO : Q;
  MIN_RISK_REWARD : Q;
  MAX_DAILY_LOSS_PERCENT : Q;
  MAX_OPEN_POSITIONS : Z;
  MAX_POSITION_SIZE_LOTS : Q;
  USE_TREND_FILTER : bool;
  TREND_EMA_PERIOD : Z;
  TRADE_WITH_TREND_ONLY : bool;
  INITIAL_CAPITAL : Q;
  COMMISSION_PER_LOT : Q;
  USE_TIME_EXIT : bool;
  EXIT_BEFORE_CLOSE_MINUTES : Z;
  USE_TRAILING_STOP : bool;
  TRAILING_STOP_ACTIVATION_RR : Q;
  TRAILING_STOP_DISTANCE_PIPS : Q
}.

(** The values config.py ships with. *)
Definition config : Config := {|
  ASIAN_SESSION_START := mk_time 0 0;
  ASIAN_SESSION_END := mk_time 7 0;
  LONDON_OPEN := mk_time 8 0;
  LONDON_CLOSE := mk_time 16 0;
  TRADING_WINDOW_HOURS := 2;
  BREAKOUT_BUFFER_PIPS := 2;
  MIN_RANGE_PIPS := 15;
  MAX_RANGE_PIPS := 100;
  RISK_PER_TRADE_PERCENT := 1;
  POSITION_SIZE_PER_100 := 1 # 100;
  RISK_REWARD_RATIO := 2;
  MIN_RISK_REWARD := 3 # 2;
  MAX_DAILY_LOSS_PERCENT := 3;
  MAX_OPEN_POSITIONS := 3;
  MAX_POSITION_SIZE_LOTS := 1;
  USE_TREND_FILTER := true;
  TREND_EMA_PERIOD := 200;
  TRADE_WITH_TREND_ONLY := true;
  INITIAL_CAPITAL := 10000;
  COMMISSION_PER_LOT := 7;
  USE_TIME_EXIT := true;
  EXIT_BEFORE_CLOSE_MINUTES := 30;
  USE_TRAILING_STOP := true;
  TRAILING_STOP_ACTIVATION_RR := 1;
  TRAILING_STOP_DISTANCE_PIPS := 10
|}.

(** ** Bars *)

Module Bar.
Record t : Type := mk {
    timestamp : datetime;
    open : Q;
    high : Q;
    low : Q;
    close : Q
  }.
End Bar.

(** A DataFrame of bars indexed by timestamp. *)
Definition DataFrame : Type := list Bar.t.

(** [df.loc[ts] if ts in df.index else None]: no row, one row, or (index not
    unique) a frame of several rows, whose use as a bar raises. *)
Inductive loc_result : Type :=
  | LocNone
  | LocRow (b : Bar.t)
  | LocFrame.

Definition rows_at (df : DataFrame) (ts : datetime) : list Bar.t :=
  List.filter (fun b => Bar.timestamp b =? ts) df.

Definition df_loc (df : DataFrame) (ts : datetime) : loc_result :=
  match rows_at df ts with
  | [] => LocNone
  | [b] => LocRow b
  | _ => LocFrame
  end.

(** [series.max()] and [series.min()] of a non-empty column *)
Definition col_max (x : Q) (l : list Q) : Q := fold_left Qmax l x.
Definition col_min (x : Q) (l : list Q) : Q := fold_left Qmin l x.

(** [series.ewm(span=n, adjust=False).mean()], last value: y0 = x0,
    y(t) = (1 - a) y(t-1) + a x(t) with a = 2 / (n + 1). *)
Definition ewm_last (span : Z) (x0 : Q) (l : list Q) : Q :=
  let a := (2 / (inject_Z span + 1))%Q in
  fold_left (fun y x => ((1 - a) * y + a * x)%Q) l x0.

(** ** strategy.py *)

Module SignalType.
Inductive t : Type := NONE | LONG | SHORT.
End SignalType.

Module AsianRange.
Record t : Type := mk {
    high : Q;
    low : Q;
    timestamp : datetime
  }.

Definition range_pips (r : t) : Q := ((high r - low r) * 10000)%Q.
Definition midpoint (r : t) : Q := ((high r + low r) / 2)%Q.
Definition is_valid (cfg : Config) (r : t) : bool :=
    Qle_bool (MIN_RANGE_PIPS cfg) (range_pips r)
    && Qle_bool (range_pips r) (MAX_RANGE_PIPS cfg).
End AsianRange.

Module TradeSignal.
Record t : Type := mk {
    signal_type : SignalType.t;
    timestamp : datetime;
    entry_price : Q;
    stop_loss : Q;
    take_profit : Q;
    asian_range : AsianRange.t
  }.

Definition risk_pips (s : t) : Q := (Qabs (entry_price s - stop_loss s) * 10000)%Q.
Definition reward_pips (s : t) : Q := (Qabs (take_profit s - entry_price s) * 10000)%Q.
(** Under exact arithmetic the ratio of the levels
    [calculate_position_levels] computes cancels to RISK_REWARD_RATIO; the
    code's binary64 quotient lies within a few units in the last place of
    it.  No statement below rests on that cancellation: what is proved of the
    gate [risk_reward_ratio < MIN_RISK_REWARD] is what follows from a signal
    having passed it. *)
Definition risk_reward_ratio (s : t) : Q :=
    if Qeq_bool (risk_pips s) 0 then 0%Q else (reward_pips s / risk_pips s)%Q.
End TradeSignal.

Module LondonBreakoutStrategy.
Record t : Type := mk {
    symbol : string;
    current_range : option AsianRange.t;
    last_signal_date : option Z
  }.

  (** [__init__] *)
Definition init (sym : string) : t :=
    {| symbol := sym; current_range := None; last_signal_date := None |}.

Section WithConfig.
Variable cfg : Config.

Definition identify_asian_range (df : DataFrame) (target_date : datetime)
      : option AsianRange.t :=
      let asian_start := datetime_combine (date_of target_date) (ASIAN_SESSION_START cfg) in
      let asian_end := datetime_combine (date_of target_date) (ASIAN_SESSION_END cfg) in
      let asian_data :=
        List.filter (fun b => (asian_start <=? Bar.timestamp b)
                              && (Bar.timestamp b <? asian_end)) df in
      match asian_data with
      | [] => None
      | b :: rest =>
          let r := {| AsianRange.high := col_max (Bar.high b) (map Bar.high rest);
                      AsianRange.low := col_min (Bar.low b) (map Bar.low rest);
                      AsianRange.timestamp := asian_end |} in
          if AsianRange.is_valid cfg r then Some r else None
      end.

Definition calculate_trend_direction (df : DataFrame) (ts : datetime) : Z :=
      if negb (USE_TREND_FILTER cfg) then 0
      else
        let historical := List.filter (fun b => Bar.timestamp b <=? ts) df in
        if Z.of_nat (length historical) <? TREND_EMA_PERIOD cfg then 0
        else
          match map Bar.close historical with
          | [] => 0
          | x0 :: rest =>
              let current_ema := ewm_last (TREND_EMA_PERIOD cfg) x0 rest in
              let current_price := List.last rest x0 in
              if Qgtb current_price current_ema then 1
              else if Qltb current_price current_ema then -1
              else 0
          end.

Definition check_breakout (current_bar : Bar.t) (r : AsianRange.t) : SignalType.t :=
      let breakout_buffer := (BREAKOUT_BUFFER_PIPS cfg / 10000)%Q in
      if Qgtb (Bar.close current_bar) (AsianRange.high r + breakout_buffer)
      then SignalType.LONG
      else if Qltb (Bar.close current_bar) (AsianRange.low r - breakout_buffer)
      then SignalType.SHORT
      else SignalType.NONE.

Definition calculate_position_levels
      (st : SignalType.t) (entry_price : Q) (r : AsianRange.t) : Q * Q :=
      match st with
      | SignalType.LONG =>
          let stop_loss := AsianRange.low r in
          let risk := (entry_price - stop_loss)%Q in
          (stop_loss, (entry_price + risk * RISK_REWARD_RATIO cfg)%Q)
      | SignalType.SHORT =>
          let stop_loss := AsianRange.high r in
          let risk := (stop_loss - entry_price)%Q in
          (stop_loss, (entry_price - risk * RISK_REWARD_RATIO cfg)%Q)
      | SignalType.NONE => (0%Q, 0%Q)
      end.

    (** End of the trading window, as a time of day:
        [(combine(date, LONDON_OPEN) + timedelta(hours=W)).time()]. *)
Definition london_window_end : Z :=
      (LONDON_OPEN cfg + TRADING_WINDOW_HOURS cfg * usec_per_hour) mod usec_per_day.

Definition generate_signal (s : t) (df : DataFrame) (current_time : datetime)
      : t * result (option TradeSignal.t) :=
      (* only one signal per day *)
      if bool_decide (last_signal_date s = Some (date_of current_time))
      then (s, Ok None)
      else
        let current_hour := time_of current_time in
        if negb ((LONDON_OPEN cfg <=? current_hour) && (current_hour <=? london_window_end))
        then (s, Ok None)
        else
          (* get or identify the Asian range of the current date *)
          let s1 :=
            match current_range s with
            | Some r =>
                if negb (date_of (AsianRange.timestamp r) =? date_of current_time)
                then {| symbol := symbol s;
                        current_range := identify_asian_range df current_time;
                        last_signal_date := last_signal_date s |}
                else s
            | None =>
                {| symbol := symbol s;
                   current_range := identify_asian_range df current_time;
                   last_signal_date := last_signal_date s |}
            end in
          match current_range s1 with
          | None => (s1, Ok None)
          | Some r =>
              match df_loc df current_time with
              | LocNone => (s1, Ok None)
              | LocFrame =>
                  (s1, Raise (ValueError "The truth value of a Series is ambiguous"))
              | LocRow current_bar =>
                  let st := check_breakout current_bar r in
                  match st with
                  | SignalType.NONE => (s1, Ok None)
                  | _ =>
                      let against_trend :=
                        if TRADE_WITH_TREND_ONLY cfg then
                          let trend := calculate_trend_direction df current_time in
                          match st with
                          | SignalType.LONG => trend =? -1
                          | SignalType.SHORT => trend =? 1
                          | SignalType.NONE => false
                          end
                        else false in
                      if against_trend then (s1, Ok None)
                      else
                        let entry_price := Bar.close current_bar in
                        let '(stop_loss, take_profit) :=
                          calculate_position_levels st entry_price r in
                        let trade_signal :=
                          {| TradeSignal.signal_type := st;
                             TradeSignal.timestamp := current_time;
                             TradeSignal.entry_price := entry_price;
                             TradeSignal.stop_loss := stop_loss;
                             TradeSignal.take_profit := take_profit;
                             TradeSignal.asian_range := r |} in
                        if Qltb (TradeSignal.risk_reward_ratio trade_signal)
                                (MIN_RISK_REWARD cfg)
                        then (s1, Ok None)
                        else
                          ({| symbol := symbol s1;
                              current_range := current_range s1;
                              last_signal_date := Some (date_of current_time) |},
                           Ok (Some trade_signal))
                  end
              end
          end.

Definition should_exit_time_based (current_time : datetime) : bool :=
      if negb (USE_TIME_EXIT cfg) then false
      else
        let exit_time :=
          datetime_combine (date_of current_time) (LONDON_CLOSE cfg)
          - EXIT_BEFORE_CLOSE_MINUTES cfg * usec_per_minute in
        exit_time <=? current_time.

Definition reset (s : t) : t :=
      {| symbol := symbol s; current_range := None; last_signal_date := None |}.
End WithConfig.
End LondonBreakoutStrategy.

(** ** risk_management.py *)

(** [side: str], "LONG" or "SHORT"; every test [side == "LONG"] has the other
    side as its else branch. *)
Inductive Side : Type := LONG | SHORT.

Definition Side_eqb (a b : Side) : bool :=
  match a, b with
  | LONG, LONG | SHORT, SHORT => true
  | _, _ => false
  end.

Module Position.
Record t : Type := mk {
  symbol : string;
  side : Side;
  entry_price : Q;
  stop_loss : Q;
  take_profit : Q;
  size_lots : Q;
  entry_time : datetime;
  (* f"{symbol}_{entry_time:%Y%m%d_%H%M%S}", kept as the pair it prints *)
  position_id : option (string * Z)
}.

Definition risk_pips (p : t) : Q := (Qabs (entry_price p - stop_loss p) * 10000)%Q.

Definition current_risk_amount (p : t) : Q :=
  let pip_value := (10 * size_lots p)%Q in
  (risk_pips p * pip_value)%Q.

Definition calculate_pnl (p : t) (current_price : Q) : Q :=
  match side p with
  | LONG => ((current_price - entry_price p) * 10000)%Q
  | SHORT => ((entry_price p - current_price) * 10000)%Q
  end.

Definition is_stop_hit (p : t) (current_price : Q) : bool :=
  match side p with
  | LONG => Qle_bool current_price (stop_loss p)
  | SHORT => Qle_bool (stop_loss p) current_price
  end.

Definition is_target_hit (p : t) (current_price : Q) : bool :=
  match side p with
  | LONG => Qle_bool (take_profit p) current_price
  | SHORT => Qle_bool current_price (take_profit p)
  end.

(** Assignment [position.stop_loss = new_stop]. *)
Definition set_stop_loss (p : t) (new_stop : Q) : t :=
  {| symbol := symbol p; side := side p; entry_price := entry_price p;
     stop_loss := new_stop; take_profit := take_profit p;
     size_lots := size_lots p; entry_time := entry_time p;
     position_id := position_id p |}.

Definition id_eqb (a b : option (string * Z)) : bool :=
  match a, b with
  | None, None => true
  | Some (s1, t1), Some (s2, t2) => String.eqb s1 s2 && (t1 =? t2)
  | _, _ => false
  end.

(** The dataclass [__eq__]: field by field. *)
Definition eqb (a b : t) : bool :=
  String.eqb (symbol a) (symbol b)
  && Side_eqb (side a) (side b)
  && Qeq_bool (entry_price a) (entry_price b)
  && Qeq_bool (stop_loss a) (stop_loss b)
  && Qeq_bool (take_profit a) (take_profit b)
  && Qeq_bool (size_lots a) (size_lots b)
  && (entry_time a =? entry_time b)
  && id_eqb (position_id a) (position_id b).
End Position.

Module Trade.
Record t : Type := mk {
  symbol : string;
  side : Side;
  entry_price : Q;
  exit_price : Q;
  stop_loss : Q;
  take_profit : Q;
  size_lots : Q;
  entry_time : datetime;
  exit_time : datetime;
  pnl_pips : Q;
  pnl_amount : Q;
  exit_reason : string;
  commission : Q
}.

Definition net_pnl (tr : t) : Q := (pnl_amount tr - commission tr)%Q.

Definition duration_minutes (tr : t) : Q :=
  (inject_Z (exit_time tr - entry_time tr) / inject_Z usec_per_minute)%Q.

Definition was_winner (tr : t) : bool := Qgtb (net_pnl tr) 0.
End Trade.

(** A reference to a Position object: its index in the object store. *)
Definition ref : Type := nat.

(** Values a report can hold: a float may be infinite or NaN, and the two
    annualised ratios [sqrt(252) * (m / sd)] are kept symbolic as the mean [m]
    and the variance [sd * sd] they are computed from. *)
Inductive value : Type :=
  | VInt (z : Z)
  | VNum (q : Q)
  | VInf
  | VNegInf
  | VNaN
  | VSqrt252Ratio (mean var : Q)
  | VSeries (index : list datetime) (values : list Q)
  | VTrades (trades : list Trade.t).

(** NumPy division [a / b] and [a / b * 100]: a zero divisor gives an infinity
    or NaN, not an exception. *)
Definition np_div (a b : Q) : value :=
  if Qeq_bool b 0
  then (if Qgtb a 0 then VInf else if Qltb a 0 then VNegInf else VNaN)
  else VNum (a / b).

Definition np_div_pct (a b : Q) : value :=
  match np_div a b with
  | VNum q => VNum (q * 100)
  | v => v
  end.

(** [np.mean] of a non-empty list *)
Definition np_mean (l : list Q) : Q := (py_sum l / inject_Z (Z.of_nat (length l)))%Q.

Module RiskManager.
Record t : Type := mk {
  initial_capital : Q;
  current_equity : Q;
  objects : list Position.t;
  open_positions : list ref;
  closed_trades : list Trade.t;
  daily_pnl : gmap Z Q
}.

(** [__init__] *)
Definition init (capital : Q) : t :=
  {| initial_capital := capital; current_equity := capital; objects := [];
     open_positions := []; closed_trades := []; daily_pnl := ∅ |}.

(** The Position objects the open list refers to, in list order. *)
Definition positions (rm : t) : list Position.t :=
  omap (fun r : ref => objects rm !! r) (open_positions rm).

Definition total_pnl (rm : t) : Q := py_sum (map Trade.net_pnl (closed_trades rm)).

Definition open_risk (rm : t) : Q :=
  py_sum (map Position.current_risk_amount (positions rm)).

Definition win_rate (rm : t) : Q :=
  match closed_trades rm with
  | [] => 0%Q
  | _ =>
      let winners := length (List.filter Trade.was_winner (closed_trades rm)) in
      (inject_Z (Z.of_nat winners) / inject_Z (Z.of_nat (length (closed_trades rm))) * 100)%Q
  end.

Definition average_win (rm : t) : Q :=
  match map Trade.net_pnl (List.filter Trade.was_winner (closed_trades rm)) with
  | [] => 0%Q
  | winners => np_mean winners
  end.

Definition average_loss (rm : t) : Q :=
  match map Trade.net_pnl
          (List.filter (fun tr => negb (Trade.was_winner tr)) (closed_trades rm)) with
  | [] => 0%Q
  | losers => np_mean losers
  end.

Definition profit_factor (rm : t) : value :=
  let gross_profit :=
    py_sum (map Trade.net_pnl (List.filter Trade.was_winner (closed_trades rm))) in
  let gross_loss :=
    Qabs (py_sum (map Trade.net_pnl
            (List.filter (fun tr => negb (Trade.was_winner tr)) (closed_trades rm)))) in
  if Qeq_bool gross_loss 0
  then (if Qgtb gross_profit 0 then VInf else VNum 0)
  else VNum (gross_profit / gross_loss).

(** [list.remove(x)] on a list of Position objects: drops the first item
    that is [x] or compares equal to it; [None] is the ValueError. *)
Definition same_position (h : list Position.t) (y x : ref) : bool :=
  (y =? x)%nat
  || match h !! y, h !! x with
     | Some a, Some b => Position.eqb a b
     | _, _ => false
     end.

Fixpoint list_remove (h : list Position.t) (x : ref) (l : list ref) : option (list ref) :=
  match l with
  | [] => None
  | y :: l' =>
      if same_position h y x then Some l'
      else match list_remove h x l' with
           | Some l'' => Some (y :: l'')
           | None => None
           end
  end.

Definition reset (rm : t) : t := init (initial_capital rm).

Section WithConfig.
Variable cfg : Config.

Definition calculate_position_size
  (rm : t) (entry_price stop_loss : Q) (risk_percent : option Q) : Q :=
  let risk_percent :=
    match risk_percent with Some r => r | None => RISK_PER_TRADE_PERCENT cfg end in
  let risk_amount := (current_equity rm * (risk_percent / 100))%Q in
  let risk_pips := (Qabs (entry_price - stop_loss) * 10000)%Q in
  if Qeq_bool risk_pips 0 then 0%Q
  else
    let pip_value_per_lot := 10%Q in
    let position_size := (risk_amount / (risk_pips * pip_value_per_lot))%Q in
    let position_size := Qmin position_size (MAX_POSITION_SIZE_LOTS cfg) in
    let simple_size := ((current_equity rm / 100) * POSITION_SIZE_PER_100 cfg)%Q in
    let position_size := Qmin position_size simple_size in
    round2 position_size.

(** The daily-loss test [daily_pnl[d] / equity * 100 <= -MAX_DAILY_LOSS_PERCENT].
    Both operands are NumPy floats once a trade has closed, so a zero equity
    gives -inf (test true) for a negative numerator and +inf or NaN (test
    false) otherwise. *)
Definition daily_loss_reached (rm : t) (pnl : Q) : bool :=
  if Qeq_bool (current_equity rm) 0 then Qltb pnl 0
  else Qle_bool (pnl / current_equity rm * 100) (- MAX_DAILY_LOSS_PERCENT cfg).

(** The reason strings are printed only; the configured numbers the code
    formats into them are left out. *)
Definition can_open_position (rm : t) (risk_amount : Q) (current_date : Z)
  : bool * string :=
  if Z.of_nat (length (open_positions rm)) >=? MAX_OPEN_POSITIONS cfg
  then (false, "Maximum open positions reached")
  else
    if match daily_pnl rm !! current_date with
       | Some pnl => daily_loss_reached rm pnl
       | None => false
       end
    then (false, "Daily loss limit reached")
    else
      let total_risk_after := (open_risk rm + risk_amount)%Q in
      let max_allowed_risk :=
        (current_equity rm
         * (RISK_PER_TRADE_PERCENT cfg * inject_Z (MAX_OPEN_POSITIONS cfg) / 100))%Q in
      if Qgtb total_risk_after max_allowed_risk
      then (false, "Total risk exposure too high")
      else (true, "OK").

(** Returns the reference of the new Position, or [None]. *)
Definition open_position
  (rm : t) (symbol : string) (side : Side) (entry_price stop_loss take_profit : Q)
  (entry_time : datetime) (size_lots : option Q) : t * option ref :=
  let size_lots :=
    match size_lots with
    | Some s => s
    | None => calculate_position_size rm entry_price stop_loss None
    end in
  if Qeq_bool size_lots 0 then (rm, None)
  else
    let position :=
      {| Position.symbol := symbol; Position.side := side;
         Position.entry_price := entry_price; Position.stop_loss := stop_loss;
         Position.take_profit := take_profit; Position.size_lots := size_lots;
         Position.entry_time := entry_time;
         Position.position_id := Some (symbol, entry_time / usec_per_second) |} in
    let r := length (objects rm) in
    let rm1 :=
      {| initial_capital := initial_capital rm; current_equity := current_equity rm;
         objects := objects rm ++ [position]; open_positions := open_positions rm;
         closed_trades := closed_trades rm; daily_pnl := daily_pnl rm |} in
    let '(can_open, reason) :=
      can_open_position rm1 (Position.current_risk_amount position) (date_of entry_time) in
    if negb can_open then (rm1, None)
    else
      ({| initial_capital := initial_capital rm1; current_equity := current_equity rm1;
          objects := objects rm1; open_positions := open_positions rm1 ++ [r];
          closed_trades := closed_trades rm1; daily_pnl := daily_pnl rm1 |},
       Some r).

(** The Trade record [close_position] builds from a Position object. *)
Definition make_trade
  (position : Position.t) (exit_price : Q) (exit_time : datetime) (exit_reason : string)
  : Trade.t :=
  let pnl_pips :=
    match Position.side position with
    | LONG => ((exit_price - Position.entry_price position) * 10000)%Q
    | SHORT => ((Position.entry_price position - exit_price) * 10000)%Q
    end in
  let pip_value := (10 * Position.size_lots position)%Q in
  let pnl_amount := (pnl_pips * pip_value)%Q in
  let commission := (COMMISSION_PER_LOT cfg * Position.size_lots position)%Q in
  {| Trade.symbol := Position.symbol position;
     Trade.side := Position.side position;
     Trade.entry_price := Position.entry_price position;
     Trade.exit_price := exit_price;
     Trade.stop_loss := Position.stop_loss position;
     Trade.take_profit := Position.take_profit position;
     Trade.size_lots := Position.size_lots position;
     Trade.entry_time := Position.entry_time position;
     Trade.exit_time := exit_time;
     Trade.pnl_pips := pnl_pips;
     Trade.pnl_amount := pnl_amount;
     Trade.exit_reason := exit_reason;
     Trade.commission := commission |}.

Definition not_in_list : exn := ValueError "list.remove(x): x not in list".

(** Equity and the day's bucket are updated before the position is removed
    from the open list, so a failing removal leaves them updated. *)
Definition close_position
  (rm : t) (r : ref) (exit_price : Q) (exit_time : datetime) (exit_reason : string)
  : t * result Trade.t :=
  match objects rm !! r with
  | None => (rm, Raise not_in_list)
  | Some position =>
      let trade := make_trade position exit_price exit_time exit_reason in
      let equity := (current_equity rm + Trade.net_pnl trade)%Q in
      let trade_date := date_of exit_time in
      let bucket :=
        match daily_pnl rm !! trade_date with
        | Some v => v
        | None => 0%Q
        end in
      let daily := <[trade_date := (bucket + Trade.net_pnl trade)%Q]> (daily_pnl rm) in
      match list_remove (objects rm) r (open_positions rm) with
      | None =>
          ({| initial_capital := initial_capital rm; current_equity := equity;
              objects := objects rm; open_positions := open_positions rm;
              closed_trades := closed_trades rm; daily_pnl := daily |},
           Raise not_in_list)
      | Some remaining =>
          ({| initial_capital := initial_capital rm; current_equity := equity;
              objects := objects rm; open_positions := remaining;
              closed_trades := closed_trades rm ++ [trade]; daily_pnl := daily |},
           Ok trade)
      end
  end.

(** [update_trailing_stop] as a function of the Position object: the object
    after the call and the returned flag. *)
Definition update_trailing_stop (position : Position.t) (current_price : Q)
  : Position.t * bool :=
  if negb (USE_TRAILING_STOP cfg) then (position, false)
  else
    let pnl_pips := Position.calculate_pnl position current_price in
    let activation_pips :=
      (Position.risk_pips position * TRAILING_STOP_ACTIVATION_RR cfg)%Q in
    if Qltb pnl_pips activation_pips then (position, false)
    else
      let trail_distance := (TRAILING_STOP_DISTANCE_PIPS cfg / 10000)%Q in
      match Position.side position with
      | LONG =>
          let new_stop := (current_price - trail_distance)%Q in
          if Qgtb new_stop (Position.stop_loss position)
          then (Position.set_stop_loss position new_stop, true)
          else (position, false)
      | SHORT =>
          let new_stop := (current_price + trail_distance)%Q in
          if Qltb new_stop (Position.stop_loss position)
          then (Position.set_stop_loss position new_stop, true)
          else (position, false)
      end.

(** The same call on the object a reference points to, written back to the
    store. *)
Definition update_trailing_stop_at (rm : t) (r : ref) (current_price : Q) : t * bool :=
  match objects rm !! r with
  | None => (rm, false)
  | Some position =>
      let '(position', updated) := update_trailing_stop position current_price in
      ({| initial_capital := initial_capital rm; current_equity := current_equity rm;
          objects := <[r := position']> (objects rm);
          open_positions := open_positions rm;
          closed_trades := closed_trades rm; daily_pnl := daily_pnl rm |},
       updated)
  end.

Definition get_statistics (rm : t) : gmap string value :=
  match closed_trades rm with
  | [] =>
      <["profit_factor" := VNum 0]>
      (<["total_pnl" := VNum 0]>
      (<["win_rate" := VNum 0]>
      (<["total_trades" := VInt 0]> ∅)))
  | _ =>
      let winners := List.filter Trade.was_winner (closed_trades rm) in
      let losers := List.filter (fun tr => negb (Trade.was_winner tr)) (closed_trades rm) in
      <["return_percent" :=
          np_div_pct (current_equity rm - initial_capital rm) (initial_capital rm)]>
      (<["current_equity" := VNum (current_equity rm)]>
      (<["average_trade" := VNum (np_mean (map Trade.net_pnl (closed_trades rm)))]>
      (<["largest_loss" :=
          VNum (match map Trade.net_pnl losers with
                | [] => 0
                | x :: l => col_min x l
                end)]>
      (<["largest_win" :=
          VNum (match map Trade.net_pnl winners with
                | [] => 0
                | x :: l => col_max x l
                end)]>
      (<["average_loss" := VNum (average_loss rm)]>
      (<["average_win" := VNum (average_win rm)]>
      (<["profit_factor" := profit_factor rm]>
      (<["total_pnl_percent" := np_div_pct (total_pnl rm) (initial_capital rm)]>
      (<["total_pnl" := VNum (total_pnl rm)]>
      (<["win_rate" := VNum (win_rate rm)]>
      (<["losers" := VInt (Z.of_nat (length losers))]>
      (<["winners" := VInt (Z.of_nat (length winners))]>
      (<["total_trades" := VInt (Z.of_nat (length (closed_trades rm)))]> ∅)))))))))))))
  end.
End WithConfig.
End RiskManager.

(** ** backtest.py *)

(** *** Series statistics used by [_generate_results] *)

(** [series.expanding().max()] *)
Fixpoint expanding_max_from (m : Q) (l : list Q) : list Q :=
  match l with
  | [] => []
  | x :: l' => let m' := Qmax m x in m' :: expanding_max_from m' l'
  end.

Definition expanding_max (l : list Q) : list Q :=
  match l with
  | [] => []
  | x :: l' => x :: expanding_max_from x l'
  end.

(** One point of [(equity - running_max) / running_max * 100]. *)
Definition drawdown_point (eq rmax : Q) : value := np_div_pct (eq - rmax) rmax.

(** [series.min()] over float points, NaN skipped; NaN when nothing is left. *)
Definition value_min (a b : value) : value :=
  match a, b with
  | VNaN, v | v, VNaN => v
  | VNegInf, _ | _, VNegInf => VNegInf
  | VInf, v | v, VInf => v
  | VNum x, VNum y => VNum (Qmin x y)
  | v, _ => v
  end.

Definition series_min (l : list value) : value := fold_left value_min l VNaN.

Definition max_drawdown (equity : list Q) : value :=
  series_min (map (fun '(e, m) => drawdown_point e m)
                  (List.combine equity (expanding_max equity))).

(** [series.pct_change().dropna()]: the first point and every NaN are
    dropped, infinities stay. *)
Fixpoint pct_change_from (prev : Q) (l : list Q) : list value :=
  match l with
  | [] => []
  | x :: l' =>
      let r := match np_div x prev with
               | VNum q => VNum (q - 1)
               | v => v
               end in
      match r with
      | VNaN => pct_change_from x l'
      | _ => r :: pct_change_from x l'
      end
  end.

Definition pct_change_dropna (l : list Q) : list value :=
  match l with
  | [] => []
  | x :: l' => pct_change_from x l'
  end.

(** The finite entries, or [None] when an infinity is among them. *)
Fixpoint all_finite (l : list value) : option (list Q) :=
  match l with
  | [] => Some []
  | VNum q :: l' =>
      match all_finite l' with
      | Some qs => Some (q :: qs)
      | None => None
      end
  | _ => None
  end.

(** Sample variance (ddof = 1); [None] is NaN (fewer than two points). *)
Definition sample_var (l : list Q) : option Q :=
  match l with
  | [] | [_] => None
  | _ =>
      let m := np_mean l in
      Some (py_sum (map (fun x => (x - m) * (x - m)) l)
            / inject_Z (Z.of_nat (length l) - 1))%Q
  end.

(** [returns.std() > 0], with the variance when it holds. *)
Definition positive_std (l : list value) : option Q :=
  match all_finite l with
  | Some qs =>
      match sample_var qs with
      | Some v => if Qgtb v 0 then Some v else None
      | None => None
      end
  | None => None
  end.

Definition sharpe_ratio (returns : list value) : value :=
  match returns with
  | [] => VInt 0
  | _ =>
      match positive_std returns, all_finite returns with
      | Some v, Some qs => VSqrt252Ratio (np_mean qs) v
      | _, _ => VInt 0
      end
  end.

Definition is_negative (v : value) : bool :=
  match v with
  | VNum q => Qltb q 0
  | VNegInf => true
  | _ => false
  end.

Definition sortino_ratio (returns : list value) : value :=
  let negative_returns := List.filter is_negative returns in
  match negative_returns with
  | [] => VInt 0
  | _ =>
      match positive_std negative_returns with
      | Some v =>
          (* no -inf among the returns here: the mean is finite or +inf *)
          match all_finite returns with
          | Some qs => VSqrt252Ratio (np_mean qs) v
          | None => VInf
          end
      | None => VInt 0
      end
  end.

(** [equity.min() - running_max[equity.idxmin()]] (unique index) *)
Fixpoint min_with_running_max (best : Q * Q) (l : list (Q * Q)) : Q * Q :=
  match l with
  | [] => best
  | (e, m) :: l' =>
      min_with_running_max (if Qltb e (fst best) then (e, m) else best) l'
  end.

Definition max_drawdown_amount (equity : list Q) : value :=
  match List.combine equity (expanding_max equity) with
  | [] => VNaN
  | p :: l => let '(e, m) := min_with_running_max p l in VNum (e - m)
  end.

Module BacktestEngine.
Record t : Type := mk {
  symbol : string;
  initial_capital : Q;
  strategy : LondonBreakoutStrategy.t;
  risk_manager : RiskManager.t;
  equity_curve : list Q;
  dates : list datetime
}.

Definition with_risk_manager (e : t) (rm : RiskManager.t) : t :=
  {| symbol := symbol e; initial_capital := initial_capital e;
     strategy := strategy e; risk_manager := rm;
     equity_curve := equity_curve e; dates := dates e |}.

Definition with_strategy (e : t) (s : LondonBreakoutStrategy.t) : t :=
  {| symbol := symbol e; initial_capital := initial_capital e;
     strategy := s; risk_manager := risk_manager e;
     equity_curve := equity_curve e; dates := dates e |}.

(** [_calculate_consecutive_trades], the scan over the trade log *)
Fixpoint consecutive_scan
  (trades : list Trade.t) (max_wins max_losses current_wins current_losses : Z) : Z * Z :=
  match trades with
  | [] => (max_wins, max_losses)
  | tr :: rest =>
      if Trade.was_winner tr
      then consecutive_scan rest (Z.max max_wins (current_wins + 1)) max_losses
             (current_wins + 1) 0
      else consecutive_scan rest max_wins (Z.max max_losses (current_losses + 1))
             0 (current_losses + 1)
  end.

Definition _calculate_consecutive_trades (e : t) : Z * Z :=
  match RiskManager.closed_trades (risk_manager e) with
  | [] => (0, 0)
  | trades => consecutive_scan trades 0 0 0 0
  end.

(** The keys [_print_results] formats, in the order it reads them. *)
Definition printed_keys : list string :=
  [ "total_trades"; "winners"; "losers"; "win_rate"; "profit_factor";
    "average_win"; "average_loss"; "largest_win"; "largest_loss";
    "total_pnl"; "total_pnl_percent"; "current_equity"; "return_percent";
    "max_drawdown"; "sharpe_ratio"; "sortino_ratio";
    "max_consecutive_wins"; "max_consecutive_losses" ].

Fixpoint read_keys (results : gmap string value) (keys : list string) : result unit :=
  match keys with
  | [] => Ok tt
  | k :: rest =>
      match results !! k with
      | Some _ => read_keys results rest
      | None => Raise (KeyError k)
      end
  end.

Definition _print_results (results : gmap string value) : result unit :=
  read_keys results printed_keys.

Section WithConfig.
Variable cfg : Config.

(** [__init__]: [initial_capital or config.INITIAL_CAPITAL] *)
Definition init (sym : string) (capital : option Q) : t :=
  let capital :=
    match capital with
    | Some c => if Qeq_bool c 0 then INITIAL_CAPITAL cfg else c
    | None => INITIAL_CAPITAL cfg
    end in
  {| symbol := sym; initial_capital := capital;
     strategy := LondonBreakoutStrategy.init sym;
     risk_manager := RiskManager.init capital;
     equity_curve := []; dates := [] |}.

(** The stop-loss / take-profit test of [_process_bar] on one position:
    the exit price and reason, if any. *)
Definition check_stop_and_target (position : Position.t) (bar : Bar.t)
  : option (Q * string) :=
  match Position.side position with
  | LONG =>
      if Qle_bool (Bar.low bar) (Position.stop_loss position)
      then Some (Position.stop_loss position, "SL")
      else if Qle_bool (Position.take_profit position) (Bar.high bar)
      then Some (Position.take_profit position, "TP")
      else None
  | SHORT =>
      if Qle_bool (Position.stop_loss position) (Bar.high bar)
      then Some (Position.stop_loss position, "SL")
      else if Qle_bool (Bar.low bar) (Position.take_profit position)
      then Some (Position.take_profit position, "TP")
      else None
  end.

(** Exit decision for one position: stop or target, else the time exit. *)
Definition exit_decision (position : Position.t) (current_time : datetime) (bar : Bar.t)
  : option (Q * string) :=
  match check_stop_and_target position bar with
  | Some x => Some x
  | None =>
      if LondonBreakoutStrategy.should_exit_time_based cfg current_time
      then Some (Bar.close bar, "TIME")
      else None
  end.

(** Body of the loop over the snapshot of open positions.  A reference
    outside the object store cannot arise (the risk manager lists only
    references it created); the model raises there. *)
Definition process_position (e : t) (r : ref) (current_time : datetime) (bar : Bar.t)
  : t * result unit :=
  match RiskManager.objects (risk_manager e) !! r with
  | None => (e, Raise RiskManager.not_in_list)
  | Some position =>
      match exit_decision position current_time bar with
      | None =>
          let '(rm, _) :=
            RiskManager.update_trailing_stop_at cfg (risk_manager e) r (Bar.close bar) in
          (with_risk_manager e rm, Ok tt)
      | Some (exit_price, exit_reason) =>
          let '(rm, res) :=
            RiskManager.close_position cfg (risk_manager e) r exit_price
              current_time exit_reason in
          match res with
          | Ok _ => (with_risk_manager e rm, Ok tt)
          | Raise x => (with_risk_manager e rm, Raise x)
          end
      end
  end.

Fixpoint process_positions
  (e : t) (snapshot : list ref) (current_time : datetime) (bar : Bar.t)
  : t * result unit :=
  match snapshot with
  | [] => (e, Ok tt)
  | r :: rest =>
      match process_position e r current_time bar with
      | (e', Ok _) => process_positions e' rest current_time bar
      | (e', Raise x) => (e', Raise x)
      end
  end.

Definition _execute_signal (e : t) (signal : TradeSignal.t) (current_time : datetime) : t :=
  let side :=
    match TradeSignal.signal_type signal with
    | SignalType.LONG => LONG
    | _ => SHORT
    end in
  let '(rm, _) :=
    RiskManager.open_position cfg (risk_manager e) (symbol e) side
      (TradeSignal.entry_price signal) (TradeSignal.stop_loss signal)
      (TradeSignal.take_profit signal) current_time None in
  with_risk_manager e rm.

(** [self.symbol not in open_symbols] *)
Definition symbol_is_open (e : t) : bool :=
  existsb (String.eqb (symbol e))
    (map Position.symbol (RiskManager.positions (risk_manager e))).

(** The entry step of [_process_bar], after the exits. *)
Definition generate_new_signals (e : t) (df : DataFrame) (current_time : datetime)
  : t * result unit :=
  if symbol_is_open e then (e, Ok tt)
  else
    match LondonBreakoutStrategy.generate_signal cfg (strategy e) df current_time with
    | (s, Raise x) => (with_strategy e s, Raise x)
    | (s, Ok None) => (with_strategy e s, Ok tt)
    | (s, Ok (Some signal)) =>
        (_execute_signal (with_strategy e s) signal current_time, Ok tt)
    end.

(** The equity-curve update that opens [_process_bar]. *)
Definition record_equity (e : t) (current_time : datetime) : t :=
  {| symbol := symbol e; initial_capital := initial_capital e;
     strategy := strategy e; risk_manager := risk_manager e;
     equity_curve := equity_curve e ++ [RiskManager.current_equity (risk_manager e)];
     dates := dates e ++ [current_time] |}.

Definition _process_bar (e : t) (df : DataFrame) (current_time : datetime) (bar : Bar.t)
  : t * result unit :=
  let e1 := record_equity e current_time in
  match process_positions e1 (RiskManager.open_positions (risk_manager e1))
          current_time bar with
  | (e2, Raise x) => (e2, Raise x)
  | (e2, Ok _) => generate_new_signals e2 df current_time
  end.

(** [for current_time, bar in df.iterrows(): self._process_bar(...)] *)
Fixpoint process_bars (e : t) (df : DataFrame) (rows : list Bar.t) : t * result unit :=
  match rows with
  | [] => (e, Ok tt)
  | bar :: rest =>
      match _process_bar e df (Bar.timestamp bar) bar with
      | (e', Ok _) => process_bars e' df rest
      | (e', Raise x) => (e', Raise x)
      end
  end.

(** The closing loop at the end of data. *)
Fixpoint close_remaining
  (rm : RiskManager.t) (snapshot : list ref) (last_price : Q) (last_time : datetime)
  : RiskManager.t * result unit :=
  match snapshot with
  | [] => (rm, Ok tt)
  | r :: rest =>
      match RiskManager.close_position cfg rm r last_price last_time "END" with
      | (rm', Ok _) => close_remaining rm' rest last_price last_time
      | (rm', Raise x) => (rm', Raise x)
      end
  end.

Definition _generate_results (e : t) (df : DataFrame) : gmap string value :=
  let stats := RiskManager.get_statistics (risk_manager e) in
  let returns := pct_change_dropna (equity_curve e) in
  let '(consecutive_wins, consecutive_losses) := _calculate_consecutive_trades e in
  let total_days :=
    match df with
    | [] => 0
    | b :: rest => (Bar.timestamp (List.last rest b) - Bar.timestamp b) / usec_per_day
    end in
  <["trades" := VTrades (RiskManager.closed_trades (risk_manager e))]>
  (<["equity_curve" := VSeries (dates e) (equity_curve e)]>
  (<["total_days" := VInt total_days]>
  (<["max_consecutive_losses" := VInt consecutive_losses]>
  (<["max_consecutive_wins" := VInt consecutive_wins]>
  (<["sortino_ratio" := sortino_ratio returns]>
  (<["sharpe_ratio" := sharpe_ratio returns]>
  (<["max_drawdown_amount" := max_drawdown_amount (equity_curve e)]>
  (<["max_drawdown" := max_drawdown (equity_curve e)]> stats)))))))).

(** [df[df.index >= start_date]] and [df[df.index <= end_date]]; a bound is
    the timestamp its date string denotes, [None] for [None] or the empty
    string. *)
Definition filter_dates (df : DataFrame) (start_date end_date : option datetime)
  : DataFrame :=
  let df :=
    match start_date with
    | Some d => List.filter (fun b => d <=? Bar.timestamp b) df
    | None => df
    end in
  match end_date with
  | Some d => List.filter (fun b => Bar.timestamp b <=? d) df
  | None => df
  end.

Definition no_data : exn := ValueError "No data available for backtest period".

Definition run (e : t) (df : DataFrame) (start_date end_date : option datetime)
  : t * result (gmap string value) :=
  match filter_dates df start_date end_date with
  | [] => (e, Raise no_data)
  | b :: rest =>
      let df := b :: rest in
      match process_bars e df df with
      | (e1, Raise x) => (e1, Raise x)
      | (e1, Ok _) =>
          let last_bar := List.last rest b in
          match close_remaining (risk_manager e1)
                  (RiskManager.open_positions (risk_manager e1))
                  (Bar.close last_bar) (Bar.timestamp last_bar) with
          | (rm, Raise x) => (with_risk_manager e1 rm, Raise x)
          | (rm, Ok _) =>
              let e2 := with_risk_manager e1 rm in
              let results := _generate_results e2 df in
              match _print_results results with
              | Raise x => (e2, Raise x)
              | Ok _ => (e2, Ok results)
              end
          end
      end
  end.
End WithConfig.
End BacktestEngine.

(** * optimize.py: the grid search *)

Module StrategyOptimizer.

(** The metrics [optimize] copies from the report into a result row, in the
    order the dict literal reads them. *)
Definition row_keys : list string :=
  [ "total_trades"; "win_rate"; "profit_factor"; "return_percent";
    "max_drawdown"; "sharpe_ratio"; "sortino_ratio" ].

(** [results[k]] for each key in turn: the first missing key raises
    KeyError. *)
Fixpoint read_row (results : gmap string value) (keys : list string)
  : result (list (string * value)) :=
  match keys with
  | [] => Ok []
  | k :: rest =>
      match results !! k with
      | Some v =>
          match read_row results rest with
          | Ok row => Ok ((k, v) :: row)
          | Raise x => Raise x
          end
      | None => Raise (KeyError k)
      end
  end.

Section WithParams.
(** A parameter combination ([param_dict]) is kept as it is; the grid is
    given as the combinations in the order of [itertools.product], each with
    the configuration in force after [_update_config(param_dict)]. *)
Context {P : Type}.

(** [result_row]: the combination and the seven metrics. *)
Record row : Type := mk_row {
  params : P;
  metrics : list (string * value)
}.

(** One turn of the loop of [optimize]: a fresh engine on
    [config.INITIAL_CAPITAL], [run] on the whole frame, the row appended to
    [self.results]; any exception of the try block is caught and the
    combination skipped ([except Exception: continue]). *)
Definition try_combination (symbol : string) (df : DataFrame)
  (results : list row) (param_dict : P) (cfg : Config) : list row :=
  let engine := BacktestEngine.init cfg symbol (Some (INITIAL_CAPITAL cfg)) in
  match snd (BacktestEngine.run cfg engine df None None) with
  | Ok report =>
      match read_row report row_keys with
      | Ok m => results ++ [ {| params := param_dict; metrics := m |} ]
      | Raise _ => results
      end
  | Raise _ => results
  end.

(** [self.results] after the loop of [optimize] over the combinations. *)
Definition optimize_results (symbol : string) (df : DataFrame)
  (results : list row) (combinations : list (P * Config)) : list row :=
  fold_left (fun acc pc => try_combination symbol df acc (fst pc) (snd pc))
    combinations results.

End WithParams.
Arguments row : clear implicits.
End StrategyOptimizer.

(** * Notions used in the statements *)

(** The Position object after a series of trailing-stop updates, one per
    price, in order. *)
Fixpoint trail_many (cfg : Config) (p : Position.t) (prices : list Q) : Position.t :=
  match prices with
  | [] => p
  | x :: rest => trail_many cfg (fst (RiskManager.update_trailing_stop cfg p x)) rest
  end.

(** A stop [new] strictly better than [old] for the holder of the side, and
    one that is not worse. *)
Definition tighter (s : Side) (new old : Q) : Prop :=
  match s with
  | LONG => (old < new)%Q
  | SHORT => (new < old)%Q
  end.

Definition not_looser (s : Side) (new old : Q) : Prop :=
  match s with
  | LONG => (old <= new)%Q
  | SHORT => (new <= old)%Q
  end.

(** The bar reaches the stop-loss, respectively the take-profit, of the
    position. *)
Definition stop_touched (p : Position.t) (bar : Bar.t) : Prop :=
  match Position.side p with
  | LONG => (Bar.low bar <= Position.stop_loss p)%Q
  | SHORT => (Position.stop_loss p <= Bar.high bar)%Q
  end.

Definition target_touched (p : Position.t) (bar : Bar.t) : Prop :=
  match Position.side p with
  | LONG => (Position.take_profit p <= Bar.high bar)%Q
  | SHORT => (Bar.low bar <= Position.take_profit p)%Q
  end.

(** A level lies within the bar's range. *)
Definition within_bar (bar : Bar.t) (level : Q) : Prop :=
  (Bar.low bar <= level)%Q /\ (level <= Bar.high bar)%Q.

(** The stop of a trailed position is the original one, or it was set from a
    price whose profit had reached the activation level of the original
    stop. *)
Definition trailed_from (cfg : Config) (p0 p : Position.t) : Prop :=
  Position.side p = Position.side p0
  /\ Position.entry_price p = Position.entry_price p0
  /\ (Position.stop_loss p = Position.stop_loss p0
      \/ exists x,
           (Position.risk_pips p0 * TRAILING_STOP_ACTIVATION_RR cfg
            <= Position.calculate_pnl p0 x)%Q
           /\ Position.stop_loss p
              = match Position.side p0 with
                | LONG => (x - TRAILING_STOP_DISTANCE_PIPS cfg / 10000)%Q
                | SHORT => (x + TRAILING_STOP_DISTANCE_PIPS cfg / 10000)%Q
                end).

(** ** Sample data *)

(** A long position of 0.19 lots: entry 1.1000, stop 1.0950, target 1.1100. *)
Definition long_position : Position.t :=
  {| Position.symbol := "EURUSD"; Position.side := LONG;
     Position.entry_price := 11000 # 10000; Position.stop_loss := 10950 # 10000;
     Position.take_profit := 11100 # 10000; Position.size_lots := 19 # 100;
     Position.entry_time := 0; Position.position_id := Some ("EURUSD", 0) |}.

(** An engine holding [long_position] as its one open position. *)
Definition engine_with_long : BacktestEngine.t :=
  {| BacktestEngine.symbol := "EURUSD";
     BacktestEngine.initial_capital := 10000;
     BacktestEngine.strategy := LondonBreakoutStrategy.init "EURUSD";
     BacktestEngine.risk_manager :=
       {| RiskManager.initial_capital := 10000;
          RiskManager.current_equity := 10000;
          RiskManager.objects := [long_position];
          RiskManager.open_positions := [0%nat];
          RiskManager.closed_trades := [];
          RiskManager.daily_pnl := ∅ |};
     BacktestEngine.equity_curve := [];
     BacktestEngine.dates := [] |}.

(** A bar from 1.0940 to 1.1120: both levels of [long_position] are inside. *)
Definition wide_bar : Bar.t :=
  {| Bar.timestamp := mk_time 9 0; Bar.open := 11000 # 10000;
     Bar.high := 11120 # 10000; Bar.low := 10940 # 10000;
     Bar.close := 11050 # 10000 |}.

(** A bar that opens far below the stop of [long_position]. *)
Definition gap_bar : Bar.t :=
  {| Bar.timestamp := mk_time 9 0; Bar.open := 10800 # 10000;
     Bar.high := 10820 # 10000; Bar.low := 10700 # 10000;
     Bar.close := 10750 # 10000 |}.


(** ** Invariants and reachable states of the simulator *)

(** Equity conservation: the equity is the initial capital plus the net P&L
    of the trades closed so far. *)
Definition equity_conserved (rm : RiskManager.t) : Prop :=
  (RiskManager.current_equity rm
   == RiskManager.initial_capital rm
      + py_sum (map Trade.net_pnl (RiskManager.closed_trades rm)))%Q.

(** Single position: the open list is empty, or holds one reference, to a
    Position object of the engine's symbol. *)
Definition at_most_one_open (e : BacktestEngine.t) : Prop :=
  RiskManager.open_positions (BacktestEngine.risk_manager e) = []
  \/ exists r p,
       RiskManager.open_positions (BacktestEngine.risk_manager e) = [r]
       /\ RiskManager.objects (BacktestEngine.risk_manager e) !! r = Some p
       /\ Position.symbol p = BacktestEngine.symbol e.

(** Both invariants together. *)
Definition engine_inv (e : BacktestEngine.t) : Prop :=
  at_most_one_open e /\ equity_conserved (BacktestEngine.risk_manager e).

(** The moves of the simulator, one per state change of [run]: the
    equity-curve update of a bar, the exit processing of one open position,
    the entry step, and the closing of an open position at the end of data.
    A move is recorded whether or not it ends in an exception. *)
Inductive step (cfg : Config) : BacktestEngine.t -> BacktestEngine.t -> Prop :=
  | step_record (e : BacktestEngine.t) (t : datetime) :
      step cfg e (BacktestEngine.record_equity e t)
  | step_exit (e : BacktestEngine.t) (r : ref) (t : datetime) (bar : Bar.t)
      (e' : BacktestEngine.t) (res : result unit) :
      In r (RiskManager.open_positions (BacktestEngine.risk_manager e)) ->
      BacktestEngine.process_position cfg e r t bar = (e', res) ->
      step cfg e e'
  | step_entry (e : BacktestEngine.t) (df : DataFrame) (t : datetime)
      (e' : BacktestEngine.t) (res : result unit) :
      BacktestEngine.generate_new_signals cfg e df t = (e', res) ->
      step cfg e e'
  | step_end (e : BacktestEngine.t) (r : ref) (price : Q) (t : datetime)
      (rm' : RiskManager.t) (res : result Trade.t) :
      In r (RiskManager.open_positions (BacktestEngine.risk_manager e)) ->
      RiskManager.close_position cfg (BacktestEngine.risk_manager e) r price t "END"
      = (rm', res) ->
      step cfg e (BacktestEngine.with_risk_manager e rm').

(** The states a simulation started on a fresh engine passes through. *)
Definition reachable (cfg : Config) (sym : string) (capital : option Q)
  (e : BacktestEngine.t) : Prop :=
  rtc (step cfg) (BacktestEngine.init cfg sym capital) e.

(** The timestamps of a frame are pairwise distinct (unique index). *)
Definition unique_index (df : DataFrame) : Prop := NoDup (map Bar.timestamp df).


(** The equity at the start of each processed bar, for the bars [run] gets
    through before an exception, if any. *)
Fixpoint equity_at_bar_starts
  (cfg : Config) (e : BacktestEngine.t) (df : DataFrame) (rows : list Bar.t) : list Q :=
  match rows with
  | [] => []
  | bar :: rest =>
      RiskManager.current_equity (BacktestEngine.risk_manager e)
      :: match BacktestEngine._process_bar cfg e df (Bar.timestamp bar) bar with
         | (e', Ok _) => equity_at_bar_starts cfg e' df rest
         | (_, Raise _) => []
         end
  end.

(** One day of bars: an Asian session from 1.1000 to 1.1050, a close at
    1.1053 at the London open, then a fall through 1.1000. *)
Definition asian_bar : Bar.t :=
  {| Bar.timestamp := mk_time 1 0; Bar.open := 11020 # 10000;
     Bar.high := 11050 # 10000; Bar.low := 11000 # 10000;
     Bar.close := 11030 # 10000 |}.

Definition breakout_bar : Bar.t :=
  {| Bar.timestamp := mk_time 8 0; Bar.open := 11040 # 10000;
     Bar.high := 11060 # 10000; Bar.low := 11035 # 10000;
     Bar.close := 11053 # 10000 |}.

Definition stop_bar : Bar.t :=
  {| Bar.timestamp := mk_time 9 0; Bar.open := 11050 # 10000;
     Bar.high := 11055 # 10000; Bar.low := 10990 # 10000;
     Bar.close := 11000 # 10000 |}.

Definition sample_day : DataFrame := [asian_bar; breakout_bar; stop_bar].

(** A fresh engine on EURUSD with the configured capital. *)
Definition fresh_engine : BacktestEngine.t := BacktestEngine.init config "EURUSD" None.


(** ** Replaying calls of the strategy *)

(** The results of calling [generate_signal] on each (frame, timestamp) in
    turn, the strategy carrying its state from call to call. *)
Fixpoint feed (cfg : Config) (s : LondonBreakoutStrategy.t)
  (calls : list (DataFrame * datetime)) : list (result (option TradeSignal.t)) :=
  match calls with
  | [] => []
  | (df, t) :: rest =>
      let '(s', r) := LondonBreakoutStrategy.generate_signal cfg s df t in
      r :: feed cfg s' rest
  end.

(** Calls arrive in calendar order, none before day [d]. *)
Fixpoint chronological (d : Z) (calls : list (DataFrame * datetime)) : Prop :=
  match calls with
  | [] => True
  | (_, t) :: rest => d <= date_of t /\ chronological (date_of t) rest
  end.

(** A second day-one frame in which the 09:00 bar breaks out as well. *)
Definition second_breakout_bar : Bar.t :=
  {| Bar.timestamp := mk_time 9 0; Bar.open := 11055 # 10000;
     Bar.high := 11080 # 10000; Bar.low := 11050 # 10000;
     Bar.close := 11075 # 10000 |}.

Definition two_breakouts : DataFrame := [asian_bar; breakout_bar; second_breakout_bar].

(** A day on which nothing breaks out. *)
Definition quiet_day : DataFrame := [asian_bar].


(** ** strategy.py, TradingSession *)

Module TradingSession.
Definition is_asian_session (cfg : Config) (dt : datetime) : bool :=
  (ASIAN_SESSION_START cfg <=? time_of dt) && (time_of dt <? ASIAN_SESSION_END cfg).

Definition is_london_session (cfg : Config) (dt : datetime) : bool :=
  (LONDON_OPEN cfg <=? time_of dt) && (time_of dt <? LONDON_CLOSE cfg).

Definition is_trading_window (cfg : Config) (dt : datetime) : bool :=
  (LONDON_OPEN cfg <=? time_of dt)
  && (time_of dt <=? LondonBreakoutStrategy.london_window_end cfg).
End TradingSession.

(** ** Notions for the strategy *)

(** The range a strategy has cached, if any, passed [is_valid]. *)
Definition cached_range_valid (cfg : Config) (s : LondonBreakoutStrategy.t) : Prop :=
  forall r, LondonBreakoutStrategy.current_range s = Some r ->
            AsianRange.is_valid cfg r = true.

(** The bar lies in the Asian session of the day of [t]. *)
Definition in_asian_session (cfg : Config) (t : datetime) (b : Bar.t) : Prop :=
  datetime_combine (date_of t) (ASIAN_SESSION_START cfg) <= Bar.timestamp b
  /\ Bar.timestamp b < datetime_combine (date_of t) (ASIAN_SESSION_END cfg).

(** A day whose Asian session spans 10 pips only, followed by a strong
    move up at the London open. *)
Definition narrow_asian_bar : Bar.t :=
  {| Bar.timestamp := mk_time 1 0; Bar.open := 11005 # 10000;
     Bar.high := 11010 # 10000; Bar.low := 11000 # 10000;
     Bar.close := 11005 # 10000 |}.

Definition strong_bar : Bar.t :=
  {| Bar.timestamp := mk_time 8 0; Bar.open := 11010 # 10000;
     Bar.high := 11110 # 10000; Bar.low := 11010 # 10000;
     Bar.close := 11100 # 10000 |}.

Definition narrow_day : DataFrame := [narrow_asian_bar; strong_bar].


(** The configuration with another RISK_REWARD_RATIO, as the optimizer sets
    it. *)
Definition with_risk_reward_ratio (cfg : Config) (ratio : Q) : Config :=
  {| ASIAN_SESSION_START := ASIAN_SESSION_START cfg;
     ASIAN_SESSION_END := ASIAN_SESSION_END cfg;
     LONDON_OPEN := LONDON_OPEN cfg;
     LONDON_CLOSE := LONDON_CLOSE cfg;
     TRADING_WINDOW_HOURS := TRADING_WINDOW_HOURS cfg;
     BREAKOUT_BUFFER_PIPS := BREAKOUT_BUFFER_PIPS cfg;
     MIN_RANGE_PIPS := MIN_RANGE_PIPS cfg;
     MAX_RANGE_PIPS := MAX_RANGE_PIPS cfg;
     RISK_PER_TRADE_PERCENT := RISK_PER_TRADE_PERCENT cfg;
     POSITION_SIZE_PER_100 := POSITION_SIZE_PER_100 cfg;
     RISK_REWARD_RATIO := ratio;
     MIN_RISK_REWARD := MIN_RISK_REWARD cfg;
     MAX_DAILY_LOSS_PERCENT := MAX_DAILY_LOSS_PERCENT cfg;
     MAX_OPEN_POSITIONS := MAX_OPEN_POSITIONS cfg;
     MAX_POSITION_SIZE_LOTS := MAX_POSITION_SIZE_LOTS cfg;
     USE_TREND_FILTER := USE_TREND_FILTER cfg;
     TREND_EMA_PERIOD := TREND_EMA_PERIOD cfg;
     TRADE_WITH_TREND_ONLY := TRADE_WITH_TREND_ONLY cfg;
     INITIAL_CAPITAL := INITIAL_CAPITAL cfg;
     COMMISSION_PER_LOT := COMMISSION_PER_LOT cfg;
     USE_TIME_EXIT := USE_TIME_EXIT cfg;
     EXIT_BEFORE_CLOSE_MINUTES := EXIT_BEFORE_CLOSE_MINUTES cfg;
     USE_TRAILING_STOP := USE_TRAILING_STOP cfg;
     TRAILING_STOP_ACTIVATION_RR := TRAILING_STOP_ACTIVATION_RR cfg;
     TRAILING_STOP_DISTANCE_PIPS := TRAILING_STOP_DISTANCE_PIPS cfg |}.


(** ** Notions for the risk manager *)

(** The closed trades whose exit falls on day [d]. *)
Definition day_trades (d : Z) (trades : list Trade.t) : list Trade.t :=
  List.filter (fun tr => date_of (Trade.exit_time tr) =? d) trades.

(** The per-day buckets agree with the trade log: a day has a bucket exactly
    when a trade was closed on it, and the bucket is the sum of the net P&L
    of that day's trades. *)
Definition daily_pnl_matches (rm : RiskManager.t) : Prop :=
  forall d,
    match RiskManager.daily_pnl rm !! d with
    | Some v =>
        (v == py_sum (map Trade.net_pnl (day_trades d (RiskManager.closed_trades rm))))%Q
        /\ day_trades d (RiskManager.closed_trades rm) <> []
    | None => day_trades d (RiskManager.closed_trades rm) = []
    end.


(** ** Notions for the trade log *)

(** A trade as the simulator logs it: of the tracked symbol, closed for one
    of the four reasons the simulator uses, at the stop or the target level
    when that is the reason, and with P&L fields computed from its prices and
    size. *)
Definition trade_well_formed (cfg : Config) (sym : string) (tr : Trade.t) : Prop :=
  Trade.symbol tr = sym
  /\ ((Trade.exit_reason tr = "SL" /\ Trade.exit_price tr = Trade.stop_loss tr)
      \/ (Trade.exit_reason tr = "TP" /\ Trade.exit_price tr = Trade.take_profit tr)
      \/ Trade.exit_reason tr = "TIME"
      \/ Trade.exit_reason tr = "END")
  /\ Trade.pnl_pips tr
     = match Trade.side tr with
       | LONG => ((Trade.exit_price tr - Trade.entry_price tr) * 10000)%Q
       | SHORT => ((Trade.entry_price tr - Trade.exit_price tr) * 10000)%Q
       end
  /\ Trade.pnl_amount tr = (Trade.pnl_pips tr * (10 * Trade.size_lots tr))%Q
  /\ Trade.commission tr = (COMMISSION_PER_LOT cfg * Trade.size_lots tr)%Q.


(** The invariant of the log along a simulation. *)
Definition log_inv (cfg : Config) (sym : string) (e : BacktestEngine.t) : Prop :=
  BacktestEngine.symbol e = sym
  /\ engine_inv e
  /\ Forall (trade_well_formed cfg sym)
       (RiskManager.closed_trades (BacktestEngine.risk_manager e)).

(** ** The grid search *)

(** Whether a backtest of the whole frame under [cfg], from a fresh engine
    on [INITIAL_CAPITAL], closes at least one trade. *)
Definition closes_a_trade (symbol : string) (df : DataFrame) (cfg : Config) : bool :=
  match RiskManager.closed_trades
          (BacktestEngine.risk_manager
             (fst (BacktestEngine.run cfg
                     (BacktestEngine.init cfg symbol (Some (INITIAL_CAPITAL cfg)))
                     df None None))) with
  | [] => false
  | _ :: _ => true
  end.

(** ** Two days of bars *)

(** The bars of [two_breakouts] followed by a second day with the same Asian
    range and a breakout at 08:00. *)
Definition next_asian_bar : Bar.t :=
  {| Bar.timestamp := datetime_combine 1 (mk_time 1 0); Bar.open := 11020 # 10000;
     Bar.high := 11050 # 10000; Bar.low := 11000 # 10000;
     Bar.close := 11030 # 10000 |}.

Definition next_breakout_bar : Bar.t :=
  {| Bar.timestamp := datetime_combine 1 (mk_time 8 0); Bar.open := 11040 # 10000;
     Bar.high := 11060 # 10000; Bar.low := 11035 # 10000;
     Bar.close := 11053 # 10000 |}.

Definition two_days : DataFrame :=
  [asian_bar; breakout_bar; second_breakout_bar; next_asian_bar; next_breakout_bar].

(** The report [_generate_results] computes at the end of that backtest. *)
Definition backtest_report (symbol : string) (df : DataFrame) (cfg : Config)
  : gmap string value :=
  BacktestEngine._generate_results
    (fst (BacktestEngine.run cfg
            (BacktestEngine.init cfg symbol (Some (INITIAL_CAPITAL cfg)))
            df None None)) df.

(** A result row holds the combination and, under the seven keys in order,
    the values the report has for them. *)
Definition row_of_report {P : Type} (symbol : string) (df : DataFrame)
  (r : StrategyOptimizer.row P) (pc : P * Config) : Prop :=
  StrategyOptimizer.params r = fst pc
  /\ map fst (StrategyOptimizer.metrics r) = StrategyOptimizer.row_keys
  /\ Forall (fun kv => backtest_report symbol df (snd pc) !! fst kv = Some (snd kv))
       (StrategyOptimizer.metrics r).

(** * Arithmetic of the comparisons *)

Lemma Qltb_true (x y : Q) : Qltb x y = true <-> (x < y)%Q.
Proof.
  unfold Qltb. rewrite negb_true_iff. split.
  - intros H. apply Qnot_le_lt. intros Hle.
    apply Qle_bool_iff in Hle. congruence.
  - intros H. destruct (Qle_bool y x) eqn:E; [|reflexivity].
    apply Qle_bool_iff in E. exfalso. apply (Qlt_not_le _ _ H E).
Qed.

Lemma Qltb_false (x y : Q) : Qltb x y = false <-> (y <= x)%Q.
Proof.
  unfold Qltb. rewrite negb_false_iff. apply Qle_bool_iff.
Qed.

Lemma Qgtb_true (x y : Q) : Qgtb x y = true <-> (y < x)%Q.
Proof. apply (Qltb_true y x). Qed.

Lemma Qgtb_false (x y : Q) : Qgtb x y = false <-> (x <= y)%Q.
Proof. apply (Qltb_false y x). Qed.

Lemma Qle_bool_false (x y : Q) : Qle_bool x y = false <-> (y < x)%Q.
Proof.
  split.
  - intros H. apply Qnot_le_lt. intros Hle. apply Qle_bool_iff in Hle. congruence.
  - intros H. destruct (Qle_bool x y) eqn:E; [|reflexivity].
    apply Qle_bool_iff in E. exfalso. apply (Qlt_not_le _ _ H E).
Qed.

(** * The trailing stop *)

Section TrailingStop.
Variable cfg : Config.

Local Abbreviation update := (RiskManager.update_trailing_stop cfg).

(** What one call does, case by case. *)
Lemma update_trailing_stop_cases (p : Position.t) (price : Q) :
  (update p price = (p, false))
  \/ (exists new_stop,
        update p price = (Position.set_stop_loss p new_stop, true)
        /\ USE_TRAILING_STOP cfg = true
        /\ (Position.risk_pips p * TRAILING_STOP_ACTIVATION_RR cfg
            <= Position.calculate_pnl p price)%Q
        /\ tighter (Position.side p) new_stop (Position.stop_loss p)
        /\ new_stop = match Position.side p with
                      | LONG => (price - TRAILING_STOP_DISTANCE_PIPS cfg / 10000)%Q
                      | SHORT => (price + TRAILING_STOP_DISTANCE_PIPS cfg / 10000)%Q
                      end).
Proof.
  unfold RiskManager.update_trailing_stop.
  destruct (USE_TRAILING_STOP cfg) eqn:Euse; simpl; [|by left].
  destruct (Qltb _ _) eqn:Eact; [by left|].
  apply Qltb_false in Eact.
  unfold tighter.
  destruct (Position.side p) eqn:Eside.
  - destruct (Qgtb _ _) eqn:Egt; [|by left].
    apply Qgtb_true in Egt. right. eexists. repeat split; eauto.
  - destruct (Qltb (price + _) _) eqn:Elt; [|by left].
    apply Qltb_true in Elt. right. eexists. repeat split; eauto.
Qed.

Lemma update_trailing_stop_side (p : Position.t) (price : Q) :
  Position.side (fst (update p price)) = Position.side p.
Proof.
  destruct (update_trailing_stop_cases p price) as [-> | (s & -> & _)]; reflexivity.
Qed.

Lemma update_trailing_stop_entry (p : Position.t) (price : Q) :
  Position.entry_price (fst (update p price)) = Position.entry_price p.
Proof.
  destruct (update_trailing_stop_cases p price) as [-> | (s & -> & _)]; reflexivity.
Qed.

Lemma update_trailing_stop_symbol (p : Position.t) (price : Q) :
  Position.symbol (fst (update p price)) = Position.symbol p.
Proof.
  destruct (update_trailing_stop_cases p price) as [-> | (s & -> & _)]; reflexivity.
Qed.

Lemma calculate_pnl_frame (p q : Position.t) (price : Q) :
  Position.side p = Position.side q ->
  Position.entry_price p = Position.entry_price q ->
  Position.calculate_pnl p price = Position.calculate_pnl q price.
Proof. unfold Position.calculate_pnl. intros -> ->. reflexivity. Qed.

Lemma risk_pips_frame (p q : Position.t) :
  Position.entry_price p = Position.entry_price q ->
  Position.stop_loss p = Position.stop_loss q ->
  Position.risk_pips p = Position.risk_pips q.
Proof. unfold Position.risk_pips. intros -> ->. reflexivity. Qed.

(** A price whose profit is below the original activation level cannot
    produce a stop better than the one a trailed position has. *)
Lemma below_activation_no_update (p0 p : Position.t) (price : Q) :
  trailed_from cfg p0 p ->
  (Position.calculate_pnl p price
   < Position.risk_pips p0 * TRAILING_STOP_ACTIVATION_RR cfg)%Q ->
  update p price = (p, false).
Proof.
  intros (Hside & Hentry & Hstop) Hlow.
  destruct (update_trailing_stop_cases p price)
    as [H | (s & _ & _ & Hact & Htight & Hs)]; [exact H|].
  exfalso.
  destruct Hstop as [Hsame | (x & Hx & Hset)].
  - rewrite (risk_pips_frame p p0 Hentry Hsame) in Hact.
    apply (Qlt_not_le _ _ Hlow Hact).
  - rewrite (calculate_pnl_frame p p0 price Hside Hentry) in Hlow.
    rewrite Hside in Htight, Hs. rewrite Hset in Htight. subst s.
    unfold Position.calculate_pnl, tighter in *.
    destruct (Position.side p0); lra.
Qed.

Lemma update_trailing_stop_trailed (p0 p : Position.t) (price : Q) :
  trailed_from cfg p0 p -> trailed_from cfg p0 (fst (update p price)).
Proof.
  intros Hinv.
  destruct (update_trailing_stop_cases p price)
    as [-> | (s & Heq & _ & Hact & Htight & Hs)]; [exact Hinv|].
  rewrite Heq. simpl.
  destruct Hinv as (Hside & Hentry & Hstop).
  split; [exact Hside|]. split; [exact Hentry|].
  right. exists price. simpl. split.
  - rewrite <- (calculate_pnl_frame p p0 price Hside Hentry).
    destruct Hstop as [Hsame | (x & Hx & Hset)].
    + rewrite <- (risk_pips_frame p p0 Hentry Hsame). exact Hact.
    + (* the new stop beats one set from [x], so the price beats [x] *)
      rewrite Hside in Htight, Hs. rewrite Hset in Htight. subst s.
      rewrite (calculate_pnl_frame p p0 price Hside Hentry).
      unfold Position.calculate_pnl, tighter in *.
      destruct (Position.side p0); lra.
  - rewrite <- Hside. exact Hs.
Qed.

Lemma trail_many_trailed (p0 : Position.t) (prices : list Q) (p : Position.t) :
  trailed_from cfg p0 p -> trailed_from cfg p0 (trail_many cfg p prices).
Proof.
  revert p. induction prices as [|x rest IH]; intros p Hinv; simpl; [exact Hinv|].
  apply IH. apply update_trailing_stop_trailed. exact Hinv.
Qed.

Lemma trailed_from_refl (p : Position.t) : trailed_from cfg p p.
Proof. repeat split; by left. Qed.

Lemma not_looser_trans (s : Side) (a b c : Q) :
  not_looser s a b -> not_looser s b c -> not_looser s a c.
Proof. destruct s; simpl; lra. Qed.

Lemma update_trailing_stop_not_looser (p : Position.t) (price : Q) :
  not_looser (Position.side p)
    (Position.stop_loss (fst (update p price))) (Position.stop_loss p).
Proof.
  destruct (update_trailing_stop_cases p price)
    as [-> | (s & -> & _ & _ & Htight & _)]; simpl.
  - destruct (Position.side p); simpl; lra.
  - unfold tighter in Htight. destruct (Position.side p); simpl; lra.
Qed.

Lemma trail_many_side (prices : list Q) (p : Position.t) :
  Position.side (trail_many cfg p prices) = Position.side p.
Proof.
  revert p. induction prices as [|x rest IH]; intros p; simpl; [reflexivity|].
  rewrite IH. apply update_trailing_stop_side.
Qed.

Lemma trail_many_not_looser (prices : list Q) (p : Position.t) :
  not_looser (Position.side p)
    (Position.stop_loss (trail_many cfg p prices)) (Position.stop_loss p).
Proof.
  revert p. induction prices as [|x rest IH]; intros p; simpl.
  - destruct (Position.side p); simpl; lra.
  - eapply not_looser_trans; [|apply update_trailing_stop_not_looser].
    rewrite <- (update_trailing_stop_side p x). apply IH.
Qed.

End TrailingStop.

(** C5. Whatever updates a position has been through since it was opened as
    [p0], a call of update_trailing_stop at a price whose unrealized P&L in
    pips is strictly below (risk in pips of [p0], entry to original stop)
    times TRAILING_STOP_ACTIVATION_RR leaves the position, and so its
    stop-loss, unchanged and returns false. *)
Theorem trailing_stop_needs_activation
  (cfg : Config) (p0 : Position.t) (prices : list Q) (price : Q) :
  (Position.calculate_pnl (trail_many cfg p0 prices) price
   < Position.risk_pips p0 * TRAILING_STOP_ACTIVATION_RR cfg)%Q ->
  RiskManager.update_trailing_stop cfg (trail_many cfg p0 prices) price
  = (trail_many cfg p0 prices, false).
Proof.
  intros Hlow.
  apply (below_activation_no_update cfg p0); [|exact Hlow].
  apply trail_many_trailed, trailed_from_refl.
Qed.

(** C6. One call of update_trailing_stop either returns false and leaves the
    position as it is, or returns true and changes only the stop-loss, to a
    strictly better one for the side (higher for LONG, lower for SHORT); over
    any series of calls the stop never gets worse than it was. *)
Theorem trailing_stop_only_tightens (cfg : Config) (p : Position.t) (price : Q) :
  (RiskManager.update_trailing_stop cfg p price = (p, false)
   \/ exists new_stop,
        RiskManager.update_trailing_stop cfg p price
        = (Position.set_stop_loss p new_stop, true)
        /\ tighter (Position.side p) new_stop (Position.stop_loss p))
  /\ forall prices,
       not_looser (Position.side p)
         (Position.stop_loss (trail_many cfg p prices)) (Position.stop_loss p).
Proof.
  split.
  - destruct (update_trailing_stop_cases cfg p price)
      as [H | (s & H & _ & _ & Htight & _)]; [by left|].
    right. exists s. split; assumption.
  - intros prices. apply trail_many_not_looser.
Qed.

Lemma trailing_stop_needs_activation_witness :
  RiskManager.update_trailing_stop config
    (trail_many config long_position [11050 # 10000]) (11045 # 10000)
  = (trail_many config long_position [11050 # 10000], false).
Proof.
  apply (trailing_stop_needs_activation config long_position
           [11050 # 10000] (11045 # 10000)).
  vm_compute. reflexivity.
Defined.

(** * Closing a position *)

Section Closing.
Variable cfg : Config.

Lemma same_position_refl (h : list Position.t) (r : ref) :
  RiskManager.same_position h r r = true.
Proof. unfold RiskManager.same_position. rewrite Nat.eqb_refl. reflexivity. Qed.

Lemma list_remove_in (h : list Position.t) (r : ref) (l : list ref) :
  In r l -> exists l', RiskManager.list_remove h r l = Some l'.
Proof.
  induction l as [|y l IH]; simpl; [tauto|].
  intros [-> | Hin].
  - rewrite same_position_refl. eauto.
  - destruct (RiskManager.same_position h y r); [eauto|].
    destruct (IH Hin) as (l' & ->). eauto.
Qed.

Lemma list_remove_length (h : list Position.t) (r : ref) (l l' : list ref) :
  RiskManager.list_remove h r l = Some l' -> length l = S (length l').
Proof.
  revert l'. induction l as [|y l IH]; simpl; intros l' H; [discriminate|].
  destruct (RiskManager.same_position h y r).
  - injection H as <-. reflexivity.
  - destruct (RiskManager.list_remove h r l) as [l''|]; [|discriminate].
    injection H as <-. simpl. f_equal. apply IH. reflexivity.
Qed.

Lemma list_remove_subset (h : list Position.t) (r : ref) (l l' : list ref) :
  RiskManager.list_remove h r l = Some l' -> forall x, In x l' -> In x l.
Proof.
  revert l'. induction l as [|y l IH]; simpl; intros l' H x Hx; [discriminate|].
  destruct (RiskManager.same_position h y r).
  - injection H as <-. by right.
  - destruct (RiskManager.list_remove h r l) as [l''|]; [|discriminate].
    injection H as <-. destruct Hx as [-> | Hx]; [by left|].
    right. eapply IH; eauto.
Qed.

(** Closing a listed position succeeds: the trade is appended, its net P&L
    is added to the equity, the position leaves the open list. *)
Lemma close_position_listed
  (rm : RiskManager.t) (r : ref) (p : Position.t)
  (exit_price : Q) (exit_time : datetime) (exit_reason : string) :
  RiskManager.objects rm !! r = Some p ->
  In r (RiskManager.open_positions rm) ->
  exists rm',
    RiskManager.close_position cfg rm r exit_price exit_time exit_reason
    = (rm', Ok (RiskManager.make_trade cfg p exit_price exit_time exit_reason))
    /\ RiskManager.closed_trades rm'
       = RiskManager.closed_trades rm
         ++ [RiskManager.make_trade cfg p exit_price exit_time exit_reason]
    /\ RiskManager.current_equity rm'
       = (RiskManager.current_equity rm
          + Trade.net_pnl (RiskManager.make_trade cfg p exit_price exit_time exit_reason))%Q
    /\ RiskManager.initial_capital rm' = RiskManager.initial_capital rm
    /\ RiskManager.objects rm' = RiskManager.objects rm
    /\ RiskManager.list_remove (RiskManager.objects rm) r (RiskManager.open_positions rm)
       = Some (RiskManager.open_positions rm').
Proof.
  intros Hobj Hin. unfold RiskManager.close_position. rewrite Hobj.
  destruct (list_remove_in (RiskManager.objects rm) r _ Hin) as (l' & Hrm).
  rewrite Hrm. eexists. split; [reflexivity|]. simpl. repeat split.
Qed.

Lemma stop_check_hit (p : Position.t) (bar : Bar.t) :
  stop_touched p bar ->
  BacktestEngine.check_stop_and_target p bar = Some (Position.stop_loss p, "SL").
Proof.
  unfold stop_touched, BacktestEngine.check_stop_and_target.
  destruct (Position.side p); intros H; apply Qle_bool_iff in H; rewrite H; reflexivity.
Qed.

Lemma target_check_hit (p : Position.t) (bar : Bar.t) :
  ~ stop_touched p bar -> target_touched p bar ->
  BacktestEngine.check_stop_and_target p bar = Some (Position.take_profit p, "TP").
Proof.
  unfold stop_touched, target_touched, BacktestEngine.check_stop_and_target.
  destruct (Position.side p); intros Hs Ht;
    (destruct (Qle_bool _ _) eqn:E; [apply Qle_bool_iff in E; contradiction|]);
    apply Qle_bool_iff in Ht; rewrite Ht; reflexivity.
Qed.

(** A triggered stop or target closes the listed position at the decided
    price. *)
Lemma process_position_exit
  (e : BacktestEngine.t) (r : ref) (p : Position.t) (t : datetime) (bar : Bar.t)
  (price : Q) (reason : string) :
  RiskManager.objects (BacktestEngine.risk_manager e) !! r = Some p ->
  In r (RiskManager.open_positions (BacktestEngine.risk_manager e)) ->
  BacktestEngine.exit_decision cfg p t bar = Some (price, reason) ->
  exists rm',
    BacktestEngine.process_position cfg e r t bar
    = (BacktestEngine.with_risk_manager e rm', Ok tt)
    /\ RiskManager.close_position cfg (BacktestEngine.risk_manager e) r price t reason
       = (rm', Ok (RiskManager.make_trade cfg p price t reason))
    /\ RiskManager.closed_trades rm'
       = RiskManager.closed_trades (BacktestEngine.risk_manager e)
         ++ [RiskManager.make_trade cfg p price t reason].
Proof.
  intros Hobj Hin Hdec.
  destruct (close_position_listed _ r p price t reason Hobj Hin)
    as (rm' & Hclose & Hlog & _).
  exists rm'. unfold BacktestEngine.process_position.
  rewrite Hobj, Hdec, Hclose. auto.
Qed.

End Closing.

(** C10. When a bar triggers the stop-loss or the take-profit of an open
    position, the trade that is recorded has as exit price the stop-loss
    level (reason "SL", whenever the stop is reached) or the take-profit
    level (reason "TP", when only the target is reached), and its P&L in pips
    and in money is computed from that level: the bar's low and high,
    however far beyond the level, do not enter the trade record. *)
Theorem exit_price_is_the_level
  (cfg : Config) (e : BacktestEngine.t) (r : ref) (p : Position.t)
  (t : datetime) (bar : Bar.t) :
  RiskManager.objects (BacktestEngine.risk_manager e) !! r = Some p ->
  In r (RiskManager.open_positions (BacktestEngine.risk_manager e)) ->
  stop_touched p bar \/ target_touched p bar ->
  exists rm' tr,
    BacktestEngine.process_position cfg e r t bar
    = (BacktestEngine.with_risk_manager e rm', Ok tt)
    /\ RiskManager.closed_trades rm'
       = RiskManager.closed_trades (BacktestEngine.risk_manager e) ++ [tr]
    /\ ((stop_touched p bar
         /\ Trade.exit_reason tr = "SL"
         /\ Trade.exit_price tr = Position.stop_loss p)
        \/ (~ stop_touched p bar
            /\ Trade.exit_reason tr = "TP"
            /\ Trade.exit_price tr = Position.take_profit p))
    /\ Trade.pnl_pips tr = Position.calculate_pnl p (Trade.exit_price tr)
    /\ Trade.pnl_amount tr
       = (Position.calculate_pnl p (Trade.exit_price tr) * (10 * Position.size_lots p))%Q.
Proof.
  intros Hobj Hin Htouch.
  assert (Hcases : stop_touched p bar \/ (~ stop_touched p bar /\ target_touched p bar)).
  { destruct (Position.side p) eqn:Es; unfold stop_touched, target_touched in *;
      rewrite Es in *.
    - destruct (Qlt_le_dec (Position.stop_loss p) (Bar.low bar)) as [Hlt | Hle].
      + right. split; [intros H; apply (Qlt_not_le _ _ Hlt H)|].
        destruct Htouch as [H | H]; [exfalso; apply (Qlt_not_le _ _ Hlt H)|exact H].
      + by left.
    - destruct (Qlt_le_dec (Bar.high bar) (Position.stop_loss p)) as [Hlt | Hle].
      + right. split; [intros H; apply (Qlt_not_le _ _ Hlt H)|].
        destruct Htouch as [H | H]; [exfalso; apply (Qlt_not_le _ _ Hlt H)|exact H].
      + by left. }
  destruct Hcases as [Hs | [Hns Ht]].
  - assert (Hdec : BacktestEngine.exit_decision cfg p t bar
                   = Some (Position.stop_loss p, "SL")).
    { unfold BacktestEngine.exit_decision. rewrite (stop_check_hit p bar Hs).
      reflexivity. }
    destruct (process_position_exit cfg e r p t bar _ _ Hobj Hin Hdec)
      as (rm' & Hproc & _ & Hlog).
    exists rm', (RiskManager.make_trade cfg p (Position.stop_loss p) t "SL").
    split; [exact Hproc|]. split; [exact Hlog|]. split; [left; auto|].
    unfold Position.calculate_pnl. simpl. destruct (Position.side p); split; reflexivity.
  - assert (Hdec : BacktestEngine.exit_decision cfg p t bar
                   = Some (Position.take_profit p, "TP")).
    { unfold BacktestEngine.exit_decision. rewrite (target_check_hit p bar Hns Ht).
      reflexivity. }
    destruct (process_position_exit cfg e r p t bar _ _ Hobj Hin Hdec)
      as (rm' & Hproc & _ & Hlog).
    exists rm', (RiskManager.make_trade cfg p (Position.take_profit p) t "TP").
    split; [exact Hproc|]. split; [exact Hlog|]. split; [right; auto|].
    unfold Position.calculate_pnl. simpl. destruct (Position.side p); split; reflexivity.
Qed.

Lemma exit_price_is_the_level_witness :
  exists rm' tr,
    BacktestEngine.process_position config engine_with_long 0%nat (mk_time 9 0) gap_bar
    = (BacktestEngine.with_risk_manager engine_with_long rm', Ok tt)
    /\ RiskManager.closed_trades rm'
       = RiskManager.closed_trades (BacktestEngine.risk_manager engine_with_long) ++ [tr]
    /\ ((stop_touched long_position gap_bar
         /\ Trade.exit_reason tr = "SL"
         /\ Trade.exit_price tr = Position.stop_loss long_position)
        \/ (~ stop_touched long_position gap_bar
            /\ Trade.exit_reason tr = "TP"
            /\ Trade.exit_price tr = Position.take_profit long_position))
    /\ Trade.pnl_pips tr = Position.calculate_pnl long_position (Trade.exit_price tr)
    /\ Trade.pnl_amount tr
       = (Position.calculate_pnl long_position (Trade.exit_price tr)
          * (10 * Position.size_lots long_position))%Q.
Proof.
  apply (exit_price_is_the_level config engine_with_long 0%nat long_position
           (mk_time 9 0) gap_bar).
  - reflexivity.
  - simpl. left. reflexivity.
  - left. vm_compute. discriminate.
Defined.

(** * Rejection of an empty window *)

(** C7. When the bar series is empty after the start/end date filters, run
    raises ValueError and returns the engine exactly as it received it; for
    a fresh engine the equity curve and the date list are empty, the equity
    is the initial capital, and there is no open position and no trade. *)
Theorem empty_window_is_rejected
  (cfg : Config) (e : BacktestEngine.t) (df : DataFrame)
  (start_date end_date : option datetime) :
  BacktestEngine.filter_dates df start_date end_date = [] ->
  BacktestEngine.run cfg e df start_date end_date
  = (e, Raise (ValueError "No data available for backtest period"))
  /\ forall sym capital,
       e = BacktestEngine.init cfg sym capital ->
       let e' := fst (BacktestEngine.run cfg e df start_date end_date) in
       BacktestEngine.equity_curve e' = []
       /\ BacktestEngine.dates e' = []
       /\ RiskManager.current_equity (BacktestEngine.risk_manager e')
          = RiskManager.initial_capital (BacktestEngine.risk_manager e')
       /\ RiskManager.open_positions (BacktestEngine.risk_manager e') = []
       /\ RiskManager.closed_trades (BacktestEngine.risk_manager e') = [].
Proof.
  intros Hempty.
  assert (Hrun : BacktestEngine.run cfg e df start_date end_date
                 = (e, Raise BacktestEngine.no_data)).
  { unfold BacktestEngine.run. rewrite Hempty. reflexivity. }
  split; [exact Hrun|].
  intros sym capital ->. rewrite Hrun. simpl. repeat split.
Qed.

Lemma empty_window_is_rejected_witness :
  BacktestEngine.run config fresh_engine sample_day (Some (datetime_combine 1 0)) None
  = (fresh_engine, Raise (ValueError "No data available for backtest period")).
Proof.
  apply (empty_window_is_rejected config fresh_engine sample_day
           (Some (datetime_combine 1 0)) None).
  vm_compute. reflexivity.
Defined.

(** * Invariants of the simulation *)

Lemma py_sum_snoc (l : list Q) (x : Q) : py_sum (l ++ [x]) = (py_sum l + x)%Q.
Proof. unfold py_sum. rewrite fold_left_app. reflexivity. Qed.

Section Invariants.
Variable cfg : Config.

Lemma init_inv (sym : string) (capital : option Q) :
  engine_inv (BacktestEngine.init cfg sym capital).
Proof.
  split; [by left|]. unfold equity_conserved. simpl. unfold py_sum. simpl. ring.
Qed.

(** [open_position] on a manager with no open position. *)
Lemma open_position_from_empty
  (rm : RiskManager.t) (sym : string) (side : Side) (entry stop target : Q)
  (t : datetime) (size : option Q) :
  RiskManager.open_positions rm = [] ->
  let rm' := fst (RiskManager.open_position cfg rm sym side entry stop target t size) in
  (RiskManager.open_positions rm' = []
   \/ exists r p,
        RiskManager.open_positions rm' = [r]
        /\ RiskManager.objects rm' !! r = Some p
        /\ Position.symbol p = sym).
Proof.
  intros Hempty. unfold RiskManager.open_position.
  destruct (Qeq_bool _ 0); simpl; [by left|].
  destruct (RiskManager.can_open_position _ _ _ _) as [[|] reason]; simpl.
  - right. rewrite Hempty. simpl. eexists _, _. split; [reflexivity|].
    split; [apply list_lookup_middle; reflexivity | reflexivity].
  - by left.
Qed.

(** [open_position] never touches the equity, the capital or the trade log. *)
Lemma open_position_frame
  (rm : RiskManager.t) (sym : string) (side : Side) (entry stop target : Q)
  (t : datetime) (size : option Q) :
  let rm' := fst (RiskManager.open_position cfg rm sym side entry stop target t size) in
  RiskManager.current_equity rm' = RiskManager.current_equity rm
  /\ RiskManager.initial_capital rm' = RiskManager.initial_capital rm
  /\ RiskManager.closed_trades rm' = RiskManager.closed_trades rm.
Proof.
  unfold RiskManager.open_position.
  destruct (Qeq_bool _ 0); simpl; [auto|].
  destruct (RiskManager.can_open_position _ _ _ _) as [[|] reason]; simpl; auto.
Qed.

(** [update_trailing_stop] on a stored object never touches the equity, the
    capital, the open list or the trade log. *)
Lemma update_trailing_stop_at_frame (rm : RiskManager.t) (r : ref) (price : Q) :
  let rm' := fst (RiskManager.update_trailing_stop_at cfg rm r price) in
  RiskManager.current_equity rm' = RiskManager.current_equity rm
  /\ RiskManager.initial_capital rm' = RiskManager.initial_capital rm
  /\ RiskManager.closed_trades rm' = RiskManager.closed_trades rm
  /\ RiskManager.open_positions rm' = RiskManager.open_positions rm.
Proof.
  unfold RiskManager.update_trailing_stop_at.
  destruct (RiskManager.objects rm !! r); [|simpl; auto].
  destruct (RiskManager.update_trailing_stop cfg _ _); simpl; auto.
Qed.

Lemma symbol_is_open_single (e : BacktestEngine.t) (r : ref) (p : Position.t) :
  RiskManager.open_positions (BacktestEngine.risk_manager e) = [r] ->
  RiskManager.objects (BacktestEngine.risk_manager e) !! r = Some p ->
  Position.symbol p = BacktestEngine.symbol e ->
  BacktestEngine.symbol_is_open e = true.
Proof.
  intros Hopen Hobj Hsym.
  unfold BacktestEngine.symbol_is_open, RiskManager.positions.
  rewrite Hopen. simpl. rewrite Hobj. simpl. rewrite Hsym, String.eqb_refl.
  reflexivity.
Qed.

Lemma record_equity_inv (e : BacktestEngine.t) (t : datetime) :
  engine_inv e -> engine_inv (BacktestEngine.record_equity e t).
Proof. intros H. exact H. Qed.

Lemma close_listed_inv
  (e : BacktestEngine.t) (r : ref) (price : Q) (t : datetime) (reason : string)
  (rm' : RiskManager.t) (res : result Trade.t) :
  engine_inv e ->
  In r (RiskManager.open_positions (BacktestEngine.risk_manager e)) ->
  RiskManager.close_position cfg (BacktestEngine.risk_manager e) r price t reason
  = (rm', res) ->
  engine_inv (BacktestEngine.with_risk_manager e rm')
  /\ RiskManager.open_positions rm' = []
  /\ exists tr, res = Ok tr.
Proof.
  intros [Hone Heq] Hin Hclose.
  destruct Hone as [Hnone | (r0 & p & Hopen & Hobj & Hsym)].
  { rewrite Hnone in Hin. destruct Hin. }
  assert (r = r0) as ->.
  { rewrite Hopen in Hin. destruct Hin as [<- | []]. reflexivity. }
  destruct (close_position_listed cfg _ r0 p price t reason Hobj Hin)
    as (rm1 & Hc & Hlog & Hequity & Hcap & _ & Hrem).
  rewrite Hc in Hclose. injection Hclose as <- <-.
  rewrite Hopen in Hrem. simpl in Hrem. rewrite same_position_refl in Hrem.
  injection Hrem as Hrem.
  split; [|split; [by symmetry | eauto]].
  split.
  - left. simpl. by symmetry.
  - unfold equity_conserved in *. simpl.
    rewrite Hequity, Hcap, Hlog, map_app. simpl. rewrite py_sum_snoc.
    rewrite Heq. ring.
Qed.

Lemma process_position_inv
  (e : BacktestEngine.t) (r : ref) (t : datetime) (bar : Bar.t)
  (e' : BacktestEngine.t) (res : result unit) :
  engine_inv e ->
  In r (RiskManager.open_positions (BacktestEngine.risk_manager e)) ->
  BacktestEngine.process_position cfg e r t bar = (e', res) ->
  engine_inv e' /\ res = Ok tt.
Proof.
  intros Hinv Hin Hproc.
  assert (Hinv' := Hinv).
  destruct Hinv' as [[Hnone | (r0 & p & Hopen & Hobj & Hsym)] Heq].
  { rewrite Hnone in Hin. destruct Hin. }
  assert (r = r0) as ->.
  { rewrite Hopen in Hin. destruct Hin as [<- | []]. reflexivity. }
  unfold BacktestEngine.process_position in Hproc. rewrite Hobj in Hproc.
  destruct (BacktestEngine.exit_decision cfg p t bar) as [[price reason]|].
  - destruct (RiskManager.close_position cfg _ r0 price t reason) as [rm' r'] eqn:Hc.
    destruct (close_listed_inv e r0 price t reason rm' r' Hinv Hin Hc)
      as (Hinv1 & _ & tr & ->).
    injection Hproc as <- <-. auto.
  - pose proof (update_trailing_stop_at_frame (BacktestEngine.risk_manager e) r0
                  (Bar.close bar)) as Hframe.
    unfold RiskManager.update_trailing_stop_at in *. rewrite Hobj in *.
    pose proof (update_trailing_stop_symbol cfg p (Bar.close bar)) as Hs.
    destruct (RiskManager.update_trailing_stop cfg p (Bar.close bar)) as [p' b].
    simpl in Hframe, Hs. injection Hproc as <- <-.
    split; [|reflexivity]. split.
    + right. exists r0, p'. simpl. split; [exact Hopen|]. split.
      * apply list_lookup_insert_eq. eapply lookup_lt_Some; eauto.
      * congruence.
    + exact Heq.
Qed.

Lemma generate_new_signals_inv
  (e : BacktestEngine.t) (df : DataFrame) (t : datetime)
  (e' : BacktestEngine.t) (res : result unit) :
  engine_inv e ->
  BacktestEngine.generate_new_signals cfg e df t = (e', res) ->
  engine_inv e'.
Proof.
  intros [Hone Heq] Hgen. unfold BacktestEngine.generate_new_signals in Hgen.
  destruct (BacktestEngine.symbol_is_open e) eqn:Hsym.
  { injection Hgen as <- _. by split. }
  assert (Hempty : RiskManager.open_positions (BacktestEngine.risk_manager e) = []).
  { destruct Hone as [H | (r & p & Hopen & Hobj & Hs)]; [exact H|].
    rewrite (symbol_is_open_single e r p Hopen Hobj Hs) in Hsym. discriminate. }
  destruct (LondonBreakoutStrategy.generate_signal cfg _ df t) as [s [[signal|]|x]];
    injection Hgen as <- _; try (split; [by left | exact Heq]).
  unfold BacktestEngine._execute_signal.
  set (side := match TradeSignal.signal_type signal with
               | SignalType.LONG => LONG | _ => SHORT end).
  pose proof (open_position_from_empty (BacktestEngine.risk_manager e)
                (BacktestEngine.symbol e) side (TradeSignal.entry_price signal)
                (TradeSignal.stop_loss signal) (TradeSignal.take_profit signal)
                t None Hempty) as Hopen.
  pose proof (open_position_frame (BacktestEngine.risk_manager e)
                (BacktestEngine.symbol e) side (TradeSignal.entry_price signal)
                (TradeSignal.stop_loss signal) (TradeSignal.take_profit signal)
                t None) as (He & Hc & Hl).
  simpl in *.
  destruct (RiskManager.open_position cfg _ _ _ _ _ _ _ _) as [rm' o].
  simpl in *. split.
  - exact Hopen.
  - unfold equity_conserved in *. simpl. rewrite He, Hc, Hl. exact Heq.
Qed.

Lemma step_inv (e e' : BacktestEngine.t) :
  engine_inv e -> step cfg e e' -> engine_inv e'.
Proof.
  intros Hinv Hstep. destruct Hstep as [e t | e r t bar e' res Hin Hp
                                       | e df t e' res Hg | e r price t rm' res Hin Hc].
  - apply record_equity_inv, Hinv.
  - apply (process_position_inv e r t bar e' res Hinv Hin Hp).
  - apply (generate_new_signals_inv e df t e' res Hinv Hg).
  - apply (close_listed_inv e r price t "END" rm' res Hinv Hin Hc).
Qed.

Lemma reachable_inv (sym : string) (capital : option Q) (e : BacktestEngine.t) :
  reachable cfg sym capital e -> engine_inv e.
Proof.
  unfold reachable. revert e. apply rtc_ind_r.
  - apply init_inv.
  - intros y z _ Hstep Hy. exact (step_inv y z Hy Hstep).
Qed.

End Invariants.

(** * The simulator's loop *)

Section Loop.
Variable cfg : Config.

Lemma rtc_step_inv (e e' : BacktestEngine.t) :
  engine_inv e -> rtc (step cfg) e e' -> engine_inv e'.
Proof.
  intros Hinv Hrtc. revert e' Hrtc. apply rtc_ind_r; [exact Hinv|].
  intros y z _ Hstep Hy. exact (step_inv cfg y z Hy Hstep).
Qed.

(** The loop over the snapshot of the open list: at most one exit step and no
    exception. *)
Lemma process_positions_run (e : BacktestEngine.t) (t : datetime) (bar : Bar.t) :
  engine_inv e ->
  exists e',
    BacktestEngine.process_positions cfg e
      (RiskManager.open_positions (BacktestEngine.risk_manager e)) t bar
    = (e', Ok tt)
    /\ rtc (step cfg) e e'
    /\ BacktestEngine.equity_curve e' = BacktestEngine.equity_curve e
    /\ BacktestEngine.dates e' = BacktestEngine.dates e.
Proof.
  intros Hinv.
  destruct (proj1 Hinv) as [Hnone | (r & p & Hopen & Hobj & Hsym)].
  - rewrite Hnone. simpl. exists e. repeat split. apply rtc_refl.
  - rewrite Hopen. simpl.
    assert (Hin : In r (RiskManager.open_positions (BacktestEngine.risk_manager e))).
    { rewrite Hopen. by left. }
    destruct (BacktestEngine.process_position cfg e r t bar) as [e' res] eqn:Hp.
    destruct (process_position_inv cfg e r t bar e' res Hinv Hin Hp) as [_ ->].
    exists e'. split; [reflexivity|]. split.
    + apply rtc_once. exact (step_exit cfg e r t bar e' (Ok tt) Hin Hp).
    + unfold BacktestEngine.process_position in Hp. rewrite Hobj in Hp.
      destruct (BacktestEngine.exit_decision cfg p t bar) as [[price reason]|].
      * destruct (RiskManager.close_position cfg _ r price t reason) as [rm' [tr|x]];
          simplify_eq; split; reflexivity.
      * destruct (RiskManager.update_trailing_stop_at cfg _ r _) as [rm' b].
        simplify_eq. split; reflexivity.
Qed.

Lemma generate_new_signals_curve (e : BacktestEngine.t) (df : DataFrame) (t : datetime) :
  BacktestEngine.equity_curve (fst (BacktestEngine.generate_new_signals cfg e df t))
  = BacktestEngine.equity_curve e
  /\ BacktestEngine.dates (fst (BacktestEngine.generate_new_signals cfg e df t))
     = BacktestEngine.dates e.
Proof.
  unfold BacktestEngine.generate_new_signals.
  destruct (BacktestEngine.symbol_is_open e); [split; reflexivity|].
  destruct (LondonBreakoutStrategy.generate_signal cfg _ df t) as [s [[signal|]|x]];
    simpl; try (split; reflexivity).
  unfold BacktestEngine._execute_signal.
  destruct (RiskManager.open_position cfg _ _ _ _ _ _ _ _) as [rm' o].
  split; reflexivity.
Qed.

(** The exit loop on any snapshot leaves the equity curve alone. *)
Lemma process_position_curve (e : BacktestEngine.t) (r : ref) (t : datetime) (bar : Bar.t) :
  BacktestEngine.equity_curve (fst (BacktestEngine.process_position cfg e r t bar))
  = BacktestEngine.equity_curve e
  /\ BacktestEngine.dates (fst (BacktestEngine.process_position cfg e r t bar))
     = BacktestEngine.dates e.
Proof.
  unfold BacktestEngine.process_position.
  destruct (RiskManager.objects _ !! r) as [p|]; [|split; reflexivity].
  destruct (BacktestEngine.exit_decision cfg p t bar) as [[price reason]|].
  - destruct (RiskManager.close_position cfg _ r price t reason) as [rm' [tr|x]];
      split; reflexivity.
  - destruct (RiskManager.update_trailing_stop_at cfg _ r _) as [rm' b].
    split; reflexivity.
Qed.

Lemma process_positions_curve
  (snapshot : list ref) (e : BacktestEngine.t) (t : datetime) (bar : Bar.t) :
  BacktestEngine.equity_curve (fst (BacktestEngine.process_positions cfg e snapshot t bar))
  = BacktestEngine.equity_curve e
  /\ BacktestEngine.dates (fst (BacktestEngine.process_positions cfg e snapshot t bar))
     = BacktestEngine.dates e.
Proof.
  revert e. induction snapshot as [|r rest IH]; intros e; simpl; [split; reflexivity|].
  pose proof (process_position_curve e r t bar) as [Hc Hd].
  destruct (BacktestEngine.process_position cfg e r t bar) as [e' [u|x]]; simpl in *.
  - destruct (IH e') as [Hc' Hd']. split; congruence.
  - split; assumption.
Qed.

(** One bar appends one point: the equity before the bar's exits, at the
    bar's time. *)
Lemma process_bar_curve (e : BacktestEngine.t) (df : DataFrame) (t : datetime) (bar : Bar.t) :
  BacktestEngine.equity_curve (fst (BacktestEngine._process_bar cfg e df t bar))
  = BacktestEngine.equity_curve e
    ++ [RiskManager.current_equity (BacktestEngine.risk_manager e)]
  /\ BacktestEngine.dates (fst (BacktestEngine._process_bar cfg e df t bar))
     = BacktestEngine.dates e ++ [t].
Proof.
  unfold BacktestEngine._process_bar.
  pose proof (process_positions_curve
                (RiskManager.open_positions
                   (BacktestEngine.risk_manager (BacktestEngine.record_equity e t)))
                (BacktestEngine.record_equity e t) t bar) as [Hc Hd].
  destruct (BacktestEngine.process_positions cfg _ _ t bar) as [e2 [u|x]]; simpl in *.
  - destruct (generate_new_signals_curve e2 df t) as [Hc' Hd']. split; congruence.
  - split; assumption.
Qed.

Lemma process_bars_curve (rows : list Bar.t) (e : BacktestEngine.t) (df : DataFrame) :
  BacktestEngine.equity_curve (fst (BacktestEngine.process_bars cfg e df rows))
  = BacktestEngine.equity_curve e ++ equity_at_bar_starts cfg e df rows.
Proof.
  revert e. induction rows as [|bar rest IH]; intros e; simpl.
  - by rewrite app_nil_r.
  - pose proof (process_bar_curve e df (Bar.timestamp bar) bar) as [Hc _].
    destruct (BacktestEngine._process_bar cfg e df (Bar.timestamp bar) bar)
      as [e' [u|x]]; simpl in *.
    + rewrite IH, Hc, <- app_assoc. reflexivity.
    + exact Hc.
Qed.

(** *** No exception on a frame with a unique index *)

Lemma rows_at_absent (df : DataFrame) (ts : datetime) :
  ~ In ts (map Bar.timestamp df) -> rows_at df ts = [].
Proof.
  unfold rows_at. induction df as [|b df IH]; simpl; [reflexivity|].
  intros Hnot. destruct (Z.eqb_spec (Bar.timestamp b) ts) as [Heq | Hne].
  - exfalso. apply Hnot. by left.
  - apply IH. intros Hin. apply Hnot. by right.
Qed.

Lemma unique_index_loc (df : DataFrame) (ts : datetime) :
  unique_index df -> df_loc df ts <> LocFrame.
Proof.
  unfold unique_index, df_loc, rows_at.
  induction df as [|b df IH]; simpl; intros Hnd; [discriminate|].
  apply NoDup_cons in Hnd as [Hnotin Hnd].
  destruct (Z.eqb_spec (Bar.timestamp b) ts) as [Heq | Hne].
  - subst ts.
    assert (Hnil : rows_at df (Bar.timestamp b) = []).
    { apply rows_at_absent. intros Hin. apply Hnotin. apply list_elem_of_In. exact Hin. }
    unfold rows_at in Hnil. rewrite Hnil. discriminate.
  - apply IH. exact Hnd.
Qed.

Lemma generate_signal_no_raise
  (s : LondonBreakoutStrategy.t) (df : DataFrame) (t : datetime) :
  df_loc df t <> LocFrame ->
  exists o, snd (LondonBreakoutStrategy.generate_signal cfg s df t) = Ok o.
Proof.
  intros Hloc. unfold LondonBreakoutStrategy.generate_signal.
  repeat (case_match; simpl; eauto); congruence.
Qed.

Lemma generate_new_signals_ok (e : BacktestEngine.t) (df : DataFrame) (t : datetime) :
  df_loc df t <> LocFrame ->
  snd (BacktestEngine.generate_new_signals cfg e df t) = Ok tt.
Proof.
  intros Hloc. unfold BacktestEngine.generate_new_signals.
  destruct (BacktestEngine.symbol_is_open e); [reflexivity|].
  destruct (generate_signal_no_raise (BacktestEngine.strategy e) df t Hloc) as [o Ho].
  destruct (LondonBreakoutStrategy.generate_signal cfg _ df t) as [s res].
  simpl in Ho. subst res. destruct o; reflexivity.
Qed.

(** One bar, from a state satisfying the invariants. *)
Lemma process_bar_run (e : BacktestEngine.t) (df : DataFrame) (t : datetime) (bar : Bar.t) :
  engine_inv e ->
  rtc (step cfg) e (fst (BacktestEngine._process_bar cfg e df t bar))
  /\ (df_loc df t <> LocFrame ->
      snd (BacktestEngine._process_bar cfg e df t bar) = Ok tt).
Proof.
  intros Hinv. unfold BacktestEngine._process_bar.
  assert (Hinv1 : engine_inv (BacktestEngine.record_equity e t)) by exact Hinv.
  destruct (process_positions_run (BacktestEngine.record_equity e t) t bar Hinv1)
    as (e2 & Hpp & Hrtc & _).
  rewrite Hpp.
  destruct (BacktestEngine.generate_new_signals cfg e2 df t) as [e3 res] eqn:Hg.
  simpl. split.
  - eapply rtc_l; [apply step_record|].
    eapply rtc_trans; [exact Hrtc|].
    apply rtc_once. exact (step_entry cfg e2 df t e3 res Hg).
  - intros Hloc. pose proof (generate_new_signals_ok e2 df t Hloc) as H.
    rewrite Hg in H. exact H.
Qed.

Lemma process_bars_run (rows : list Bar.t) (e : BacktestEngine.t) (df : DataFrame) :
  engine_inv e ->
  rtc (step cfg) e (fst (BacktestEngine.process_bars cfg e df rows))
  /\ (unique_index df ->
      snd (BacktestEngine.process_bars cfg e df rows) = Ok tt
      /\ BacktestEngine.dates (fst (BacktestEngine.process_bars cfg e df rows))
         = BacktestEngine.dates e ++ map Bar.timestamp rows
      /\ length (equity_at_bar_starts cfg e df rows) = length rows).
Proof.
  revert e. induction rows as [|bar rest IH]; intros e Hinv; simpl.
  - split; [apply rtc_refl|]. intros _. by rewrite app_nil_r.
  - destruct (process_bar_run e df (Bar.timestamp bar) bar Hinv) as [Hrtc Hok].
    pose proof (process_bar_curve e df (Bar.timestamp bar) bar) as [_ Hd].
    destruct (BacktestEngine._process_bar cfg e df (Bar.timestamp bar) bar)
      as [e' res] eqn:Hpb.
    simpl in *.
    assert (Hinv' : engine_inv e') by (eapply rtc_step_inv; eauto).
    destruct (IH e' Hinv') as [Hrtc' Hok'].
    split.
    + destruct res as [u|x]; simpl; [|exact Hrtc].
      eapply rtc_trans; eauto.
    + intros Hu. rewrite (Hok (unique_index_loc df _ Hu)).
      destruct (Hok' Hu) as (H1 & H2 & H3).
      split; [exact H1|]. split.
      * rewrite H2, Hd, <- app_assoc. reflexivity.
      * simpl. by rewrite H3.
Qed.

(** The closing loop at the end of data. *)
Lemma close_remaining_run (e : BacktestEngine.t) (price : Q) (t : datetime) :
  engine_inv e ->
  exists rm,
    BacktestEngine.close_remaining cfg (BacktestEngine.risk_manager e)
      (RiskManager.open_positions (BacktestEngine.risk_manager e)) price t
    = (rm, Ok tt)
    /\ rtc (step cfg) e (BacktestEngine.with_risk_manager e rm)
    /\ RiskManager.open_positions rm = [].
Proof.
  intros Hinv.
  destruct (proj1 Hinv) as [Hnone | (r & p & Hopen & Hobj & Hsym)].
  - rewrite Hnone. simpl. exists (BacktestEngine.risk_manager e).
    split; [reflexivity|]. split; [|exact Hnone].
    destruct e. apply rtc_refl.
  - rewrite Hopen. simpl.
    assert (Hin : In r (RiskManager.open_positions (BacktestEngine.risk_manager e))).
    { rewrite Hopen. by left. }
    destruct (RiskManager.close_position cfg _ r price t "END") as [rm' res] eqn:Hc.
    destruct (close_listed_inv cfg e r price t "END" rm' res Hinv Hin Hc)
      as (_ & Hempty & tr & ->).
    exists rm'. split; [reflexivity|]. split; [|exact Hempty].
    apply rtc_once. exact (step_end cfg e r price t rm' (Ok tr) Hin Hc).
Qed.

Lemma filter_unique_index (f : Bar.t -> bool) (df : DataFrame) :
  unique_index df -> unique_index (List.filter f df).
Proof.
  unfold unique_index. induction df as [|b df IH]; simpl; intros Hnd; [exact Hnd|].
  apply NoDup_cons in Hnd as [Hnotin Hnd].
  destruct (f b); simpl; [|by apply IH].
  apply NoDup_cons. split; [|by apply IH].
  intros Hin. apply Hnotin.
  apply list_elem_of_In in Hin. apply list_elem_of_In.
  apply in_map_iff in Hin as (x & Hx & Hf). apply in_map_iff.
  exists x. split; [exact Hx|]. apply filter_In in Hf. tauto.
Qed.

Lemma filter_dates_unique_index (df : DataFrame) (s en : option datetime) :
  unique_index df -> unique_index (BacktestEngine.filter_dates df s en).
Proof.
  intros Hu. unfold BacktestEngine.filter_dates.
  destruct s, en; repeat apply filter_unique_index; exact Hu.
Qed.

(** Every state [run] returns, with or without an exception, is made of
    simulator moves. *)
Lemma run_steps
  (e : BacktestEngine.t) (df : DataFrame) (s en : option datetime) :
  engine_inv e ->
  rtc (step cfg) e (fst (BacktestEngine.run cfg e df s en)).
Proof.
  intros Hinv. unfold BacktestEngine.run.
  destruct (BacktestEngine.filter_dates df s en) as [|b rest]; [apply rtc_refl|].
  destruct (process_bars_run (b :: rest) e (b :: rest) Hinv) as [Hrtc _].
  destruct (BacktestEngine.process_bars cfg e (b :: rest) (b :: rest))
    as [e1 [u|x]]; simpl in Hrtc; [|exact Hrtc].
  assert (Hinv1 : engine_inv e1) by (eapply rtc_step_inv; eauto).
  destruct (close_remaining_run e1 (Bar.close (List.last rest b))
              (Bar.timestamp (List.last rest b)) Hinv1) as (rm & -> & Hrtc2 & _).
  eapply rtc_trans; [exact Hrtc|].
  destruct (BacktestEngine._print_results _); exact Hrtc2.
Qed.

Lemma run_reachable (sym : string) (capital : option Q)
  (df : DataFrame) (s en : option datetime) :
  reachable cfg sym capital
    (fst (BacktestEngine.run cfg (BacktestEngine.init cfg sym capital) df s en)).
Proof. apply run_steps, init_inv. Qed.

(** *** The trade log only grows *)

Lemma close_position_log
  (rm : RiskManager.t) (r : ref) (price : Q) (t : datetime) (reason : string) :
  exists later,
    RiskManager.closed_trades (fst (RiskManager.close_position cfg rm r price t reason))
    = RiskManager.closed_trades rm ++ later.
Proof.
  unfold RiskManager.close_position.
  destruct (RiskManager.objects rm !! r) as [p|]; [|exists []; by rewrite app_nil_r].
  destruct (RiskManager.list_remove _ r _); simpl.
  - eauto.
  - exists []. by rewrite app_nil_r.
Qed.

Lemma step_log (e e' : BacktestEngine.t) :
  step cfg e e' ->
  exists later,
    RiskManager.closed_trades (BacktestEngine.risk_manager e')
    = RiskManager.closed_trades (BacktestEngine.risk_manager e) ++ later.
Proof.
  intros Hstep.
  destruct Hstep as [e t | e r t bar e' res Hin Hp
                    | e df t e' res Hg | e r price t rm' res Hin Hc].
  - exists []. by rewrite app_nil_r.
  - unfold BacktestEngine.process_position in Hp.
    destruct (RiskManager.objects _ !! r) as [p|].
    + destruct (BacktestEngine.exit_decision cfg p t bar) as [[price reason]|].
      * pose proof (close_position_log (BacktestEngine.risk_manager e) r price t reason)
          as Hlog.
        destruct (RiskManager.close_position cfg _ r price t reason) as [rm' [tr|x]];
          injection Hp as <- _; exact Hlog.
      * pose proof (update_trailing_stop_at_frame cfg (BacktestEngine.risk_manager e) r
                      (Bar.close bar)) as (_ & _ & Hl & _).
        destruct (RiskManager.update_trailing_stop_at cfg _ r _) as [rm' b].
        injection Hp as <- _. exists []. simpl in *. by rewrite app_nil_r.
    + injection Hp as <- _. exists []. by rewrite app_nil_r.
  - exists []. rewrite app_nil_r.
    unfold BacktestEngine.generate_new_signals in Hg.
    destruct (BacktestEngine.symbol_is_open e); [by injection Hg as <- _|].
    destruct (LondonBreakoutStrategy.generate_signal cfg _ df t) as [s [[signal|]|x]];
      injection Hg as <- _; try reflexivity.
    unfold BacktestEngine._execute_signal.
    match goal with
    | |- context [RiskManager.open_position cfg ?rm ?a ?b ?c ?d ?f ?g ?h] =>
        pose proof (open_position_frame cfg rm a b c d f g h) as (_ & _ & Hl);
        destruct (RiskManager.open_position cfg rm a b c d f g h) as [rm' o]
    end.
    exact Hl.
  - pose proof (close_position_log (BacktestEngine.risk_manager e) r price t "END") as Hlog.
    rewrite Hc in Hlog. exact Hlog.
Qed.

Lemma rtc_step_log (e e' : BacktestEngine.t) :
  rtc (step cfg) e e' ->
  exists later,
    RiskManager.closed_trades (BacktestEngine.risk_manager e')
    = RiskManager.closed_trades (BacktestEngine.risk_manager e) ++ later.
Proof.
  revert e'. apply rtc_ind_r.
  - exists []. by rewrite app_nil_r.
  - intros y z _ Hstep [l1 H1]. destruct (step_log y z Hstep) as [l2 H2].
    exists (l1 ++ l2). rewrite H2, H1, app_assoc. reflexivity.
Qed.

End Loop.

Lemma process_bars_reachable (cfg : Config) (sym : string) (capital : option Q)
  (df : DataFrame) (rows : list Bar.t) :
  reachable cfg sym capital
    (fst (BacktestEngine.process_bars cfg (BacktestEngine.init cfg sym capital) df rows)).
Proof. apply process_bars_run, init_inv. Qed.

Lemma sample_day_unique : unique_index sample_day.
Proof. unfold unique_index. apply (bool_decide_unpack _). vm_compute. exact I. Qed.

(** C1. In every state a simulation passes through, the risk manager's
    equity equals the initial capital plus the sum of the net P&L (pnl_amount
    minus commission) of the trades closed so far; the trade log only grows
    by appending, so those trades are the first N of any later log; and
    neither open_position nor update_trailing_stop changes the equity, which
    leaves close_position as the only operation of a run that does. *)
Theorem equity_conservation
  (cfg : Config) (sym : string) (capital : option Q) (e : BacktestEngine.t) :
  reachable cfg sym capital e ->
  (RiskManager.current_equity (BacktestEngine.risk_manager e)
   == RiskManager.initial_capital (BacktestEngine.risk_manager e)
      + py_sum (map Trade.net_pnl
                  (RiskManager.closed_trades (BacktestEngine.risk_manager e))))%Q
  /\ (forall e',
        rtc (step cfg) e e' ->
        exists later,
          RiskManager.closed_trades (BacktestEngine.risk_manager e')
          = RiskManager.closed_trades (BacktestEngine.risk_manager e) ++ later)
  /\ (forall rm s side entry stop target t size,
        RiskManager.current_equity
          (fst (RiskManager.open_position cfg rm s side entry stop target t size))
        = RiskManager.current_equity rm)
  /\ (forall rm r price,
        RiskManager.current_equity
          (fst (RiskManager.update_trailing_stop_at cfg rm r price))
        = RiskManager.current_equity rm).
Proof.
  intros Hreach. split; [|split; [|split]].
  - apply (reachable_inv cfg sym capital e Hreach).
  - intros e'. apply rtc_step_log.
  - intros. apply open_position_frame.
  - intros. apply update_trailing_stop_at_frame.
Qed.

Lemma equity_conservation_witness :
  let e := fst (BacktestEngine.run config fresh_engine sample_day None None) in
  (RiskManager.current_equity (BacktestEngine.risk_manager e)
   == RiskManager.initial_capital (BacktestEngine.risk_manager e)
      + py_sum (map Trade.net_pnl
                  (RiskManager.closed_trades (BacktestEngine.risk_manager e))))%Q
  /\ length (RiskManager.closed_trades (BacktestEngine.risk_manager e)) = 1%nat.
Proof.
  split.
  - apply (equity_conservation config "EURUSD" None
             (fst (BacktestEngine.run config fresh_engine sample_day None None))
             (run_reachable config "EURUSD" None sample_day None None)).
  - vm_compute. reflexivity.
Defined.

(** C8. Processing a bar at time T appends exactly one point to the equity
    curve and one date: the point is the equity as it stood when the bar
    started, before any exit of that bar is applied, and the date is T.
    Over the loop, the curve grows by the start-of-bar equities of the bars
    processed, in order; on a frame with a unique index the loop raises
    nothing and there is one point and one date per bar. *)
Theorem equity_point_is_start_of_bar
  (cfg : Config) (e : BacktestEngine.t) (df : DataFrame) :
  (forall t bar,
     BacktestEngine.equity_curve (fst (BacktestEngine._process_bar cfg e df t bar))
     = BacktestEngine.equity_curve e
       ++ [RiskManager.current_equity (BacktestEngine.risk_manager e)]
     /\ BacktestEngine.dates (fst (BacktestEngine._process_bar cfg e df t bar))
        = BacktestEngine.dates e ++ [t])
  /\ (forall rows,
        BacktestEngine.equity_curve (fst (BacktestEngine.process_bars cfg e df rows))
        = BacktestEngine.equity_curve e ++ equity_at_bar_starts cfg e df rows)
  /\ (forall rows,
        engine_inv e -> unique_index df ->
        snd (BacktestEngine.process_bars cfg e df rows) = Ok tt
        /\ BacktestEngine.dates (fst (BacktestEngine.process_bars cfg e df rows))
           = BacktestEngine.dates e ++ map Bar.timestamp rows
        /\ length (equity_at_bar_starts cfg e df rows) = length rows).
Proof.
  split; [|split].
  - intros t bar. apply process_bar_curve.
  - intros rows. apply process_bars_curve.
  - intros rows Hinv Hu. apply (process_bars_run cfg rows e df Hinv), Hu.
Qed.

Lemma equity_point_is_start_of_bar_witness :
  (snd (BacktestEngine.process_bars config fresh_engine sample_day sample_day) = Ok tt
   /\ BacktestEngine.dates
        (fst (BacktestEngine.process_bars config fresh_engine sample_day sample_day))
      = BacktestEngine.dates fresh_engine ++ map Bar.timestamp sample_day
   /\ length (equity_at_bar_starts config fresh_engine sample_day sample_day)
      = length sample_day)
  /\ BacktestEngine.equity_curve
       (fst (BacktestEngine._process_bar config engine_with_long [wide_bar]
               (mk_time 9 0) wide_bar))
     = [10000%Q]
  /\ ~ (RiskManager.current_equity
          (BacktestEngine.risk_manager
             (fst (BacktestEngine._process_bar config engine_with_long [wide_bar]
                     (mk_time 9 0) wide_bar)))
        == 10000)%Q.
Proof.
  split; [|split].
  - apply (proj2 (proj2 (equity_point_is_start_of_bar config fresh_engine sample_day))
             sample_day).
    + apply init_inv.
    + exact sample_day_unique.
  - apply (proj1 (equity_point_is_start_of_bar config engine_with_long [wide_bar])
             (mk_time 9 0) wide_bar).
  - vm_compute. discriminate.
Defined.

(** C9. In every state a simulation passes through, the open list holds at
    most one position, and every open position is one of the tracked
    symbol; while a position is open the entry step does nothing at all: the
    strategy is not asked for a signal and no position is opened. *)
Theorem single_position
  (cfg : Config) (sym : string) (capital : option Q) (e : BacktestEngine.t) :
  reachable cfg sym capital e ->
  (length (RiskManager.open_positions (BacktestEngine.risk_manager e)) <= 1)%nat
  /\ (forall p,
        In p (RiskManager.positions (BacktestEngine.risk_manager e)) ->
        Position.symbol p = BacktestEngine.symbol e)
  /\ (forall df t,
        RiskManager.open_positions (BacktestEngine.risk_manager e) <> [] ->
        BacktestEngine.generate_new_signals cfg e df t = (e, Ok tt)).
Proof.
  intros Hreach.
  destruct (reachable_inv cfg sym capital e Hreach)
    as [[Hnone | (r & p & Hopen & Hobj & Hsym)] _].
  - unfold RiskManager.positions. rewrite Hnone. simpl.
    split; [lia|]. split; [tauto|]. intros df t H. congruence.
  - unfold RiskManager.positions. rewrite Hopen. simpl. rewrite Hobj. simpl.
    split; [lia|]. split.
    + intros p' [<- | []]. exact Hsym.
    + intros df t _. unfold BacktestEngine.generate_new_signals.
      rewrite (symbol_is_open_single e r p Hopen Hobj Hsym). reflexivity.
Qed.

Lemma single_position_witness :
  let e := fst (BacktestEngine.process_bars config fresh_engine sample_day
                  [asian_bar; breakout_bar]) in
  length (RiskManager.open_positions (BacktestEngine.risk_manager e)) = 1%nat
  /\ forall df t, BacktestEngine.generate_new_signals config e df t = (e, Ok tt).
Proof.
  split.
  - vm_compute. reflexivity.
  - intros df t.
    apply (single_position config "EURUSD" None
             (fst (BacktestEngine.process_bars config fresh_engine sample_day
                     [asian_bar; breakout_bar]))
             (process_bars_reachable config "EURUSD" None sample_day
                [asian_bar; breakout_bar])).
    vm_compute. discriminate.
Defined.

(** * One signal per day *)

Section OneSignalPerDay.
Variable cfg : Config.

Lemma generate_signal_guard
  (s : LondonBreakoutStrategy.t) (df : DataFrame) (t : datetime) :
  LondonBreakoutStrategy.last_signal_date s = Some (date_of t) ->
  LondonBreakoutStrategy.generate_signal cfg s df t = (s, Ok None).
Proof.
  intros H. unfold LondonBreakoutStrategy.generate_signal.
  rewrite bool_decide_eq_true_2; [reflexivity | exact H].
Qed.

Lemma generate_signal_marks_day
  (s s' : LondonBreakoutStrategy.t) (df : DataFrame) (t : datetime)
  (signal : TradeSignal.t) :
  LondonBreakoutStrategy.generate_signal cfg s df t = (s', Ok (Some signal)) ->
  LondonBreakoutStrategy.last_signal_date s' = Some (date_of t).
Proof.
  unfold LondonBreakoutStrategy.generate_signal.
  repeat case_match; intros Hgen; simplify_eq; reflexivity.
Qed.

Lemma chronological_lookup
  (calls : list (DataFrame * datetime)) (d : Z) (i : nat) (df : DataFrame) (t : datetime) :
  chronological d calls -> calls !! i = Some (df, t) -> d <= date_of t.
Proof.
  revert d i. induction calls as [|[df0 t0] rest IH]; intros d i Hc Hi.
  - destruct i; discriminate.
  - destruct Hc as [Hle Hc]. destruct i as [|j]; simpl in Hi.
    + injection Hi as -> ->. exact Hle.
    + pose proof (IH _ _ Hc Hi). lia.
Qed.

Lemma feed_same_day
  (calls : list (DataFrame * datetime)) (s : LondonBreakoutStrategy.t) (d : Z)
  (i : nat) (df : DataFrame) (t : datetime) :
  LondonBreakoutStrategy.last_signal_date s = Some d ->
  chronological d calls ->
  calls !! i = Some (df, t) ->
  date_of t = d ->
  feed cfg s calls !! i = Some (Ok None).
Proof.
  revert s i. induction calls as [|[df0 t0] rest IH]; intros s i Hlast Hc Hi Hd.
  - destruct i; discriminate.
  - destruct Hc as [Hle Hc]. destruct i as [|j]; simpl in Hi.
    + injection Hi as -> ->. simpl.
      rewrite generate_signal_guard; [reflexivity | congruence].
    + assert (Hd0 : date_of t0 = d).
      { pose proof (chronological_lookup rest _ j df t Hc Hi). lia. }
      simpl. rewrite generate_signal_guard; [|congruence].
      simpl. apply IH; try assumption. rewrite <- Hd0. exact Hc.
Qed.

End OneSignalPerDay.

(** C3. Once generate_signal has returned a signal for a timestamp of some
    calendar date, every later call of a replay in calendar order whose
    timestamp is on that date returns None, whatever frame it is given, so
    however many further bars of the day break out of the range.  The
    calendar order is needed, as the replay after the witness shows. *)
Theorem one_signal_per_day
  (cfg : Config) (s s' : LondonBreakoutStrategy.t) (df : DataFrame) (t : datetime)
  (signal : TradeSignal.t) (calls : list (DataFrame * datetime)) :
  LondonBreakoutStrategy.generate_signal cfg s df t = (s', Ok (Some signal)) ->
  chronological (date_of t) calls ->
  forall i df' t',
    calls !! i = Some (df', t') ->
    date_of t' = date_of t ->
    feed cfg s' calls !! i = Some (Ok None).
Proof.
  intros Hgen Hc i df' t' Hi Hd.
  apply (feed_same_day cfg calls s' (date_of t) i df' t'); try assumption.
  apply (generate_signal_marks_day cfg s s' df t signal Hgen).
Qed.

Lemma one_signal_per_day_witness :
  exists s' signal,
    LondonBreakoutStrategy.generate_signal config
      (LondonBreakoutStrategy.init "EURUSD") two_breakouts (mk_time 8 0)
    = (s', Ok (Some signal))
    /\ feed config s' [(two_breakouts, mk_time 8 0); (two_breakouts, mk_time 9 0)]
         !! 1%nat
       = Some (Ok None)
    /\ LondonBreakoutStrategy.check_breakout config second_breakout_bar
         (TradeSignal.asian_range signal)
       = SignalType.LONG.
Proof.
  eexists _, _. split; [vm_compute; reflexivity|]. split.
  - eapply (one_signal_per_day config (LondonBreakoutStrategy.init "EURUSD") _
              two_breakouts (mk_time 8 0) _
              [(two_breakouts, mk_time 8 0); (two_breakouts, mk_time 9 0)]).
    + vm_compute. reflexivity.
    + vm_compute. intuition discriminate.
    + reflexivity.
    + vm_compute. reflexivity.
  - vm_compute. reflexivity.
Defined.

(** The guard of [generate_signal] is the single field [last_signal_date]:
    a signal for another date overwrites it.  Here the strategy signals at
    08:00 of day 0, then at 08:00 of day 1, and a call back at 09:00 of day 0
    returns a second signal for day 0. *)
Lemma one_signal_per_day_counterexample :
  exists s1 first second,
    LondonBreakoutStrategy.generate_signal config
      (LondonBreakoutStrategy.init "EURUSD") two_days (mk_time 8 0)
    = (s1, Ok (Some first))
    /\ feed config s1
         [(two_days, datetime_combine 1 (mk_time 8 0)); (two_days, mk_time 9 0)]
         !! 1%nat
       = Some (Ok (Some second))
    /\ date_of (mk_time 9 0) = date_of (mk_time 8 0)
    /\ date_of (TradeSignal.timestamp second) = date_of (TradeSignal.timestamp first).
Proof.
  eexists _, _, _. split; [vm_compute; reflexivity|].
  split; [vm_compute; reflexivity|].
  split; vm_compute; reflexivity.
Qed.

(** * The report of a run without trades *)

Section ZeroTrades.
Variable cfg : Config.

(** With an empty trade log the statistics hold four keys only, and the
    printing of the report fails on the first of the others. *)
Lemma print_results_zero_trades (e : BacktestEngine.t) (df : DataFrame) :
  RiskManager.closed_trades (BacktestEngine.risk_manager e) = [] ->
  BacktestEngine._print_results (BacktestEngine._generate_results e df)
  = Raise (KeyError "winners").
Proof.
  intros Hnone.
  unfold BacktestEngine._print_results, BacktestEngine._generate_results,
    RiskManager.get_statistics.
  rewrite Hnone.
  destruct (BacktestEngine._calculate_consecutive_trades e) as [w l].
  unfold BacktestEngine.printed_keys, BacktestEngine.read_keys.
  repeat (rewrite lookup_insert_ne; [|done]).
  rewrite lookup_insert_eq.
  repeat (rewrite lookup_insert_ne; [|done]).
  rewrite lookup_empty. reflexivity.
Qed.

Lemma Qmax_same (c : Q) : Qmax c c = c.
Proof. unfold Qmax, GenericMinMax.gmax. destruct (c ?= c)%Q; reflexivity. Qed.

Lemma Qmin_same (c : Q) : Qmin c c = c.
Proof. unfold Qmin, GenericMinMax.gmin. destruct (c ?= c)%Q; reflexivity. Qed.

Lemma expanding_max_from_constant (c : Q) (n : nat) :
  expanding_max_from c (repeat c n) = repeat c n.
Proof.
  induction n as [|n IH]; simpl; [reflexivity|].
  rewrite Qmax_same, IH. reflexivity.
Qed.

Lemma series_min_constant (q : Q) (n : nat) :
  fold_left value_min (repeat (VNum q) n) (VNum q) = VNum q.
Proof.
  induction n as [|n IH]; simpl; [reflexivity|]. rewrite Qmin_same. exact IH.
Qed.

Lemma combine_constant (c : Q) (n : nat) :
  List.combine (repeat c n) (repeat c n) = repeat (c, c) n.
Proof. induction n as [|n IH]; simpl; [reflexivity|]. rewrite IH. reflexivity. Qed.

Lemma drawdown_point_same (c : Q) :
  Qeq_bool c 0 = false -> drawdown_point c c = VNum ((c - c) / c * 100).
Proof.
  intros Hc. unfold drawdown_point, np_div_pct, np_div. rewrite Hc. reflexivity.
Qed.

(** A curve that never moves has no drawdown. *)
Lemma max_drawdown_constant (c : Q) (n : nat) :
  Qeq_bool c 0 = false ->
  max_drawdown (repeat c (S n)) = VNum ((c - c) / c * 100).
Proof.
  intros Hc. unfold max_drawdown, series_min.
  change (repeat c (S n)) with (c :: repeat c n).
  unfold expanding_max. rewrite expanding_max_from_constant.
  change (c :: repeat c n) with (repeat c (S n)).
  rewrite combine_constant, map_repeat.
  cbv beta iota. rewrite (drawdown_point_same c Hc).
  cbn [repeat fold_left value_min]. apply series_min_constant.
Qed.

Lemma pct_change_constant (c : Q) (n : nat) :
  Qeq_bool c 0 = false ->
  pct_change_from c (repeat c n) = repeat (VNum (c / c - 1)) n.
Proof.
  intros Hc. induction n as [|n IH]; [reflexivity|].
  cbn [pct_change_from repeat]. unfold np_div. rewrite Hc.
  cbv beta iota zeta. rewrite IH. reflexivity.
Qed.

Lemma all_finite_repeat (r : Q) (n : nat) :
  all_finite (repeat (VNum r) n) = Some (repeat r n).
Proof. induction n as [|n IH]; simpl; [reflexivity|]. rewrite IH. reflexivity. Qed.

Lemma fold_left_Qplus_zero (l : list Q) (a : Q) :
  Forall (fun x => (x == 0)%Q) l -> (fold_left Qplus l a == a)%Q.
Proof.
  revert a. induction l as [|x l IH]; intros a Hl; simpl; [reflexivity|].
  apply Forall_cons in Hl as [Hx Hl].
  rewrite (IH _ Hl), Hx. ring.
Qed.

Lemma negative_returns_constant (r : Q) (n : nat) :
  (r == 0)%Q -> List.filter is_negative (repeat (VNum r) n) = [].
Proof.
  intros Hr. induction n as [|n IH]; [reflexivity|].
  cbn [repeat List.filter is_negative].
  rewrite (proj2 (Qltb_false r 0)); [exact IH|]. rewrite Hr. apply Qle_refl.
Qed.

Lemma positive_std_constant (r : Q) (n : nat) :
  (r == 0)%Q -> positive_std (repeat (VNum r) n) = None.
Proof.
  intros Hr. unfold positive_std. rewrite all_finite_repeat.
  destruct n as [|[|n]]; try reflexivity.
  unfold sample_var.
  change (repeat r (S (S n))) with (r :: r :: repeat r n).
  cbv beta iota.
  set (l := r :: r :: repeat r n).
  assert (Hl : Forall (fun x => (x == 0)%Q) l).
  { unfold l. repeat apply Forall_cons_2; try exact Hr.
    apply Forall_forall. intros x Hx. apply list_elem_of_In, repeat_spec in Hx.
    subst x. exact Hr. }
  assert (Hm : (np_mean l == 0)%Q).
  { unfold np_mean, py_sum. rewrite (fold_left_Qplus_zero l 0 Hl).
    unfold Qdiv. ring. }
  rewrite (proj2 (Qgtb_false _ 0)); [reflexivity|].
  unfold py_sum. rewrite fold_left_Qplus_zero.
  - unfold Qdiv. rewrite Qmult_0_l. apply Qle_refl.
  - apply Forall_forall. intros y Hy. apply list_elem_of_In, in_map_iff in Hy.
    destruct Hy as (x & <- & Hx).
    assert (Hx0 : (x == 0)%Q).
    { rewrite Forall_forall in Hl. apply Hl, list_elem_of_In, Hx. }
    rewrite Hx0, Hm. ring.
Qed.

(** The five metrics themselves are in the report of a run without trades
    (trade log empty, equity curve constant at a non-zero capital) and are
    zero. *)
Lemma generate_results_zero_trades
  (e : BacktestEngine.t) (df : DataFrame) (c : Q) (n : nat) :
  RiskManager.closed_trades (BacktestEngine.risk_manager e) = [] ->
  BacktestEngine.equity_curve e = repeat c (S n) ->
  ~ (c == 0)%Q ->
  let results := BacktestEngine._generate_results e df in
  results !! "win_rate" = Some (VNum 0)
  /\ results !! "profit_factor" = Some (VNum 0)
  /\ (exists q, results !! "max_drawdown" = Some (VNum q) /\ (q == 0)%Q)
  /\ results !! "sharpe_ratio" = Some (VInt 0)
  /\ results !! "sortino_ratio" = Some (VInt 0).
Proof.
  intros Hnone Hcurve Hc.
  assert (Hc0 : Qeq_bool c 0 = false).
  { destruct (Qeq_bool c 0) eqn:E; [|reflexivity].
    apply Qeq_bool_iff in E. contradiction. }
  assert (Hr : (c / c - 1 == 0)%Q) by (field; exact Hc).
  unfold BacktestEngine._generate_results, RiskManager.get_statistics.
  rewrite Hnone, Hcurve.
  destruct (BacktestEngine._calculate_consecutive_trades e) as [w l].
  cbv zeta.
  split; [|split; [|split; [|split]]].
  - repeat (rewrite lookup_insert_ne; [|done]). apply lookup_insert_eq.
  - repeat (rewrite lookup_insert_ne; [|done]). apply lookup_insert_eq.
  - exists ((c - c) / c * 100)%Q. split; [|field; exact Hc].
    repeat (rewrite lookup_insert_ne; [|done]). rewrite lookup_insert_eq.
    rewrite (max_drawdown_constant c n Hc0). reflexivity.
  - repeat (rewrite lookup_insert_ne; [|done]). rewrite lookup_insert_eq.
    f_equal. cbn [pct_change_dropna repeat].
    rewrite (pct_change_constant c n Hc0). unfold sharpe_ratio.
    rewrite (positive_std_constant _ n Hr). destruct n; reflexivity.
  - repeat (rewrite lookup_insert_ne; [|done]). rewrite lookup_insert_eq.
    f_equal. cbn [pct_change_dropna repeat].
    rewrite (pct_change_constant c n Hc0). unfold sortino_ratio.
    rewrite (negative_returns_constant _ n Hr). reflexivity.
Qed.

End ZeroTrades.

(** C4 (the code falls short of it). A run on a non-empty frame with a
    unique index that closes no trade does not finish: after computing the
    report, run raises KeyError on the key "winners" while printing it. *)
Theorem zero_trades_run_raises
  (cfg : Config) (sym : string) (capital : option Q)
  (df : DataFrame) (start_date end_date : option datetime) :
  unique_index df ->
  BacktestEngine.filter_dates df start_date end_date <> [] ->
  RiskManager.closed_trades
    (BacktestEngine.risk_manager
       (fst (BacktestEngine.run cfg (BacktestEngine.init cfg sym capital)
               df start_date end_date))) = [] ->
  snd (BacktestEngine.run cfg (BacktestEngine.init cfg sym capital) df start_date end_date)
  = Raise (KeyError "winners").
Proof.
  intros Hu Hne. unfold BacktestEngine.run.
  pose proof (filter_dates_unique_index df start_date end_date Hu) as Hu'.
  destruct (BacktestEngine.filter_dates df start_date end_date) as [|b rest];
    [congruence|].
  pose proof (init_inv cfg sym capital) as Hinv.
  destruct (process_bars_run cfg (b :: rest) _ (b :: rest) Hinv) as [Hrtc Hok].
  destruct (Hok Hu') as (Hres & _).
  destruct (BacktestEngine.process_bars cfg _ (b :: rest) (b :: rest)) as [e1 res].
  simpl in Hres, Hrtc. subst res.
  assert (Hinv1 : engine_inv e1) by (eapply rtc_step_inv; eauto).
  destruct (close_remaining_run cfg e1 (Bar.close (List.last rest b))
              (Bar.timestamp (List.last rest b)) Hinv1) as (rm & -> & _ & _).
  destruct (BacktestEngine._print_results _) as [u|x] eqn:Hp; simpl; intros Hnone;
    rewrite (print_results_zero_trades
               (BacktestEngine.with_risk_manager e1 rm) (b :: rest) Hnone) in Hp;
    congruence.
Qed.

Lemma zero_trades_run_raises_witness :
  snd (BacktestEngine.run config (BacktestEngine.init config "EURUSD" None)
         quiet_day None None)
  = Raise (KeyError "winners").
Proof.
  apply (zero_trades_run_raises config "EURUSD" None quiet_day None None).
  - unfold unique_index. apply (bool_decide_unpack _). vm_compute. exact I.
  - vm_compute. discriminate.
  - vm_compute. reflexivity.
Defined.

(** * Further properties of the strategy *)

Section AsianRangeFacts.
Variable cfg : Config.

Lemma fold_left_Qmax_ge (l : list Q) (a : Q) :
  (a <= fold_left Qmax l a)%Q
  /\ forall y, In y l -> (y <= fold_left Qmax l a)%Q.
Proof.
  revert a. induction l as [|x l IH]; intros a; simpl.
  - split; [apply Qle_refl | tauto].
  - destruct (IH (Qmax a x)) as [Hacc Hin]. split.
    + eapply Qle_trans; [apply Q.le_max_l | exact Hacc].
    + intros y [<- | Hy].
      * eapply Qle_trans; [apply Q.le_max_r | exact Hacc].
      * apply Hin, Hy.
Qed.

Lemma fold_left_Qmin_le (l : list Q) (a : Q) :
  (fold_left Qmin l a <= a)%Q
  /\ forall y, In y l -> (fold_left Qmin l a <= y)%Q.
Proof.
  revert a. induction l as [|x l IH]; intros a; simpl.
  - split; [apply Qle_refl | tauto].
  - destruct (IH (Qmin a x)) as [Hacc Hin]. split.
    + eapply Qle_trans; [exact Hacc | apply Q.le_min_l].
    + intros y [<- | Hy].
      * eapply Qle_trans; [exact Hacc | apply Q.le_min_r].
      * apply Hin, Hy.
Qed.

Lemma in_asian_session_test (t : datetime) (b : Bar.t) :
  (datetime_combine (date_of t) (ASIAN_SESSION_START cfg) <=? Bar.timestamp b)
  && (Bar.timestamp b <? datetime_combine (date_of t) (ASIAN_SESSION_END cfg)) = true
  <-> in_asian_session cfg t b.
Proof.
  unfold in_asian_session. rewrite andb_true_iff, Z.leb_le, Z.ltb_lt. tauto.
Qed.

Lemma is_valid_band (r : AsianRange.t) :
  AsianRange.is_valid cfg r = true
  <-> (MIN_RANGE_PIPS cfg <= AsianRange.range_pips r)%Q
      /\ (AsianRange.range_pips r <= MAX_RANGE_PIPS cfg)%Q.
Proof.
  unfold AsianRange.is_valid. rewrite andb_true_iff, !Qle_bool_iff. tauto.
Qed.

End AsianRangeFacts.

(** X1. identify_asian_range returns None when no bar of the frame lies in
    the Asian session of the day; a range it returns has passed is_valid
    (its size in pips is within [MIN_RANGE_PIPS, MAX_RANGE_PIPS]), carries
    the session end of that day as timestamp, and encloses every session bar
    of the day: no high above its high, no low below its low. *)
Theorem identify_asian_range_sound (cfg : Config) (df : DataFrame) (t : datetime) :
  ((forall b, In b df -> ~ in_asian_session cfg t b) ->
   LondonBreakoutStrategy.identify_asian_range cfg df t = None)
  /\ forall r,
       LondonBreakoutStrategy.identify_asian_range cfg df t = Some r ->
       (MIN_RANGE_PIPS cfg <= AsianRange.range_pips r)%Q
       /\ (AsianRange.range_pips r <= MAX_RANGE_PIPS cfg)%Q
       /\ AsianRange.timestamp r
          = datetime_combine (date_of t) (ASIAN_SESSION_END cfg)
       /\ forall b, In b df -> in_asian_session cfg t b ->
                    (Bar.high b <= AsianRange.high r)%Q
                    /\ (AsianRange.low r <= Bar.low b)%Q.
Proof.
  unfold LondonBreakoutStrategy.identify_asian_range.
  set (P := fun b : Bar.t =>
              (datetime_combine (date_of t) (ASIAN_SESSION_START cfg) <=? Bar.timestamp b)
              && (Bar.timestamp b <? datetime_combine (date_of t) (ASIAN_SESSION_END cfg))).
  split.
  - intros Hnone.
    assert (Hnil : List.filter P df = []).
    { destruct (List.filter P df) as [|b l] eqn:E; [reflexivity|].
      assert (Hb : In b (List.filter P df)) by (rewrite E; by left).
      apply filter_In in Hb as [Hin HP].
      exfalso. apply (Hnone b Hin). apply (in_asian_session_test cfg t b), HP. }
    rewrite Hnil. reflexivity.
  - intros r Hr.
    destruct (List.filter P df) as [|b0 rest] eqn:E; [discriminate|].
    destruct (AsianRange.is_valid cfg _) eqn:Hvalid; [|discriminate].
    injection Hr as <-.
    apply is_valid_band in Hvalid as [Hmin Hmax].
    split; [exact Hmin|]. split; [exact Hmax|]. split; [reflexivity|].
    intros b Hin Hsess. simpl.
    assert (Hb : In b (b0 :: rest)).
    { rewrite <- E. apply filter_In. split; [exact Hin|].
      apply (in_asian_session_test cfg t b), Hsess. }
    unfold col_max, col_min.
    destruct (fold_left_Qmax_ge (map Bar.high rest) (Bar.high b0)) as [Hx0 Hxs].
    destruct (fold_left_Qmin_le (map Bar.low rest) (Bar.low b0)) as [Hn0 Hns].
    destruct Hb as [<- | Hb]; [split; assumption|].
    split; [apply Hxs | apply Hns]; apply in_map, Hb.
Qed.

Lemma identify_asian_range_sound_witness :
  LondonBreakoutStrategy.identify_asian_range config [breakout_bar; stop_bar] (mk_time 8 0)
  = None
  /\ exists r,
       LondonBreakoutStrategy.identify_asian_range config sample_day (mk_time 8 0) = Some r
       /\ (Bar.high asian_bar <= AsianRange.high r)%Q
       /\ (AsianRange.low r <= Bar.low asian_bar)%Q.
Proof.
  split.
  - apply (proj1 (identify_asian_range_sound config [breakout_bar; stop_bar] (mk_time 8 0))).
    intros b [<- | [<- | []]]; vm_compute; intros [_ H]; discriminate.
  - eexists. split; [vm_compute; reflexivity|].
    apply (proj2 (identify_asian_range_sound config sample_day (mk_time 8 0)) _ eq_refl).
    + left. reflexivity.
    + vm_compute. split; [discriminate | reflexivity].
Defined.

Section SignalFacts.
Variable cfg : Config.

(** What a returned signal tells about the call that produced it. *)
Lemma generate_signal_inversion
  (s s' : LondonBreakoutStrategy.t) (df : DataFrame) (t : datetime)
  (signal : TradeSignal.t) :
  LondonBreakoutStrategy.generate_signal cfg s df t = (s', Ok (Some signal)) ->
  TradingSession.is_trading_window cfg t = true
  /\ exists r bar,
       ((LondonBreakoutStrategy.current_range s = Some r
         /\ date_of (AsianRange.timestamp r) = date_of t)
        \/ LondonBreakoutStrategy.identify_asian_range cfg df t = Some r)
       /\ df_loc df t = LocRow bar
       /\ LondonBreakoutStrategy.check_breakout cfg bar r
          = TradeSignal.signal_type signal
       /\ TradeSignal.signal_type signal <> SignalType.NONE
       /\ signal
          = {| TradeSignal.signal_type := TradeSignal.signal_type signal;
               TradeSignal.timestamp := t;
               TradeSignal.entry_price := Bar.close bar;
               TradeSignal.stop_loss :=
                 fst (LondonBreakoutStrategy.calculate_position_levels cfg
                        (TradeSignal.signal_type signal) (Bar.close bar) r);
               TradeSignal.take_profit :=
                 snd (LondonBreakoutStrategy.calculate_position_levels cfg
                        (TradeSignal.signal_type signal) (Bar.close bar) r);
               TradeSignal.asian_range := r |}
       /\ (MIN_RISK_REWARD cfg <= TradeSignal.risk_reward_ratio signal)%Q
       /\ LondonBreakoutStrategy.current_range s' = Some r
       /\ LondonBreakoutStrategy.last_signal_date s' = Some (date_of t).
Proof.
  unfold LondonBreakoutStrategy.generate_signal, TradingSession.is_trading_window.
  destruct (bool_decide _); [discriminate|].
  destruct ((LONDON_OPEN cfg <=? time_of t) && _) eqn:Hwin; simpl; [|discriminate].
  set (s1 := match LondonBreakoutStrategy.current_range s with
             | Some r => _
             | None => _
             end).
  assert (Hs1 : forall r, LondonBreakoutStrategy.current_range s1 = Some r ->
                  (LondonBreakoutStrategy.current_range s = Some r
                   /\ date_of (AsianRange.timestamp r) = date_of t)
                  \/ LondonBreakoutStrategy.identify_asian_range cfg df t = Some r).
  { intros r. unfold s1.
    destruct (LondonBreakoutStrategy.current_range s) as [r0|] eqn:Hr0; simpl.
    - destruct (date_of (AsianRange.timestamp r0) =? date_of t) eqn:Hd; simpl.
      + rewrite Hr0. intros [= ->]. left. split; [reflexivity|].
        apply Z.eqb_eq, Hd.
      + intros H. by right.
    - intros H. by right. }
  clearbody s1.
  destruct (LondonBreakoutStrategy.current_range s1) as [r|] eqn:Hr; [|discriminate].
  destruct (df_loc df t) as [|bar|] eqn:Hloc; try discriminate.
  destruct (LondonBreakoutStrategy.check_breakout cfg bar r) eqn:Hst; try discriminate.
  all: match goal with
       | |- context [if ?b then (_, Ok None) else _] => destruct b; [discriminate|]
       end.
  all: simpl.
  all: match goal with
       | |- context [Qltb ?x ?y] => destruct (Qltb x y) eqn:Hrr; [discriminate|]
       end.
  all: intros [= <- <-]; split; [reflexivity|]; exists r, bar; simpl.
  all: apply Qltb_false in Hrr.
  all: repeat split; auto; discriminate.
Qed.

Lemma check_breakout_long (bar : Bar.t) (r : AsianRange.t) :
  LondonBreakoutStrategy.check_breakout cfg bar r = SignalType.LONG ->
  (AsianRange.high r + BREAKOUT_BUFFER_PIPS cfg / 10000 < Bar.close bar)%Q.
Proof.
  unfold LondonBreakoutStrategy.check_breakout.
  destruct (Qgtb _ _) eqn:E; [intros _; apply Qgtb_true, E|].
  destruct (Qltb _ _); discriminate.
Qed.

Lemma check_breakout_short (bar : Bar.t) (r : AsianRange.t) :
  LondonBreakoutStrategy.check_breakout cfg bar r = SignalType.SHORT ->
  (Bar.close bar < AsianRange.low r - BREAKOUT_BUFFER_PIPS cfg / 10000)%Q.
Proof.
  unfold LondonBreakoutStrategy.check_breakout.
  destruct (Qgtb _ _); [discriminate|].
  destruct (Qltb _ _) eqn:E; [intros _; apply Qltb_true, E | discriminate].
Qed.

(** Every call keeps the cached range a valid one. *)
Lemma generate_signal_keeps_range_valid
  (s : LondonBreakoutStrategy.t) (df : DataFrame) (t : datetime) :
  cached_range_valid cfg s ->
  cached_range_valid cfg (fst (LondonBreakoutStrategy.generate_signal cfg s df t)).
Proof.
  intros Hs.
  assert (Hid : forall r, LondonBreakoutStrategy.identify_asian_range cfg df t = Some r ->
                          AsianRange.is_valid cfg r = true).
  { intros r Hr. apply is_valid_band.
    destruct (proj2 (identify_asian_range_sound cfg df t) r Hr) as (H1 & H2 & _).
    split; assumption. }
  unfold LondonBreakoutStrategy.generate_signal.
  destruct (bool_decide _); [exact Hs|].
  destruct (negb _); [exact Hs|].
  set (s1 := match LondonBreakoutStrategy.current_range s with
             | Some r => _
             | None => _
             end).
  assert (Hs1 : cached_range_valid cfg s1).
  { unfold s1. destruct (LondonBreakoutStrategy.current_range s) as [r0|] eqn:Hr0.
    - destruct (negb _); [|exact Hs]. intros r Hr. apply Hid, Hr.
    - intros r Hr. apply Hid, Hr. }
  clearbody s1.
  destruct (LondonBreakoutStrategy.current_range s1) as [r|] eqn:Hr; [|exact Hs1].
  destruct (df_loc df t); try exact Hs1.
  destruct (LondonBreakoutStrategy.check_breakout cfg b r); try exact Hs1.
  all: match goal with
       | |- context [if ?b then (_, Ok None) else _] => destruct b; [exact Hs1|]
       end.
  all: simpl.
  all: match goal with
       | |- context [Qltb ?x ?y] => destruct (Qltb x y); [exact Hs1|]
       end.
  all: intros r' Hr'; simpl in Hr'; apply Hs1; congruence.
Qed.

End SignalFacts.

(** X2. A day without a valid Asian range never trades: when
    identify_asian_range finds no valid range for the day of the call and
    the strategy holds no cached range of that day, generate_signal returns
    None, however far the bar breaks out. *)
Theorem no_valid_range_no_signal
  (cfg : Config) (s : LondonBreakoutStrategy.t) (df : DataFrame) (t : datetime) :
  LondonBreakoutStrategy.identify_asian_range cfg df t = None ->
  (forall r, LondonBreakoutStrategy.current_range s = Some r ->
             date_of (AsianRange.timestamp r) <> date_of t) ->
  snd (LondonBreakoutStrategy.generate_signal cfg s df t) = Ok None.
Proof.
  intros Hnone Hcache. unfold LondonBreakoutStrategy.generate_signal.
  destruct (bool_decide _); [reflexivity|].
  destruct (negb _); [reflexivity|].
  destruct (LondonBreakoutStrategy.current_range s) as [r0|] eqn:Hr0.
  - destruct (Z.eqb_spec (date_of (AsianRange.timestamp r0)) (date_of t)) as [Heq | Hne].
    + exfalso. exact (Hcache r0 eq_refl Heq).
    + simpl. rewrite Hnone. reflexivity.
  - simpl. rewrite Hnone. reflexivity.
Qed.

Lemma no_valid_range_no_signal_witness :
  snd (LondonBreakoutStrategy.generate_signal config
         (LondonBreakoutStrategy.init "EURUSD") narrow_day (mk_time 8 0))
  = Ok None
  /\ LondonBreakoutStrategy.check_breakout config strong_bar
       {| AsianRange.high := 11010 # 10000; AsianRange.low := 11000 # 10000;
          AsianRange.timestamp := mk_time 7 0 |}
     = SignalType.LONG.
Proof.
  split.
  - apply (no_valid_range_no_signal config (LondonBreakoutStrategy.init "EURUSD")
             narrow_day (mk_time 8 0)).
    + vm_compute. reflexivity.
    + intros r H. discriminate.
  - vm_compute. reflexivity.
Defined.

(** X3. A signal is returned only for a timestamp inside the trading window
    (TradingSession.is_trading_window) at which the frame has a bar; its
    entry price is that bar's close and its timestamp the call's; a LONG
    signal means the close is above range high + buffer and puts the stop at
    the range low, a SHORT signal means the close is below range low - buffer
    and puts the stop at the range high; its risk-reward ratio is at least
    MIN_RISK_REWARD. *)
Theorem signal_anatomy
  (cfg : Config) (s s' : LondonBreakoutStrategy.t) (df : DataFrame) (t : datetime)
  (signal : TradeSignal.t) :
  LondonBreakoutStrategy.generate_signal cfg s df t = (s', Ok (Some signal)) ->
  TradingSession.is_trading_window cfg t = true
  /\ TradeSignal.timestamp signal = t
  /\ (exists bar, df_loc df t = LocRow bar
                  /\ TradeSignal.entry_price signal = Bar.close bar)
  /\ (MIN_RISK_REWARD cfg <= TradeSignal.risk_reward_ratio signal)%Q
  /\ ((TradeSignal.signal_type signal = SignalType.LONG
       /\ (AsianRange.high (TradeSignal.asian_range signal)
           + BREAKOUT_BUFFER_PIPS cfg / 10000 < TradeSignal.entry_price signal)%Q
       /\ TradeSignal.stop_loss signal = AsianRange.low (TradeSignal.asian_range signal))
      \/ (TradeSignal.signal_type signal = SignalType.SHORT
          /\ (TradeSignal.entry_price signal
              < AsianRange.low (TradeSignal.asian_range signal)
                - BREAKOUT_BUFFER_PIPS cfg / 10000)%Q
          /\ TradeSignal.stop_loss signal
             = AsianRange.high (TradeSignal.asian_range signal))).
Proof.
  intros Hgen.
  destruct (generate_signal_inversion cfg s s' df t signal Hgen)
    as (Hwin & r & bar & _ & Hloc & Hst & Hne & Hsig & Hrr & _).
  split; [exact Hwin|].
  split; [rewrite Hsig; reflexivity|].
  split; [exists bar; split; [exact Hloc | rewrite Hsig; reflexivity]|].
  split; [exact Hrr|].
  rewrite Hsig. simpl.
  destruct (TradeSignal.signal_type signal) eqn:Etype; [congruence| |].
  - left. split; [reflexivity|]. split; [|reflexivity].
    apply (check_breakout_long cfg bar r Hst).
  - right. split; [reflexivity|]. split; [|reflexivity].
    apply (check_breakout_short cfg bar r Hst).
Qed.

Lemma signal_anatomy_witness :
  exists s' signal,
    LondonBreakoutStrategy.generate_signal config
      (LondonBreakoutStrategy.init "EURUSD") sample_day (mk_time 8 0)
    = (s', Ok (Some signal))
    /\ TradingSession.is_trading_window config (mk_time 8 0) = true
    /\ TradeSignal.timestamp signal = mk_time 8 0.
Proof.
  eexists _, _. split; [vm_compute; reflexivity|].
  refine (let H := signal_anatomy config (LondonBreakoutStrategy.init "EURUSD") _
                     sample_day (mk_time 8 0) _ _ in
          conj (proj1 H) (proj1 (proj2 H))).
  vm_compute. reflexivity.
Defined.

(** The gate of [generate_signal] lets no signal through whose target
    coincides with its entry, when MIN_RISK_REWARD is positive. *)
Lemma positive_ratio_has_reward (cfg : Config) (signal : TradeSignal.t) :
  (0 < MIN_RISK_REWARD cfg)%Q ->
  (MIN_RISK_REWARD cfg <= TradeSignal.risk_reward_ratio signal)%Q ->
  ~ (TradeSignal.take_profit signal == TradeSignal.entry_price signal)%Q.
Proof.
  intros Hmin Hgate Heq. unfold TradeSignal.risk_reward_ratio in Hgate.
  destruct (Qeq_bool (TradeSignal.risk_pips signal) 0); [lra|].
  assert (Hzero : (TradeSignal.reward_pips signal == 0)%Q).
  { unfold TradeSignal.reward_pips.
    assert (Hd : (TradeSignal.take_profit signal - TradeSignal.entry_price signal == 0)%Q)
      by lra.
    rewrite Hd. reflexivity. }
  assert (Hdiv : (TradeSignal.reward_pips signal / TradeSignal.risk_pips signal == 0)%Q).
  { unfold Qdiv. rewrite Hzero. ring. }
  rewrite Hdiv in Hgate. lra.
Qed.

(** X4. With a non-negative breakout buffer, a non-negative MIN_RANGE_PIPS,
    a non-negative RISK_REWARD_RATIO and a positive MIN_RISK_REWARD, a
    strategy whose cached range is valid (as that of a fresh strategy is, and
    as every call keeps it) only returns well-ordered signals:
    stop < entry < target for LONG, target < entry < stop for SHORT. *)
Theorem signal_levels_ordered
  (cfg : Config) (s s' : LondonBreakoutStrategy.t) (df : DataFrame) (t : datetime)
  (signal : TradeSignal.t) :
  (0 <= BREAKOUT_BUFFER_PIPS cfg)%Q ->
  (0 <= MIN_RANGE_PIPS cfg)%Q ->
  (0 <= RISK_REWARD_RATIO cfg)%Q ->
  (0 < MIN_RISK_REWARD cfg)%Q ->
  cached_range_valid cfg s ->
  LondonBreakoutStrategy.generate_signal cfg s df t = (s', Ok (Some signal)) ->
  cached_range_valid cfg s'
  /\ match TradeSignal.signal_type signal with
     | SignalType.LONG =>
         (TradeSignal.stop_loss signal < TradeSignal.entry_price signal)%Q
         /\ (TradeSignal.entry_price signal < TradeSignal.take_profit signal)%Q
     | SignalType.SHORT =>
         (TradeSignal.take_profit signal < TradeSignal.entry_price signal)%Q
         /\ (TradeSignal.entry_price signal < TradeSignal.stop_loss signal)%Q
     | SignalType.NONE => False
     end.
Proof.
  intros Hbuf Hmin Hrr Hgate Hs Hgen.
  split.
  { pose proof (generate_signal_keeps_range_valid cfg s df t Hs) as H.
    rewrite Hgen in H. exact H. }
  destruct (generate_signal_inversion cfg s s' df t signal Hgen)
    as (_ & r & bar & Hrange & _ & Hst & Hne & Hsig & Hratio & _).
  assert (Hvalid : AsianRange.is_valid cfg r = true).
  { destruct Hrange as [[Hc _] | Hid]; [apply Hs, Hc|].
    apply is_valid_band.
    destruct (proj2 (identify_asian_range_sound cfg df t) r Hid) as (H1 & H2 & _).
    split; assumption. }
  apply is_valid_band in Hvalid as [Hlo _]. unfold AsianRange.range_pips in Hlo.
  assert (Hbuf' : (0 <= BREAKOUT_BUFFER_PIPS cfg / 10000)%Q).
  { apply Qle_shift_div_l; [reflexivity | lra]. }
  pose proof (positive_ratio_has_reward cfg signal Hgate Hratio) as Hreward.
  rewrite Hsig in Hreward. rewrite Hsig.
  cbn [TradeSignal.signal_type TradeSignal.entry_price TradeSignal.stop_loss
       TradeSignal.take_profit] in *.
  destruct (TradeSignal.signal_type signal) eqn:Etype; [congruence| |];
    cbn [fst snd LondonBreakoutStrategy.calculate_position_levels] in *.
  - pose proof (check_breakout_long cfg bar r Hst) as Hb.
    assert (Hd : (0 <= Bar.close bar - AsianRange.low r)%Q) by lra.
    pose proof (Qmult_le_0_compat _ _ Hd Hrr) as Hprod.
    split; [lra|].
    destruct (Qlt_le_dec (Bar.close bar)
                (Bar.close bar
                 + (Bar.close bar - AsianRange.low r) * RISK_REWARD_RATIO cfg))
      as [Hlt | Hle]; [exact Hlt|].
    exfalso. apply Hreward. lra.
  - pose proof (check_breakout_short cfg bar r Hst) as Hb.
    assert (Hd : (0 <= AsianRange.high r - Bar.close bar)%Q) by lra.
    pose proof (Qmult_le_0_compat _ _ Hd Hrr) as Hprod.
    split; [|lra].
    destruct (Qlt_le_dec
                (Bar.close bar
                 - (AsianRange.high r - Bar.close bar) * RISK_REWARD_RATIO cfg)
                (Bar.close bar))
      as [Hlt | Hle]; [exact Hlt|].
    exfalso. apply Hreward. lra.
Qed.

Lemma signal_levels_ordered_witness :
  exists s' signal,
    LondonBreakoutStrategy.generate_signal config
      (LondonBreakoutStrategy.init "EURUSD") sample_day (mk_time 8 0)
    = (s', Ok (Some signal))
    /\ (TradeSignal.stop_loss signal < TradeSignal.entry_price signal)%Q
    /\ (TradeSignal.entry_price signal < TradeSignal.take_profit signal)%Q.
Proof.
  eexists _, _. split; [vm_compute; reflexivity|].
  match goal with
  | |- (TradeSignal.stop_loss ?sg < _)%Q /\ _ =>
      refine (proj2 (signal_levels_ordered config
                       (LondonBreakoutStrategy.init "EURUSD") _ sample_day
                       (mk_time 8 0) sg _ _ _ _ _ _))
  end.
  - vm_compute. discriminate.
  - vm_compute. discriminate.
  - vm_compute. discriminate.
  - vm_compute. reflexivity.
  - intros r H. discriminate.
  - vm_compute. reflexivity.
Defined.

(** X6. should_exit_time_based depends on the time of day only: it holds
    exactly when the time exit is enabled and the time of day is at or after
    LONDON_CLOSE minus EXIT_BEFORE_CLOSE_MINUTES; so once it holds it holds
    for the rest of that calendar day. *)
Theorem time_exit_is_time_of_day (cfg : Config) (t : datetime) :
  LondonBreakoutStrategy.should_exit_time_based cfg t
  = USE_TIME_EXIT cfg
    && (LONDON_CLOSE cfg - EXIT_BEFORE_CLOSE_MINUTES cfg * usec_per_minute <=? time_of t)
  /\ forall t',
       date_of t' = date_of t -> t <= t' ->
       LondonBreakoutStrategy.should_exit_time_based cfg t = true ->
       LondonBreakoutStrategy.should_exit_time_based cfg t' = true.
Proof.
  assert (Hchar : forall u,
            LondonBreakoutStrategy.should_exit_time_based cfg u
            = USE_TIME_EXIT cfg
              && (LONDON_CLOSE cfg - EXIT_BEFORE_CLOSE_MINUTES cfg * usec_per_minute
                  <=? time_of u)).
  { intros u. unfold LondonBreakoutStrategy.should_exit_time_based.
    destruct (USE_TIME_EXIT cfg); simpl; [|reflexivity].
    unfold datetime_combine, date_of, time_of.
    assert (Hday : usec_per_day <> 0) by (vm_compute; discriminate).
    pose proof (Z.div_mod u usec_per_day Hday) as Hu.
    destruct (Z.leb_spec (u / usec_per_day * usec_per_day + LONDON_CLOSE cfg
                          - EXIT_BEFORE_CLOSE_MINUTES cfg * usec_per_minute) u);
      destruct (Z.leb_spec (LONDON_CLOSE cfg
                            - EXIT_BEFORE_CLOSE_MINUTES cfg * usec_per_minute)
                           (u mod usec_per_day)); try reflexivity; lia. }
  split; [apply Hchar|].
  intros t' Hdate Hle. rewrite !Hchar.
  destruct (USE_TIME_EXIT cfg); simpl; [|discriminate].
  rewrite !Z.leb_le. intros H.
  assert (Hday : usec_per_day <> 0) by (vm_compute; discriminate).
  pose proof (Z.div_mod t usec_per_day Hday) as Ht.
  pose proof (Z.div_mod t' usec_per_day Hday) as Ht'.
  unfold date_of, time_of in *. rewrite Hdate in Ht'. lia.
Qed.

Lemma time_exit_is_time_of_day_witness :
  LondonBreakoutStrategy.should_exit_time_based config
    (datetime_combine 3 (mk_time 15 45)) = true.
Proof.
  apply (proj2 (time_exit_is_time_of_day config (datetime_combine 3 (mk_time 15 30)))
           (datetime_combine 3 (mk_time 15 45))).
  - vm_compute. reflexivity.
  - vm_compute. discriminate.
  - vm_compute. reflexivity.
Defined.

(** * Further properties of the risk manager *)

Lemma round_half_even_le (x : Q) (k : Z) :
  (x <= inject_Z k)%Q -> round_half_even x <= k.
Proof.
  intros Hx. unfold round_half_even.
  pose proof (Qfloor_le x) as Hf.
  assert (Hfk : Qfloor x <= k).
  { apply Qfloor_resp_le in Hx. rewrite Qfloor_Z in Hx. exact Hx. }
  destruct (Z.eq_dec (Qfloor x) k) as [Heq | Hne].
  - rewrite Heq in *.
    destruct (Qcompare_spec (x - inject_Z k) (1 # 2)) as [H | H | H]; [lra | lia | lra].
  - destruct (Qcompare _ _); [destruct (Z.even _)| |]; lia.
Qed.

Lemma round_half_even_ge (x : Q) (k : Z) :
  (inject_Z k <= x)%Q -> k <= round_half_even x.
Proof.
  intros Hx. unfold round_half_even.
  assert (Hfk : k <= Qfloor x).
  { apply Qfloor_resp_le in Hx. rewrite Qfloor_Z in Hx. exact Hx. }
  destruct (Qcompare _ _); [destruct (Z.even _)| |]; lia.
Qed.

Lemma round2_le (x : Q) (k : Z) :
  (x <= inject_Z k / 100)%Q -> (round2 x <= inject_Z k / 100)%Q.
Proof.
  intros Hx. unfold round2.
  change (inject_Z k / 100)%Q with (inject_Z k * (1 # 100))%Q in *.
  change (inject_Z (round_half_even (x * 100)) / 100)%Q
    with (inject_Z (round_half_even (x * 100)) * (1 # 100))%Q.
  assert (Hr : round_half_even (x * 100) <= k) by (apply round_half_even_le; lra).
  rewrite Zle_Qle in Hr. lra.
Qed.

Lemma round2_nonneg (x : Q) : (0 <= x)%Q -> (0 <= round2 x)%Q.
Proof.
  intros Hx. unfold round2.
  change (inject_Z (round_half_even (x * 100)) / 100)%Q
    with (inject_Z (round_half_even (x * 100)) * (1 # 100))%Q.
  assert (Hr : 0 <= round_half_even (x * 100)).
  { apply round_half_even_ge. change (inject_Z 0) with 0%Q. lra. }
  rewrite Zle_Qle in Hr. change (inject_Z 0) with 0%Q in Hr. lra.
Qed.

(** X7. With a non-negative equity, risk percentage and size-per-100 rule,
    and MAX_POSITION_SIZE_LOTS a non-negative multiple of 0.01, the size
    calculate_position_size returns lies between 0 and MAX_POSITION_SIZE_LOTS:
    rounding to two decimals never lifts it above the cap. *)
Theorem position_size_within_cap
  (cfg : Config) (rm : RiskManager.t) (entry stop : Q) (risk_percent : option Q) (k : Z) :
  (0 <= RiskManager.current_equity rm)%Q ->
  (0 <= match risk_percent with
        | Some r => r
        | None => RISK_PER_TRADE_PERCENT cfg
        end)%Q ->
  (0 <= POSITION_SIZE_PER_100 cfg)%Q ->
  0 <= k ->
  (MAX_POSITION_SIZE_LOTS cfg == inject_Z k / 100)%Q ->
  (0 <= RiskManager.calculate_position_size cfg rm entry stop risk_percent)%Q
  /\ (RiskManager.calculate_position_size cfg rm entry stop risk_percent
      <= MAX_POSITION_SIZE_LOTS cfg)%Q.
Proof.
  intros Hequity Hpct Hrule Hk Hmax.
  assert (Hmax0 : (0 <= MAX_POSITION_SIZE_LOTS cfg)%Q).
  { rewrite Hmax. change (inject_Z k / 100)%Q with (inject_Z k * (1 # 100))%Q.
    rewrite Zle_Qle in Hk. change (inject_Z 0) with 0%Q in Hk. lra. }
  unfold RiskManager.calculate_position_size.
  set (pct := match risk_percent with
              | Some r => r
              | None => RISK_PER_TRADE_PERCENT cfg
              end) in *.
  destruct (Qeq_bool _ 0) eqn:Hrisk; [split; [apply Qle_refl | exact Hmax0]|].
  set (risk_pips := (Qabs (entry - stop) * 10000)%Q) in *.
  assert (Hpips : (0 < risk_pips * 10)%Q).
  { assert (H0 : (0 <= risk_pips)%Q).
    { unfold risk_pips. pose proof (Qabs_nonneg (entry - stop)). lra. }
    assert (Hne : ~ (risk_pips == 0)%Q).
    { intros H. apply Qeq_bool_iff in H. congruence. }
    lra. }
  set (raw := (RiskManager.current_equity rm * (pct / 100) / (risk_pips * 10))%Q).
  assert (Hraw : (0 <= raw)%Q).
  { unfold raw. apply Qle_shift_div_l; [exact Hpips|].
    change (pct / 100)%Q with (pct * (1 # 100))%Q.
    assert (H := Qmult_le_0_compat _ _ Hequity Hpct). lra. }
  set (simple := (RiskManager.current_equity rm / 100 * POSITION_SIZE_PER_100 cfg)%Q).
  assert (Hsimple : (0 <= simple)%Q).
  { unfold simple.
    change (RiskManager.current_equity rm / 100)%Q
      with (RiskManager.current_equity rm * (1 # 100))%Q.
    assert (H := Qmult_le_0_compat _ _ Hequity Hrule). lra. }
  split.
  - apply round2_nonneg. repeat apply Q.min_glb; assumption.
  - assert (Hle : (MAX_POSITION_SIZE_LOTS cfg <= inject_Z k / 100)%Q)
      by (rewrite Hmax; apply Qle_refl).
    assert (Hge : (inject_Z k / 100 <= MAX_POSITION_SIZE_LOTS cfg)%Q)
      by (rewrite Hmax; apply Qle_refl).
    eapply Qle_trans; [|exact Hge]. apply round2_le.
    eapply Qle_trans; [apply Q.le_min_l|].
    eapply Qle_trans; [apply Q.le_min_r | exact Hle].
Qed.

Lemma position_size_within_cap_witness :
  (0 <= RiskManager.calculate_position_size config (RiskManager.init 1000000)
          (11053 # 10000) (11048 # 10000) None)%Q
  /\ (RiskManager.calculate_position_size config (RiskManager.init 1000000)
        (11053 # 10000) (11048 # 10000) None <= MAX_POSITION_SIZE_LOTS config)%Q.
Proof.
  apply (position_size_within_cap config (RiskManager.init 1000000)
           (11053 # 10000) (11048 # 10000) None 100).
  - vm_compute. discriminate.
  - vm_compute. discriminate.
  - vm_compute. discriminate.
  - lia.
  - vm_compute. reflexivity.
Defined.

(** X8. A signal without risk is refused: when entry and stop-loss coincide
    and no size is given, open_position returns None and leaves the risk
    manager exactly as it was. *)
Theorem zero_risk_is_refused
  (cfg : Config) (rm : RiskManager.t) (sym : string) (side : Side)
  (entry stop target : Q) (t : datetime) :
  (entry == stop)%Q ->
  RiskManager.open_position cfg rm sym side entry stop target t None = (rm, None).
Proof.
  intros Heq. unfold RiskManager.open_position, RiskManager.calculate_position_size.
  assert (Hz : Qeq_bool (Qabs (entry - stop) * 10000) 0 = true).
  { apply Qeq_bool_iff.
    assert (Hd : (entry - stop == 0)%Q) by (rewrite Heq; ring).
    rewrite Hd. reflexivity. }
  rewrite Hz. reflexivity.
Qed.

Lemma zero_risk_is_refused_witness :
  RiskManager.open_position config (RiskManager.init 10000) "EURUSD" LONG
    (11000 # 10000) (110 # 100) (11100 # 10000) 0 None
  = (RiskManager.init 10000, None).
Proof.
  apply (zero_risk_is_refused config (RiskManager.init 10000) "EURUSD" LONG
           (11000 # 10000) (110 # 100) (11100 # 10000) 0).
  vm_compute. reflexivity.
Defined.

Lemma omap_lookup_singleton {A : Type} (l : list A) (i : nat) (x : A) :
  l !! i = Some x -> omap (fun r : nat => l !! r) [i] = [x].
Proof. intros H. cbn. rewrite H. reflexivity. Qed.

Section RiskLimits.
Variable cfg : Config.

Lemma can_open_position_true (rm : RiskManager.t) (risk_amount : Q) (d : Z) (reason : string) :
  RiskManager.can_open_position cfg rm risk_amount d = (true, reason) ->
  Z.of_nat (length (RiskManager.open_positions rm)) < MAX_OPEN_POSITIONS cfg
  /\ (forall pnl, RiskManager.daily_pnl rm !! d = Some pnl ->
                  RiskManager.daily_loss_reached cfg rm pnl = false)
  /\ (RiskManager.open_risk rm + risk_amount
      <= RiskManager.current_equity rm
         * (RISK_PER_TRADE_PERCENT cfg * inject_Z (MAX_OPEN_POSITIONS cfg) / 100))%Q.
Proof.
  unfold RiskManager.can_open_position.
  destruct (Z.of_nat _ >=? MAX_OPEN_POSITIONS cfg) eqn:Hmax; [discriminate|].
  destruct (RiskManager.daily_pnl rm !! d) as [pnl|] eqn:Hday.
  - destruct (RiskManager.daily_loss_reached cfg rm pnl) eqn:Hloss; [discriminate|].
    destruct (Qgtb _ _) eqn:Hrisk; [discriminate|]. intros _.
    split; [rewrite Z.geb_leb in Hmax; apply Z.leb_gt, Hmax|].
    split; [intros ? [= <-]; exact Hloss | apply Qgtb_false, Hrisk].
  - destruct (Qgtb _ _) eqn:Hrisk; [discriminate|]. intros _.
    split; [rewrite Z.geb_leb in Hmax; apply Z.leb_gt, Hmax|].
    split; [intros ? [=] | apply Qgtb_false, Hrisk].
Qed.

End RiskLimits.

(** X9. open_position enforces the risk limits.  When it opens a position
    (returns a reference), the position is appended to the open list with the
    symbol, side and levels given, the list then holds at most
    MAX_OPEN_POSITIONS positions, the total risk of the open positions is at
    most equity x RISK_PER_TRADE_PERCENT x MAX_OPEN_POSITIONS / 100, and the
    realized loss of the entry day had not reached the daily limit; when it
    refuses (returns None) the open list is unchanged. *)
Theorem open_position_enforces_limits
  (cfg : Config) (rm rm' : RiskManager.t) (sym : string) (side : Side)
  (entry stop target : Q) (t : datetime) (size : option Q) (o : option ref) :
  RiskManager.open_position cfg rm sym side entry stop target t size = (rm', o) ->
  match o with
  | None => RiskManager.open_positions rm' = RiskManager.open_positions rm
  | Some r =>
      RiskManager.open_positions rm' = RiskManager.open_positions rm ++ [r]
      /\ (exists p,
            RiskManager.objects rm' !! r = Some p
            /\ Position.symbol p = sym /\ Position.side p = side
            /\ Position.entry_price p = entry /\ Position.stop_loss p = stop
            /\ Position.take_profit p = target /\ Position.entry_time p = t
            /\ ~ (Position.size_lots p == 0)%Q)
      /\ Z.of_nat (length (RiskManager.open_positions rm')) <= MAX_OPEN_POSITIONS cfg
      /\ (RiskManager.open_risk rm'
          <= RiskManager.current_equity rm'
             * (RISK_PER_TRADE_PERCENT cfg * inject_Z (MAX_OPEN_POSITIONS cfg) / 100))%Q
      /\ (forall pnl,
            RiskManager.daily_pnl rm !! date_of t = Some pnl ->
            RiskManager.daily_loss_reached cfg rm' pnl = false)
  end.
Proof.
  unfold RiskManager.open_position.
  set (sz := match size with
             | Some s => s
             | None => RiskManager.calculate_position_size cfg rm entry stop None
             end).
  destruct (Qeq_bool sz 0) eqn:Hsz; [intros [= <- <-]; reflexivity|].
  set (position := {| Position.symbol := sym; Position.side := side;
                      Position.entry_price := entry; Position.stop_loss := stop;
                      Position.take_profit := target; Position.size_lots := sz;
                      Position.entry_time := t;
                      Position.position_id := Some (sym, t / usec_per_second) |}).
  set (rm1 := {| RiskManager.initial_capital := RiskManager.initial_capital rm;
                 RiskManager.current_equity := RiskManager.current_equity rm;
                 RiskManager.objects := RiskManager.objects rm ++ [position];
                 RiskManager.open_positions := RiskManager.open_positions rm;
                 RiskManager.closed_trades := RiskManager.closed_trades rm;
                 RiskManager.daily_pnl := RiskManager.daily_pnl rm |}).
  destruct (RiskManager.can_open_position cfg rm1 _ _) as [[|] reason] eqn:Hcan;
    simpl; intros [= <- <-]; [|reflexivity].
  destruct (can_open_position_true cfg rm1 _ _ reason Hcan) as (Hcount & Hday & Hrisk).
  split; [reflexivity|]. split.
  { exists position. split; [apply list_lookup_middle; reflexivity|].
    repeat split. intros H. apply Qeq_bool_iff in H.
    change (Qeq_bool sz 0 = true) in H. congruence. }
  split.
  { simpl. rewrite length_app. simpl. simpl in Hcount. lia. }
  split; [|exact Hday].
  assert (Hlast : omap (fun r : ref => (RiskManager.objects rm ++ [position]) !! r)
                    [length (RiskManager.objects rm)] = [position]).
  { apply omap_lookup_singleton. apply list_lookup_middle. reflexivity. }
  unfold RiskManager.open_risk, RiskManager.positions in *. subst rm1.
  cbn [RiskManager.objects RiskManager.open_positions RiskManager.current_equity] in *.
  rewrite omap_app, Hlast, map_app. cbn [map]. rewrite py_sum_snoc. exact Hrisk.
Qed.

Lemma open_position_enforces_limits_witness :
  exists rm',
    RiskManager.open_position config (RiskManager.init 10000) "EURUSD" LONG
      (11053 # 10000) (11000 # 10000) (11159 # 10000) (mk_time 8 0) None
    = (rm', Some 0%nat)
    /\ RiskManager.open_positions rm' = [0%nat]
    /\ (RiskManager.open_risk rm' <= 300)%Q.
Proof.
  eexists. split; [vm_compute; reflexivity|].
  match goal with
  | |- RiskManager.open_positions ?rm' = _ /\ _ =>
      pose proof (open_position_enforces_limits config (RiskManager.init 10000) rm'
                    "EURUSD" LONG (11053 # 10000) (11000 # 10000) (11159 # 10000)
                    (mk_time 8 0) None (Some 0%nat)) as H
  end.
  cbv iota in H. split.
  - apply H. vm_compute. reflexivity.
  - vm_compute. discriminate.
Defined.

(** X10. Closing a position that is not in the open list raises ValueError,
    but only after the books were touched: the trade's net P&L is already
    added to the equity and to the bucket of the exit day, while no trade is
    logged and the open list is unchanged.  So closing the same position
    twice counts its P&L twice. *)
Theorem close_unlisted_position
  (cfg : Config) (rm : RiskManager.t) (r : ref) (p : Position.t)
  (price : Q) (t : datetime) (reason : string) :
  RiskManager.objects rm !! r = Some p ->
  (forall y, In y (RiskManager.open_positions rm) ->
             RiskManager.same_position (RiskManager.objects rm) y r = false) ->
  let trade := RiskManager.make_trade cfg p price t reason in
  let rm' := fst (RiskManager.close_position cfg rm r price t reason) in
  snd (RiskManager.close_position cfg rm r price t reason)
  = Raise (ValueError "list.remove(x): x not in list")
  /\ RiskManager.current_equity rm'
     = (RiskManager.current_equity rm + Trade.net_pnl trade)%Q
  /\ RiskManager.daily_pnl rm' !! date_of t
     = Some (match RiskManager.daily_pnl rm !! date_of t with
             | Some v => v
             | None => 0
             end + Trade.net_pnl trade)%Q
  /\ RiskManager.closed_trades rm' = RiskManager.closed_trades rm
  /\ RiskManager.open_positions rm' = RiskManager.open_positions rm.
Proof.
  intros Hobj Hnot trade rm'. subst rm' trade.
  unfold RiskManager.close_position. rewrite Hobj.
  assert (Hrm : RiskManager.list_remove (RiskManager.objects rm) r
                  (RiskManager.open_positions rm) = None).
  { induction (RiskManager.open_positions rm) as [|y l IH]; simpl; [reflexivity|].
    rewrite (Hnot y (or_introl eq_refl)).
    rewrite IH; [reflexivity|]. intros z Hz. apply Hnot. by right. }
  rewrite Hrm. simpl. repeat split. apply lookup_insert_eq.
Qed.

Lemma close_unlisted_position_witness :
  let rm := BacktestEngine.risk_manager engine_with_long in
  let rm1 := fst (RiskManager.close_position config rm 0%nat (10950 # 10000)
                    (mk_time 9 0) "SL") in
  let rm2 := fst (RiskManager.close_position config rm1 0%nat (10950 # 10000)
                    (mk_time 9 5) "SL") in
  snd (RiskManager.close_position config rm1 0%nat (10950 # 10000) (mk_time 9 5) "SL")
  = Raise (ValueError "list.remove(x): x not in list")
  /\ length (RiskManager.closed_trades rm2) = 1%nat
  /\ ~ equity_conserved rm2.
Proof.
  intros rm rm1 rm2.
  pose proof (close_unlisted_position config rm1 0%nat long_position (10950 # 10000)
                (mk_time 9 5) "SL" eq_refl) as H.
  split; [|split].
  - apply H. intros y Hy. vm_compute in Hy. destruct Hy.
  - vm_compute. reflexivity.
  - vm_compute. discriminate.
Defined.

Section DailyBuckets.
Variable cfg : Config.

Lemma daily_pnl_matches_frame (rm rm' : RiskManager.t) :
  RiskManager.daily_pnl rm' = RiskManager.daily_pnl rm ->
  RiskManager.closed_trades rm' = RiskManager.closed_trades rm ->
  daily_pnl_matches rm -> daily_pnl_matches rm'.
Proof. unfold daily_pnl_matches. intros -> ->. tauto. Qed.

Lemma day_trades_snoc (d : Z) (trades : list Trade.t) (tr : Trade.t) :
  day_trades d (trades ++ [tr])
  = day_trades d trades ++ (if date_of (Trade.exit_time tr) =? d then [tr] else []).
Proof. unfold day_trades. rewrite List.filter_app. reflexivity. Qed.

(** Logging a trade and adding its net P&L to the bucket of its exit day
    keeps buckets and log in agreement. *)
Lemma daily_pnl_matches_close (rm rm' : RiskManager.t) (tr : Trade.t) :
  daily_pnl_matches rm ->
  RiskManager.closed_trades rm' = RiskManager.closed_trades rm ++ [tr] ->
  RiskManager.daily_pnl rm'
  = <[date_of (Trade.exit_time tr) :=
        (match RiskManager.daily_pnl rm !! date_of (Trade.exit_time tr) with
         | Some v => v
         | None => 0
         end + Trade.net_pnl tr)%Q]> (RiskManager.daily_pnl rm) ->
  daily_pnl_matches rm'.
Proof.
  intros Hm Hlog Hday d. rewrite Hlog, Hday, day_trades_snoc.
  specialize (Hm d).
  destruct (Z.eqb_spec (date_of (Trade.exit_time tr)) d) as [Heq | Hne].
  - subst d. rewrite lookup_insert_eq. split.
    + rewrite map_app. cbn [map]. rewrite py_sum_snoc.
      destruct (RiskManager.daily_pnl rm !! _) as [v|].
      * destruct Hm as [Hv _]. rewrite Hv. reflexivity.
      * rewrite Hm. reflexivity.
    + intros H. apply app_eq_nil in H as [_ H]. discriminate.
  - rewrite lookup_insert_ne by exact Hne. rewrite app_nil_r. exact Hm.
Qed.

Lemma close_position_listed_daily
  (rm : RiskManager.t) (r : ref) (p : Position.t)
  (price : Q) (t : datetime) (reason : string) :
  RiskManager.objects rm !! r = Some p ->
  In r (RiskManager.open_positions rm) ->
  RiskManager.daily_pnl (fst (RiskManager.close_position cfg rm r price t reason))
  = <[date_of t :=
        (match RiskManager.daily_pnl rm !! date_of t with
         | Some v => v
         | None => 0
         end + Trade.net_pnl (RiskManager.make_trade cfg p price t reason))%Q]>
      (RiskManager.daily_pnl rm).
Proof.
  intros Hobj Hin. unfold RiskManager.close_position. rewrite Hobj.
  destruct (list_remove_in (RiskManager.objects rm) r _ Hin) as (l' & ->).
  reflexivity.
Qed.

Lemma close_listed_daily
  (e : BacktestEngine.t) (r : ref) (price : Q) (t : datetime) (reason : string)
  (rm' : RiskManager.t) (res : result Trade.t) :
  engine_inv e ->
  daily_pnl_matches (BacktestEngine.risk_manager e) ->
  In r (RiskManager.open_positions (BacktestEngine.risk_manager e)) ->
  RiskManager.close_position cfg (BacktestEngine.risk_manager e) r price t reason
  = (rm', res) ->
  daily_pnl_matches rm'.
Proof.
  intros [Hone _] Hm Hin Hclose.
  destruct Hone as [Hnone | (r0 & p & Hopen & Hobj & _)].
  { rewrite Hnone in Hin. destruct Hin. }
  assert (r = r0) as ->.
  { rewrite Hopen in Hin. destruct Hin as [<- | []]. reflexivity. }
  pose proof (close_position_listed_daily _ r0 p price t reason Hobj Hin) as Hday.
  destruct (close_position_listed cfg _ r0 p price t reason Hobj Hin)
    as (rm1 & Hc & Hlog & _).
  rewrite Hc in Hclose, Hday. injection Hclose as <- _. simpl in Hday.
  apply (daily_pnl_matches_close _ rm1 _ Hm Hlog). exact Hday.
Qed.

Lemma update_trailing_stop_at_daily (rm : RiskManager.t) (r : ref) (price : Q) :
  RiskManager.daily_pnl (fst (RiskManager.update_trailing_stop_at cfg rm r price))
  = RiskManager.daily_pnl rm.
Proof.
  unfold RiskManager.update_trailing_stop_at.
  destruct (RiskManager.objects rm !! r); [|reflexivity].
  destruct (RiskManager.update_trailing_stop cfg _ _); reflexivity.
Qed.

Lemma open_position_daily
  (rm : RiskManager.t) (sym : string) (side : Side) (entry stop target : Q)
  (t : datetime) (size : option Q) :
  RiskManager.daily_pnl
    (fst (RiskManager.open_position cfg rm sym side entry stop target t size))
  = RiskManager.daily_pnl rm.
Proof.
  unfold RiskManager.open_position.
  destruct (Qeq_bool _ 0); [reflexivity|].
  destruct (RiskManager.can_open_position _ _ _ _) as [[|] reason]; reflexivity.
Qed.

Lemma step_daily (e e' : BacktestEngine.t) :
  engine_inv e ->
  daily_pnl_matches (BacktestEngine.risk_manager e) ->
  step cfg e e' ->
  daily_pnl_matches (BacktestEngine.risk_manager e').
Proof.
  intros Hinv Hm Hstep.
  destruct Hstep as [e t | e r t bar e' res Hin Hp
                    | e df t e' res Hg | e r price t rm' res Hin Hc].
  - exact Hm.
  - unfold BacktestEngine.process_position in Hp.
    destruct (RiskManager.objects _ !! r) as [p|]; [|injection Hp as <- _; exact Hm].
    destruct (BacktestEngine.exit_decision cfg p t bar) as [[price reason]|].
    + destruct (RiskManager.close_position cfg _ r price t reason) as [rm' r'] eqn:Hc.
      pose proof (close_listed_daily e r price t reason rm' r' Hinv Hm Hin Hc) as H.
      destruct r'; injection Hp as <- _; exact H.
    + pose proof (update_trailing_stop_at_daily (BacktestEngine.risk_manager e) r
                    (Bar.close bar)) as Hd.
      pose proof (update_trailing_stop_at_frame cfg (BacktestEngine.risk_manager e) r
                    (Bar.close bar)) as (_ & _ & Hl & _).
      destruct (RiskManager.update_trailing_stop_at cfg _ r _) as [rm' b].
      injection Hp as <- _. simpl in *.
      exact (daily_pnl_matches_frame _ rm' Hd Hl Hm).
  - unfold BacktestEngine.generate_new_signals in Hg.
    destruct (BacktestEngine.symbol_is_open e); [injection Hg as <- _; exact Hm|].
    destruct (LondonBreakoutStrategy.generate_signal cfg _ df t) as [s [[signal|]|x]];
      injection Hg as <- _; try exact Hm.
    unfold BacktestEngine._execute_signal.
    match goal with
    | |- context [RiskManager.open_position cfg ?rm ?a ?b ?c ?d ?f ?g ?h] =>
        pose proof (open_position_frame cfg rm a b c d f g h) as (_ & _ & Hl);
        pose proof (open_position_daily rm a b c d f g h) as Hd;
        destruct (RiskManager.open_position cfg rm a b c d f g h) as [rm' o]
    end.
    simpl in *. exact (daily_pnl_matches_frame _ rm' Hd Hl Hm).
  - exact (close_listed_daily e r price t "END" rm' res Hinv Hm Hin Hc).
Qed.

End DailyBuckets.

(** X11. In every state a simulation passes through, the per-day realized
    P&L map agrees with the trade log: a day has a bucket exactly when a
    trade was closed on that day (by exit date), and the bucket equals the
    sum of the net P&L of that day's trades. *)
Theorem daily_buckets_match_log
  (cfg : Config) (sym : string) (capital : option Q) (e : BacktestEngine.t) :
  reachable cfg sym capital e ->
  forall d,
    match RiskManager.daily_pnl (BacktestEngine.risk_manager e) !! d with
    | Some v =>
        (v == py_sum (map Trade.net_pnl
                        (day_trades d
                           (RiskManager.closed_trades (BacktestEngine.risk_manager e)))))%Q
        /\ day_trades d (RiskManager.closed_trades (BacktestEngine.risk_manager e)) <> []
    | None =>
        day_trades d (RiskManager.closed_trades (BacktestEngine.risk_manager e)) = []
    end.
Proof.
  intros Hreach.
  enough (H : engine_inv e /\ daily_pnl_matches (BacktestEngine.risk_manager e))
    by exact (proj2 H).
  revert e Hreach. unfold reachable. apply rtc_ind_r.
  - split; [apply init_inv|]. intros d. simpl. rewrite lookup_empty. reflexivity.
  - intros y z _ Hstep [Hinv Hm]. split.
    + exact (step_inv cfg y z Hinv Hstep).
    + exact (step_daily cfg y z Hinv Hm Hstep).
Qed.

Lemma daily_buckets_match_log_witness :
  let rm := BacktestEngine.risk_manager
              (fst (BacktestEngine.run config fresh_engine sample_day None None)) in
  exists v,
    RiskManager.daily_pnl rm !! 0 = Some v
    /\ (v == py_sum (map Trade.net_pnl (day_trades 0 (RiskManager.closed_trades rm))))%Q.
Proof.
  intros rm.
  pose proof (daily_buckets_match_log config "EURUSD" None _
                (run_reachable config "EURUSD" None sample_day None None) 0) as H.
  fold fresh_engine in H. fold rm in H.
  destruct (RiskManager.daily_pnl rm !! 0) as [v|] eqn:E.
  - exists v. split; [reflexivity | exact (proj1 H)].
  - exfalso. revert H. vm_compute. discriminate.
Defined.

(** * Statistics *)

Lemma filter_length_bound {A : Type} (f : A -> bool) (l : list A) :
  (length (List.filter f l) <= length l)%nat.
Proof. induction l as [|x l IH]; simpl; [lia|]. destruct (f x); simpl; lia. Qed.

Lemma filter_partition_length {A : Type} (f : A -> bool) (l : list A) :
  (length (List.filter f l) + length (List.filter (fun x => negb (f x)) l))%nat
  = length l.
Proof. induction l as [|x l IH]; simpl; [lia|]. destruct (f x); simpl; lia. Qed.

Lemma fold_left_Qplus_nonneg (l : list Q) (a : Q) :
  (0 <= a)%Q -> Forall (fun x => (0 <= x)%Q) l -> (0 <= fold_left Qplus l a)%Q.
Proof.
  revert a. induction l as [|x l IH]; intros a Ha Hl; simpl; [exact Ha|].
  apply Forall_cons in Hl as [Hx Hl]. apply IH; [lra | exact Hl].
Qed.

(** X12. The win rate is a percentage: between 0 and 100 for every trade
    log, the empty one included. *)
Theorem win_rate_is_a_percentage (rm : RiskManager.t) :
  (0 <= RiskManager.win_rate rm)%Q /\ (RiskManager.win_rate rm <= 100)%Q.
Proof.
  unfold RiskManager.win_rate.
  destruct (RiskManager.closed_trades rm) as [|tr l] eqn:E; [split; lra|].
  rewrite <- E. clear E.
  set (w := Z.of_nat (length (List.filter Trade.was_winner (RiskManager.closed_trades rm)))).
  set (n := Z.of_nat (length (RiskManager.closed_trades rm))).
  assert (Hw : 0 <= w) by (unfold w; lia).
  assert (Hwn : w <= n).
  { unfold w, n. pose proof (filter_length_bound Trade.was_winner
                               (RiskManager.closed_trades rm)). lia. }
  destruct (Z.eq_dec n 0) as [Hn0 | Hn0].
  - assert (w = 0) by lia. replace w with 0 by lia. rewrite Hn0.
    vm_compute. split; discriminate.
  - assert (Hn : (0 < inject_Z n)%Q).
    { change 0%Q with (inject_Z 0). rewrite <- Zlt_Qlt. lia. }
    rewrite Zle_Qle in Hw, Hwn. change (inject_Z 0) with 0%Q in Hw.
    assert (H0 : (0 <= inject_Z w / inject_Z n)%Q).
    { apply Qle_shift_div_l; [exact Hn | lra]. }
    assert (H1 : (inject_Z w / inject_Z n <= 1)%Q).
    { apply Qle_shift_div_r; [exact Hn | lra]. }
    split; lra.
Qed.

(** X13. The profit factor is never negative and never NaN: it is +inf or
    a non-negative number, for every trade log. *)
Theorem profit_factor_is_nonnegative (rm : RiskManager.t) :
  RiskManager.profit_factor rm = VInf
  \/ exists q, RiskManager.profit_factor rm = VNum q /\ (0 <= q)%Q.
Proof.
  unfold RiskManager.profit_factor.
  set (gp := py_sum (map Trade.net_pnl
                       (List.filter Trade.was_winner (RiskManager.closed_trades rm)))).
  set (gl := Qabs (py_sum (map Trade.net_pnl
                             (List.filter (fun tr => negb (Trade.was_winner tr))
                                (RiskManager.closed_trades rm))))).
  assert (Hgp : (0 <= gp)%Q).
  { unfold gp, py_sum. apply fold_left_Qplus_nonneg; [apply Qle_refl|].
    apply Forall_forall. intros x Hx. apply list_elem_of_In, in_map_iff in Hx.
    destruct Hx as (tr & <- & Htr). apply filter_In in Htr as [_ Hwin].
    unfold Trade.was_winner in Hwin. apply Qgtb_true in Hwin. lra. }
  destruct (Qeq_bool gl 0) eqn:Hgl.
  - destruct (Qgtb gp 0); [by left|]. right. exists 0%Q. split; [reflexivity | lra].
  - right. exists (gp / gl)%Q. split; [reflexivity|].
    assert (Hpos : (0 < gl)%Q).
    { pose proof (Qabs_nonneg (py_sum (map Trade.net_pnl
                     (List.filter (fun tr => negb (Trade.was_winner tr))
                        (RiskManager.closed_trades rm))))) as H.
      fold gl in H.
      assert (Hne : ~ (gl == 0)%Q) by (intros H0; apply Qeq_bool_iff in H0; congruence).
      lra. }
    apply Qle_shift_div_l; [exact Hpos | lra].
Qed.

(** X14. With at least one closed trade, get_statistics counts every trade
    exactly once: winners + losers = total_trades, a trade being a loser
    when its net P&L is not strictly positive (break-even counts as a
    loss). *)
Theorem statistics_count_every_trade (cfg : Config) (rm : RiskManager.t) :
  RiskManager.closed_trades rm <> [] ->
  exists w l,
    RiskManager.get_statistics rm !! "winners" = Some (VInt w)
    /\ RiskManager.get_statistics rm !! "losers" = Some (VInt l)
    /\ RiskManager.get_statistics rm !! "total_trades" = Some (VInt (w + l))
    /\ w = Z.of_nat (length (List.filter (fun tr => Qgtb (Trade.net_pnl tr) 0)
                               (RiskManager.closed_trades rm)))
    /\ l = Z.of_nat (length (List.filter (fun tr => Qle_bool (Trade.net_pnl tr) 0)
                               (RiskManager.closed_trades rm))).
Proof.
  intros Hne. unfold RiskManager.get_statistics.
  destruct (RiskManager.closed_trades rm) as [|tr0 l0] eqn:E; [congruence|].
  rewrite <- E. clear E Hne tr0 l0.
  eexists _, _.
  split; [repeat (rewrite lookup_insert_ne; [|done]); apply lookup_insert_eq|].
  split; [repeat (rewrite lookup_insert_ne; [|done]); apply lookup_insert_eq|].
  split.
  - repeat (rewrite lookup_insert_ne; [|done]). rewrite lookup_insert_eq.
    do 2 f_equal.
    rewrite <- (filter_partition_length Trade.was_winner (RiskManager.closed_trades rm)).
    lia.
  - split; [reflexivity|]. do 2 f_equal.
    apply filter_ext. intros tr. unfold Trade.was_winner, Qgtb.
    rewrite negb_involutive. reflexivity.
Qed.

Lemma statistics_count_every_trade_witness :
  let rm := BacktestEngine.risk_manager
              (fst (BacktestEngine.run config fresh_engine sample_day None None)) in
  RiskManager.get_statistics rm !! "total_trades" = Some (VInt 1).
Proof.
  intros rm.
  destruct (statistics_count_every_trade config rm) as (w & l & _ & _ & Ht & -> & ->).
  - vm_compute. discriminate.
  - rewrite Ht. vm_compute. reflexivity.
Defined.

Section Streaks.

Lemma consecutive_scan_bounds (trades : list Trade.t) (mw ml cw cl : Z) :
  0 <= cw <= mw -> 0 <= cl <= ml ->
  let '(w, l) := BacktestEngine.consecutive_scan trades mw ml cw cl in
  mw <= w <= mw + Z.of_nat (length (List.filter Trade.was_winner trades))
  /\ ml <= l
     <= ml + Z.of_nat (length (List.filter (fun tr => negb (Trade.was_winner tr)) trades))
  /\ (List.filter Trade.was_winner trades <> [] -> 1 <= w)
  /\ (List.filter (fun tr => negb (Trade.was_winner tr)) trades <> [] -> 1 <= l).
Proof.
  revert mw ml cw cl. induction trades as [|tr rest IH]; intros mw ml cw cl Hw Hl.
  - simpl. repeat split; try lia; intros H; congruence.
  - cbn [BacktestEngine.consecutive_scan List.filter].
    destruct (Trade.was_winner tr); cbn [negb].
    + specialize (IH (Z.max mw (cw + 1)) ml (cw + 1) 0).
      destruct (BacktestEngine.consecutive_scan rest _ _ _ _) as [w l].
      destruct IH as (H1 & H2 & H3 & H4); [lia | lia |].
      cbn [length]. repeat split; try lia; assumption.
    + specialize (IH mw (Z.max ml (cl + 1)) 0 (cl + 1)).
      destruct (BacktestEngine.consecutive_scan rest _ _ _ _) as [w l].
      destruct IH as (H1 & H2 & H3 & H4); [lia | lia |].
      cbn [length]. repeat split; try lia; assumption.
Qed.

End Streaks.

(** X15. The streak counters of _calculate_consecutive_trades are bounded
    by the counts they scan: the longest winning streak is at most the
    number of winners and at least 1 when there is a winner, and likewise
    for losing streaks and losers; both are 0 on an empty log. *)
Theorem consecutive_streaks_bounded (e : BacktestEngine.t) :
  let trades := RiskManager.closed_trades (BacktestEngine.risk_manager e) in
  let winners := List.filter Trade.was_winner trades in
  let losers := List.filter (fun tr => negb (Trade.was_winner tr)) trades in
  let '(w, l) := BacktestEngine._calculate_consecutive_trades e in
  0 <= w <= Z.of_nat (length winners)
  /\ 0 <= l <= Z.of_nat (length losers)
  /\ (w = 0 <-> winners = [])
  /\ (l = 0 <-> losers = []).
Proof.
  unfold BacktestEngine._calculate_consecutive_trades.
  destruct (RiskManager.closed_trades (BacktestEngine.risk_manager e)) as [|tr rest] eqn:E.
  - simpl. repeat split; lia.
  - pose proof (consecutive_scan_bounds (tr :: rest) 0 0 0 0) as H.
    destruct (BacktestEngine.consecutive_scan (tr :: rest) 0 0 0 0) as [w l].
    destruct H as (H1 & H2 & H3 & H4); [lia | lia |].
    cbv zeta. repeat split; try lia.
    + intros Hw. destruct (List.filter Trade.was_winner (tr :: rest)) eqn:F;
        [reflexivity|]. assert (1 <= w) by (apply H3; congruence). lia.
    + intros Hnil. rewrite Hnil in H1. simpl in H1. lia.
    + intros Hl.
      destruct (List.filter (fun tr0 => negb (Trade.was_winner tr0)) (tr :: rest)) eqn:F;
        [reflexivity|]. assert (1 <= l) by (apply H4; congruence). lia.
    + intros Hnil. rewrite Hnil in H2. simpl in H2. lia.
Qed.

Section Drawdown.

Lemma expanding_max_from_dominates (l : list Q) (m : Q) :
  Forall (fun '(e, mx) => (e <= mx)%Q /\ (m <= mx)%Q)
    (List.combine l (expanding_max_from m l)).
Proof.
  revert m. induction l as [|x l IH]; intros m; simpl; [constructor|].
  constructor.
  - split; [apply Q.le_max_r | apply Q.le_max_l].
  - eapply Forall_impl; [apply IH|]. intros [e mx] [H1 H2]. split; [exact H1|].
    eapply Qle_trans; [apply Q.le_max_l | exact H2].
Qed.

Lemma expanding_max_dominates (l : list Q) :
  Forall (fun '(e, mx) => (e <= mx)%Q) (List.combine l (expanding_max l)).
Proof.
  destruct l as [|x l]; simpl; [constructor|]. constructor; [apply Qle_refl|].
  eapply Forall_impl; [apply expanding_max_from_dominates|].
  intros [e mx] [H _]. exact H.
Qed.

Lemma drawdown_point_nonpositive (e mx : Q) :
  (0 < e)%Q -> (e <= mx)%Q ->
  exists q, drawdown_point e mx = VNum q /\ (q <= 0)%Q.
Proof.
  intros He Hle. unfold drawdown_point, np_div_pct, np_div.
  destruct (Qeq_bool mx 0) eqn:E.
  - apply Qeq_bool_iff in E. lra.
  - eexists. split; [reflexivity|].
    assert (H : ((e - mx) / mx <= 0)%Q) by (apply Qle_shift_div_r; lra). lra.
Qed.

Lemma series_min_nonpositive (l : list value) (acc : value) :
  Forall (fun v => exists q, v = VNum q /\ (q <= 0)%Q) l ->
  (acc = VNaN /\ l <> []) \/ (exists q, acc = VNum q /\ (q <= 0)%Q) ->
  exists q, fold_left value_min l acc = VNum q /\ (q <= 0)%Q.
Proof.
  revert acc. induction l as [|v l IH]; intros acc Hl Hacc; simpl.
  - destruct Hacc as [[_ H] | H]; [congruence | exact H].
  - apply Forall_cons in Hl as [(q & -> & Hq) Hl].
    apply IH; [exact Hl|]. right.
    destruct Hacc as [[-> _] | (a & -> & Ha)]; simpl.
    + eauto.
    + exists (Qmin a q). split; [reflexivity|].
      eapply Qle_trans; [apply Q.le_min_l | exact Ha].
Qed.

End Drawdown.

(** X16. On a non-empty equity curve whose points are all positive the
    maximum drawdown is a number and is never positive. *)
Theorem max_drawdown_is_nonpositive (equity : list Q) :
  equity <> [] ->
  Forall (fun e => (0 < e)%Q) equity ->
  exists q, max_drawdown equity = VNum q /\ (q <= 0)%Q.
Proof.
  intros Hne Hpos. unfold max_drawdown, series_min.
  apply series_min_nonpositive.
  - apply Forall_forall. intros v Hv. apply list_elem_of_In, in_map_iff in Hv.
    destruct Hv as ([e mx] & <- & Hin).
    pose proof (expanding_max_dominates equity) as Hdom.
    rewrite Forall_forall in Hdom. specialize (Hdom (e, mx)).
    apply drawdown_point_nonpositive.
    + rewrite Forall_forall in Hpos. apply Hpos, list_elem_of_In.
      apply (in_combine_l _ _ _ _ Hin).
    + apply Hdom, list_elem_of_In, Hin.
  - left. split; [reflexivity|].
    destruct equity as [|x l]; [congruence|]. simpl. discriminate.
Qed.

Lemma max_drawdown_is_nonpositive_witness :
  exists q, max_drawdown [10000; 9900; 10100; 9800]%Q = VNum q /\ (q <= 0)%Q.
Proof.
  apply (max_drawdown_is_nonpositive [10000; 9900; 10100; 9800]%Q).
  - discriminate.
  - repeat constructor.
Defined.

(** * Finishing a run *)

Section Finishing.
Variable cfg : Config.

(** With at least one closed trade every key the printing reads is in the
    report. *)
Lemma print_results_with_trades (e : BacktestEngine.t) (df : DataFrame) :
  RiskManager.closed_trades (BacktestEngine.risk_manager e) <> [] ->
  BacktestEngine._print_results (BacktestEngine._generate_results e df) = Ok tt.
Proof.
  intros Hne.
  unfold BacktestEngine._print_results, BacktestEngine._generate_results,
    RiskManager.get_statistics.
  destruct (BacktestEngine._calculate_consecutive_trades e) as [w l].
  destruct (RiskManager.closed_trades (BacktestEngine.risk_manager e)) as [|tr0 l0] eqn:E;
    [congruence|].
  rewrite <- E. clear E Hne tr0 l0.
  unfold BacktestEngine.printed_keys, BacktestEngine.read_keys.
  repeat first [rewrite lookup_insert_eq | rewrite lookup_insert_ne by done].
  reflexivity.
Qed.

End Finishing.

(** The closing loop at the end of data on a state of a simulation: it
    raises nothing and empties the open list; a position that was still open
    is closed at the given price and time with reason "END". *)
Lemma close_remaining_end
  (cfg : Config) (e : BacktestEngine.t) (price : Q) (t : datetime) :
  engine_inv e ->
  exists rm,
    BacktestEngine.close_remaining cfg (BacktestEngine.risk_manager e)
      (RiskManager.open_positions (BacktestEngine.risk_manager e)) price t
    = (rm, Ok tt)
    /\ RiskManager.open_positions rm = []
    /\ match RiskManager.open_positions (BacktestEngine.risk_manager e) with
       | [] => rm = BacktestEngine.risk_manager e
       | r :: _ =>
           exists p,
             RiskManager.objects (BacktestEngine.risk_manager e) !! r = Some p
             /\ RiskManager.closed_trades rm
                = RiskManager.closed_trades (BacktestEngine.risk_manager e)
                  ++ [RiskManager.make_trade cfg p price t "END"]
             /\ RiskManager.current_equity rm
                = (RiskManager.current_equity (BacktestEngine.risk_manager e)
                   + Trade.net_pnl (RiskManager.make_trade cfg p price t "END"))%Q
       end.
Proof.
  intros Hinv.
  destruct (proj1 Hinv) as [Hnone | (r & p & Hopen & Hobj & Hsym)].
  - rewrite Hnone. simpl. exists (BacktestEngine.risk_manager e).
    split; [reflexivity|]. split; [exact Hnone | reflexivity].
  - rewrite Hopen. simpl.
    assert (Hin : In r (RiskManager.open_positions (BacktestEngine.risk_manager e))).
    { rewrite Hopen. by left. }
    destruct (close_position_listed cfg _ r p price t "END" Hobj Hin)
      as (rm' & Hc & Hl & Heq & _ & _ & Hrem).
    rewrite Hc. exists rm'. split; [reflexivity|].
    rewrite Hopen in Hrem. cbn [RiskManager.list_remove] in Hrem.
    rewrite same_position_refl in Hrem. injection Hrem as Hempty.
    split; [by symmetry|].
    exists p. split; [exact Hobj|]. split; [exact Hl | exact Heq].
Qed.

(** X17. A run from a fresh engine on a frame with a unique index leaves no
    position open, whatever its outcome.  If the bar loop ends with a
    position still open, the run closes it at the close of the last bar of
    the filtered frame: exactly one trade is appended to the log of the bar
    loop, built from that position with the last close as exit price, the
    last timestamp as exit time and reason "END", and the equity moves by its
    net P&L; if no position is open, the log and the equity are those of the
    bar loop. *)
Theorem run_leaves_nothing_open
  (cfg : Config) (sym : string) (capital : option Q)
  (df : DataFrame) (start_date end_date : option datetime) :
  unique_index df ->
  let e0 := BacktestEngine.init cfg sym capital in
  let e' := fst (BacktestEngine.run cfg e0 df start_date end_date) in
  RiskManager.open_positions (BacktestEngine.risk_manager e') = []
  /\ match BacktestEngine.filter_dates df start_date end_date with
     | [] => e' = e0
     | b :: rest =>
         let rows := b :: rest in
         let last_bar := List.last rest b in
         let rm1 :=
           BacktestEngine.risk_manager (fst (BacktestEngine.process_bars cfg e0 rows rows)) in
         match RiskManager.open_positions rm1 with
         | [] =>
             RiskManager.closed_trades (BacktestEngine.risk_manager e')
             = RiskManager.closed_trades rm1
             /\ RiskManager.current_equity (BacktestEngine.risk_manager e')
                = RiskManager.current_equity rm1
         | r :: _ =>
             exists p,
               RiskManager.objects rm1 !! r = Some p
               /\ RiskManager.closed_trades (BacktestEngine.risk_manager e')
                  = RiskManager.closed_trades rm1
                    ++ [RiskManager.make_trade cfg p (Bar.close last_bar)
                          (Bar.timestamp last_bar) "END"]
               /\ RiskManager.current_equity (BacktestEngine.risk_manager e')
                  = (RiskManager.current_equity rm1
                     + Trade.net_pnl
                         (RiskManager.make_trade cfg p (Bar.close last_bar)
                            (Bar.timestamp last_bar) "END"))%Q
         end
     end.
Proof.
  intros Hu e0 e'. subst e0 e'. unfold BacktestEngine.run.
  pose proof (filter_dates_unique_index df start_date end_date Hu) as Hu'.
  destruct (BacktestEngine.filter_dates df start_date end_date) as [|b rest];
    [split; reflexivity|].
  pose proof (init_inv cfg sym capital) as Hinv.
  destruct (process_bars_run cfg (b :: rest) _ (b :: rest) Hinv) as [Hrtc Hok].
  destruct (Hok Hu') as (Hres & _).
  destruct (BacktestEngine.process_bars cfg _ (b :: rest) (b :: rest)) as [e1 res].
  simpl in Hres, Hrtc. subst res.
  assert (Hinv1 : engine_inv e1) by (eapply rtc_step_inv; eauto).
  destruct (close_remaining_end cfg e1 (Bar.close (List.last rest b))
              (Bar.timestamp (List.last rest b)) Hinv1) as (rm & -> & Hempty & Hend).
  cbv zeta. cbn [fst].
  assert (Hfst : forall (x : BacktestEngine.t * result (gmap string value)),
             x = match BacktestEngine._print_results
                         (BacktestEngine._generate_results
                            (BacktestEngine.with_risk_manager e1 rm) (b :: rest)) with
                 | Raise x0 => (BacktestEngine.with_risk_manager e1 rm, Raise x0)
                 | Ok _ =>
                     (BacktestEngine.with_risk_manager e1 rm,
                      Ok (BacktestEngine._generate_results
                            (BacktestEngine.with_risk_manager e1 rm) (b :: rest)))
                 end ->
             BacktestEngine.risk_manager (fst x) = rm).
  { intros x ->. destruct (BacktestEngine._print_results _); reflexivity. }
  rewrite (Hfst _ eq_refl).
  split; [exact Hempty|].
  destruct (RiskManager.open_positions (BacktestEngine.risk_manager e1)) as [|r l].
  - subst rm. split; reflexivity.
  - exact Hend.
Qed.

Lemma run_leaves_nothing_open_witness :
  RiskManager.open_positions
    (BacktestEngine.risk_manager
       (fst (BacktestEngine.run config (BacktestEngine.init config "EURUSD" None)
               [asian_bar; breakout_bar] None None))) = []
  /\ exists p,
       RiskManager.objects
         (BacktestEngine.risk_manager
            (fst (BacktestEngine.process_bars config
                    (BacktestEngine.init config "EURUSD" None)
                    [asian_bar; breakout_bar] [asian_bar; breakout_bar]))) !! 0%nat
       = Some p
       /\ RiskManager.closed_trades
            (BacktestEngine.risk_manager
               (fst (BacktestEngine.run config (BacktestEngine.init config "EURUSD" None)
                       [asian_bar; breakout_bar] None None)))
          = RiskManager.closed_trades
              (BacktestEngine.risk_manager
                 (fst (BacktestEngine.process_bars config
                         (BacktestEngine.init config "EURUSD" None)
                         [asian_bar; breakout_bar] [asian_bar; breakout_bar])))
            ++ [RiskManager.make_trade config p (Bar.close breakout_bar)
                  (Bar.timestamp breakout_bar) "END"]
       /\ RiskManager.current_equity
            (BacktestEngine.risk_manager
               (fst (BacktestEngine.run config (BacktestEngine.init config "EURUSD" None)
                       [asian_bar; breakout_bar] None None)))
          = (RiskManager.current_equity
               (BacktestEngine.risk_manager
                  (fst (BacktestEngine.process_bars config
                          (BacktestEngine.init config "EURUSD" None)
                          [asian_bar; breakout_bar] [asian_bar; breakout_bar])))
             + Trade.net_pnl
                 (RiskManager.make_trade config p (Bar.close breakout_bar)
                    (Bar.timestamp breakout_bar) "END"))%Q.
Proof.
  apply (run_leaves_nothing_open config "EURUSD" None [asian_bar; breakout_bar]
           None None).
  unfold unique_index. apply (bool_decide_unpack _). vm_compute. exact I.
Defined.

(** X18. A run from a fresh engine on a frame with a unique index that
    closes at least one trade completes: it returns the report computed by
    _generate_results for the final state and the filtered frame, and every
    key _print_results reads is present in it. *)
Theorem run_with_trades_returns_report
  (cfg : Config) (sym : string) (capital : option Q)
  (df : DataFrame) (start_date end_date : option datetime) :
  unique_index df ->
  let e' := fst (BacktestEngine.run cfg (BacktestEngine.init cfg sym capital)
                   df start_date end_date) in
  RiskManager.closed_trades (BacktestEngine.risk_manager e') <> [] ->
  snd (BacktestEngine.run cfg (BacktestEngine.init cfg sym capital) df start_date end_date)
  = Ok (BacktestEngine._generate_results e'
          (BacktestEngine.filter_dates df start_date end_date))
  /\ forall k, In k BacktestEngine.printed_keys ->
               is_Some (BacktestEngine._generate_results e'
                          (BacktestEngine.filter_dates df start_date end_date) !! k).
Proof.
  intros Hu e'. subst e'. unfold BacktestEngine.run.
  pose proof (filter_dates_unique_index df start_date end_date Hu) as Hu'.
  destruct (BacktestEngine.filter_dates df start_date end_date) as [|b rest];
    [simpl; congruence|].
  pose proof (init_inv cfg sym capital) as Hinv.
  destruct (process_bars_run cfg (b :: rest) _ (b :: rest) Hinv) as [Hrtc Hok].
  destruct (Hok Hu') as (Hres & _).
  destruct (BacktestEngine.process_bars cfg _ (b :: rest) (b :: rest)) as [e1 res].
  simpl in Hres, Hrtc. subst res.
  assert (Hinv1 : engine_inv e1) by (eapply rtc_step_inv; eauto).
  destruct (close_remaining_run cfg e1 (Bar.close (List.last rest b))
              (Bar.timestamp (List.last rest b)) Hinv1) as (rm & -> & _ & _).
  set (e2 := BacktestEngine.with_risk_manager e1 rm).
  assert (Hkeys : RiskManager.closed_trades (BacktestEngine.risk_manager e2) <> [] ->
                  forall k, In k BacktestEngine.printed_keys ->
                            is_Some (BacktestEngine._generate_results e2 (b :: rest) !! k)).
  { intros Hne k Hk.
    pose proof (print_results_with_trades e2 (b :: rest) Hne) as Hp.
    unfold BacktestEngine._print_results in Hp.
    revert Hp. generalize (BacktestEngine._generate_results e2 (b :: rest)).
    intros results. induction BacktestEngine.printed_keys as [|k0 ks IH];
      [destruct Hk|].
    simpl. destruct (results !! k0) as [v|] eqn:Ek0; [|discriminate].
    intros Hp. destruct Hk as [<- | Hk]; [rewrite Ek0; eauto | exact (IH Hk Hp)]. }
  destruct (BacktestEngine._print_results _) as [u|x] eqn:Hp; simpl; intros Hne.
  - split; [reflexivity | exact (Hkeys Hne)].
  - rewrite (print_results_with_trades e2 (b :: rest) Hne) in Hp. discriminate.
Qed.

Lemma run_with_trades_returns_report_witness :
  exists results,
    snd (BacktestEngine.run config (BacktestEngine.init config "EURUSD" None)
           sample_day None None) = Ok results
    /\ is_Some (results !! "winners").
Proof.
  eexists. 
  pose proof (run_with_trades_returns_report config "EURUSD" None sample_day None None
                sample_day_unique) as H.
  cbv zeta in H. destruct H as [Hrun Hkeys].
  - vm_compute. discriminate.
  - split; [exact Hrun|]. apply Hkeys. vm_compute. tauto.
Defined.

(** * The trade log of a simulation *)

Section TradeLog.
Variable cfg : Config.

Lemma exit_decision_cases
  (p : Position.t) (t : datetime) (bar : Bar.t) (price : Q) (reason : string) :
  BacktestEngine.exit_decision cfg p t bar = Some (price, reason) ->
  (reason = "SL" /\ price = Position.stop_loss p /\ stop_touched p bar)
  \/ (reason = "TP" /\ price = Position.take_profit p
      /\ ~ stop_touched p bar /\ target_touched p bar)
  \/ (reason = "TIME" /\ price = Bar.close bar
      /\ ~ stop_touched p bar /\ ~ target_touched p bar
      /\ LondonBreakoutStrategy.should_exit_time_based cfg t = true).
Proof.
  unfold BacktestEngine.exit_decision, BacktestEngine.check_stop_and_target,
    stop_touched, target_touched.
  destruct (Position.side p).
  - destruct (Qle_bool (Bar.low bar) _) eqn:Hs.
    + intros [= <- <-]. left. apply Qle_bool_iff in Hs. auto.
    + apply Qle_bool_false in Hs.
      destruct (Qle_bool (Position.take_profit p) _) eqn:Ht.
      * intros [= <- <-]. right. left. apply Qle_bool_iff in Ht.
        repeat split; auto. intros H. apply (Qlt_not_le _ _ Hs H).
      * apply Qle_bool_false in Ht.
        destruct (LondonBreakoutStrategy.should_exit_time_based cfg t); [|discriminate].
        intros [= <- <-]. right. right.
        repeat split; auto; intros H;
          [apply (Qlt_not_le _ _ Hs H) | apply (Qlt_not_le _ _ Ht H)].
  - destruct (Qle_bool (Position.stop_loss p) _) eqn:Hs.
    + intros [= <- <-]. left. apply Qle_bool_iff in Hs. auto.
    + apply Qle_bool_false in Hs.
      destruct (Qle_bool (Bar.low bar) _) eqn:Ht.
      * intros [= <- <-]. right. left. apply Qle_bool_iff in Ht.
        repeat split; auto. intros H. apply (Qlt_not_le _ _ Hs H).
      * apply Qle_bool_false in Ht.
        destruct (LondonBreakoutStrategy.should_exit_time_based cfg t); [|discriminate].
        intros [= <- <-]. right. right.
        repeat split; auto; intros H;
          [apply (Qlt_not_le _ _ Hs H) | apply (Qlt_not_le _ _ Ht H)].
Qed.

Lemma make_trade_well_formed
  (p : Position.t) (price : Q) (t : datetime) (reason : string) :
  (reason = "SL" /\ price = Position.stop_loss p)
  \/ (reason = "TP" /\ price = Position.take_profit p)
  \/ reason = "TIME" \/ reason = "END" ->
  trade_well_formed cfg (Position.symbol p) (RiskManager.make_trade cfg p price t reason).
Proof.
  intros Hreason. unfold trade_well_formed. simpl.
  split; [reflexivity|]. split; [|repeat split].
  destruct Hreason as [[-> ->] | [[-> ->] | [-> | ->]]]; auto.
Qed.

Lemma close_listed_log
  (sym : string) (e : BacktestEngine.t) (r : ref) (price : Q) (t : datetime)
  (reason : string) (rm' : RiskManager.t) (res : result Trade.t) :
  log_inv cfg sym e ->
  In r (RiskManager.open_positions (BacktestEngine.risk_manager e)) ->
  (forall p, RiskManager.objects (BacktestEngine.risk_manager e) !! r = Some p ->
             (reason = "SL" /\ price = Position.stop_loss p)
             \/ (reason = "TP" /\ price = Position.take_profit p)
             \/ reason = "TIME" \/ reason = "END") ->
  RiskManager.close_position cfg (BacktestEngine.risk_manager e) r price t reason
  = (rm', res) ->
  Forall (trade_well_formed cfg sym) (RiskManager.closed_trades rm').
Proof.
  intros (Hsym & [Hone _] & Hlog) Hin Hreason Hclose.
  destruct Hone as [Hnone | (r0 & p & Hopen & Hobj & Hps)].
  { rewrite Hnone in Hin. destruct Hin. }
  assert (r = r0) as ->.
  { rewrite Hopen in Hin. destruct Hin as [<- | []]. reflexivity. }
  destruct (close_position_listed cfg _ r0 p price t reason Hobj Hin)
    as (rm1 & Hc & Hl & _).
  rewrite Hc in Hclose. injection Hclose as <- _.
  rewrite Hl. apply Forall_app. split; [exact Hlog|].
  constructor; [|constructor].
  rewrite <- Hsym, <- Hps. apply make_trade_well_formed, Hreason, Hobj.
Qed.

Lemma step_log_inv (sym : string) (e e' : BacktestEngine.t) :
  log_inv cfg sym e -> step cfg e e' -> log_inv cfg sym e'.
Proof.
  intros Hinv Hstep.
  assert (Hengine : engine_inv e') by (exact (step_inv cfg e e' (proj1 (proj2 Hinv)) Hstep)).
  destruct Hinv as (Hsym & Hei & Hlog).
  enough (H : BacktestEngine.symbol e' = sym
              /\ Forall (trade_well_formed cfg sym)
                   (RiskManager.closed_trades (BacktestEngine.risk_manager e')))
    by (destruct H; split; [|split]; assumption).
  destruct Hstep as [e t | e r t bar e' res Hin Hp
                    | e df t e' res Hg | e r price t rm' res Hin Hc].
  - split; assumption.
  - unfold BacktestEngine.process_position in Hp.
    destruct (RiskManager.objects _ !! r) as [p|] eqn:Hobj;
      [|injection Hp as <- _; split; assumption].
    destruct (BacktestEngine.exit_decision cfg p t bar) as [[price reason]|] eqn:Hdec.
    + destruct (RiskManager.close_position cfg _ r price t reason) as [rm' r'] eqn:Hc.
      assert (H : Forall (trade_well_formed cfg sym) (RiskManager.closed_trades rm')).
      { apply (close_listed_log sym e r price t reason rm' r');
          [split; [|split]; assumption | exact Hin | | exact Hc].
        intros p' Hp'. rewrite Hobj in Hp'. injection Hp' as <-.
        destruct (exit_decision_cases p t bar price reason Hdec)
          as [(-> & -> & _) | [(-> & -> & _) | (-> & _)]]; auto. }
      destruct r'; injection Hp as <- _; split; assumption.
    + pose proof (update_trailing_stop_at_frame cfg (BacktestEngine.risk_manager e) r
                    (Bar.close bar)) as (_ & _ & Hl & _).
      destruct (RiskManager.update_trailing_stop_at cfg _ r _) as [rm' b].
      injection Hp as <- _. simpl in *. rewrite Hl. split; assumption.
  - unfold BacktestEngine.generate_new_signals in Hg.
    destruct (BacktestEngine.symbol_is_open e); [injection Hg as <- _; split; assumption|].
    destruct (LondonBreakoutStrategy.generate_signal cfg _ df t) as [s [[signal|]|x]];
      injection Hg as <- _; try (split; assumption).
    unfold BacktestEngine._execute_signal.
    match goal with
    | |- context [RiskManager.open_position cfg ?rm ?a ?b ?c ?d ?f ?g ?h] =>
        pose proof (open_position_frame cfg rm a b c d f g h) as (_ & _ & Hl);
        destruct (RiskManager.open_position cfg rm a b c d f g h) as [rm' o]
    end.
    simpl in *. rewrite Hl. split; assumption.
  - split; [exact Hsym|].
    apply (close_listed_log sym e r price t "END" rm' res);
      [split; [|split]; assumption | exact Hin | auto | exact Hc].
Qed.

End TradeLog.

(** X19. Every trade in the log of a simulation is one the simulator made:
    it carries the tracked symbol; its exit reason is "SL", "TP", "TIME" or
    "END" (never "MANUAL"); an "SL" trade exits exactly at the stop-loss the
    trade records and a "TP" trade exactly at its take-profit; and its
    pnl_pips, pnl_amount and commission are those computed from its prices,
    side and size. *)
Theorem logged_trades_are_well_formed
  (cfg : Config) (sym : string) (capital : option Q) (e : BacktestEngine.t) :
  reachable cfg sym capital e ->
  Forall (trade_well_formed cfg sym)
    (RiskManager.closed_trades (BacktestEngine.risk_manager e)).
Proof.
  intros Hreach.
  enough (H : log_inv cfg sym e) by exact (proj2 (proj2 H)).
  revert e Hreach. unfold reachable. apply rtc_ind_r.
  - split; [reflexivity|]. split; [apply init_inv | constructor].
  - intros y z _ Hstep Hy. exact (step_log_inv cfg sym y z Hy Hstep).
Qed.

Lemma logged_trades_are_well_formed_witness :
  Forall (trade_well_formed config "EURUSD")
    (RiskManager.closed_trades
       (BacktestEngine.risk_manager
          (fst (BacktestEngine.run config fresh_engine sample_day None None))))
  /\ length (RiskManager.closed_trades
               (BacktestEngine.risk_manager
                  (fst (BacktestEngine.run config fresh_engine sample_day None None))))
     = 1%nat.
Proof.
  split.
  - apply (logged_trades_are_well_formed config "EURUSD" None _
             (run_reachable config "EURUSD" None sample_day None None)).
  - vm_compute. reflexivity.
Defined.

(** * The date window of a run *)

(** X20. filter_dates keeps exactly the bars of the frame whose timestamp
    lies between the two bounds that are given (both inclusive).  Since an
    end date written as a date is the midnight that starts it, of the bars
    of the end date itself only one stamped exactly midnight is kept: the
    rest of the end day is not simulated. *)
Theorem filter_dates_window
  (df : DataFrame) (start_date end_date : option datetime) (b : Bar.t) :
  (In b (BacktestEngine.filter_dates df start_date end_date)
   <-> In b df
       /\ (forall d, start_date = Some d -> d <= Bar.timestamp b)
       /\ (forall d, end_date = Some d -> Bar.timestamp b <= d))
  /\ forall day,
       end_date = Some (datetime_combine day 0) ->
       In b (BacktestEngine.filter_dates df start_date end_date) ->
       date_of (Bar.timestamp b) = day ->
       time_of (Bar.timestamp b) = 0.
Proof.
  assert (Hiff : In b (BacktestEngine.filter_dates df start_date end_date)
                 <-> In b df
                     /\ (forall d, start_date = Some d -> d <= Bar.timestamp b)
                     /\ (forall d, end_date = Some d -> Bar.timestamp b <= d)).
  { unfold BacktestEngine.filter_dates.
    destruct start_date as [s|], end_date as [en|]; rewrite ?filter_In, ?Z.leb_le.
    - split.
      + intros [[H1 H2] H3]. repeat split; [exact H1 | intros d [= <-]; exact H2
                                            | intros d [= <-]; exact H3].
      + intros (H1 & H2 & H3). auto.
    - split.
      + intros [H1 H2]. repeat split; [exact H1 | intros d [= <-]; exact H2
                                       | intros d [=]].
      + intros (H1 & H2 & _). auto.
    - split.
      + intros [H1 H3]. repeat split; [exact H1 | intros d [=]
                                       | intros d [= <-]; exact H3].
      + intros (H1 & _ & H3). auto.
    - split; [intros H; repeat split; [exact H | intros d [=] | intros d [=]] | tauto]. }
  split; [exact Hiff|].
  intros day Hend Hin Hdate.
  apply Hiff in Hin as (_ & _ & Hle). specialize (Hle _ Hend).
  unfold datetime_combine, date_of, time_of in *.
  assert (Hday : usec_per_day <> 0) by (vm_compute; discriminate).
  pose proof (Z.div_mod (Bar.timestamp b) usec_per_day Hday) as Hdm.
  pose proof (Z.mod_pos_bound (Bar.timestamp b) usec_per_day
                ltac:(vm_compute; reflexivity)) as Hmod.
  rewrite Hdate in Hdm. lia.
Qed.

Lemma filter_dates_window_witness :
  BacktestEngine.filter_dates sample_day None (Some (datetime_combine 0 0)) = [].
Proof.
  destruct (BacktestEngine.filter_dates sample_day None (Some (datetime_combine 0 0)))
    as [|b l] eqn:E; [reflexivity|].
  exfalso.
  assert (Hin : In b (BacktestEngine.filter_dates sample_day None
                        (Some (datetime_combine 0 0)))) by (rewrite E; by left).
  pose proof (proj2 (filter_dates_window sample_day None (Some (datetime_combine 0 0)) b)
                0 eq_refl Hin) as Hmid.
  apply (proj1 (filter_dates_window sample_day None (Some (datetime_combine 0 0)) b))
    in Hin as (Hdf & _).
  destruct Hdf as [<- | [<- | [<- | []]]]; specialize (Hmid eq_refl); vm_compute in Hmid;
    discriminate.
Defined.

(** * Bars that hit neither level *)

Section QuietBars.
Variable cfg : Config.

Lemma no_level_touched (p : Position.t) (bar : Bar.t) :
  ~ stop_touched p bar -> ~ target_touched p bar ->
  BacktestEngine.check_stop_and_target p bar = None.
Proof.
  unfold stop_touched, target_touched, BacktestEngine.check_stop_and_target.
  destruct (Position.side p); intros Hs Ht;
    apply Qnot_le_lt, Qle_bool_false in Hs;
    apply Qnot_le_lt, Qle_bool_false in Ht;
    rewrite Hs, Ht; reflexivity.
Qed.

End QuietBars.

(** X21. A bar that reaches neither the stop-loss nor the take-profit of a
    position, at a time before the time exit, closes nothing: the trade
    log, the equity and the open list are unchanged; the Position object is
    the one update_trailing_stop leaves for the bar's close, so its stop is
    not worse than before, and no other object is touched. *)
Theorem quiet_bar_keeps_position
  (cfg : Config) (e : BacktestEngine.t) (r : ref) (p : Position.t)
  (t : datetime) (bar : Bar.t) :
  RiskManager.objects (BacktestEngine.risk_manager e) !! r = Some p ->
  ~ stop_touched p bar ->
  ~ target_touched p bar ->
  LondonBreakoutStrategy.should_exit_time_based cfg t = false ->
  exists rm',
    BacktestEngine.process_position cfg e r t bar
    = (BacktestEngine.with_risk_manager e rm', Ok tt)
    /\ RiskManager.closed_trades rm'
       = RiskManager.closed_trades (BacktestEngine.risk_manager e)
    /\ RiskManager.current_equity rm'
       = RiskManager.current_equity (BacktestEngine.risk_manager e)
    /\ RiskManager.open_positions rm'
       = RiskManager.open_positions (BacktestEngine.risk_manager e)
    /\ RiskManager.objects rm' !! r
       = Some (fst (RiskManager.update_trailing_stop cfg p (Bar.close bar)))
    /\ not_looser (Position.side p)
         (Position.stop_loss (fst (RiskManager.update_trailing_stop cfg p (Bar.close bar))))
         (Position.stop_loss p)
    /\ forall r', r' <> r ->
         RiskManager.objects rm' !! r'
         = RiskManager.objects (BacktestEngine.risk_manager e) !! r'.
Proof.
  intros Hobj Hs Ht Htime.
  unfold BacktestEngine.process_position, BacktestEngine.exit_decision.
  rewrite Hobj, (no_level_touched p bar Hs Ht), Htime.
  unfold RiskManager.update_trailing_stop_at. rewrite Hobj.
  pose proof (update_trailing_stop_not_looser cfg p (Bar.close bar)) as Hnl.
  destruct (RiskManager.update_trailing_stop cfg p (Bar.close bar)) as [p' b].
  eexists. split; [reflexivity|]. simpl.
  repeat split; try assumption.
  - apply list_lookup_insert_eq. eapply lookup_lt_Some; eauto.
  - intros r' Hne. apply list_lookup_insert_ne. congruence.
Qed.

Lemma quiet_bar_keeps_position_witness :
  exists rm',
    BacktestEngine.process_position config engine_with_long 0%nat (mk_time 9 0)
      {| Bar.timestamp := mk_time 9 0; Bar.open := 11010 # 10000;
         Bar.high := 11080 # 10000; Bar.low := 11000 # 10000;
         Bar.close := 11070 # 10000 |}
    = (BacktestEngine.with_risk_manager engine_with_long rm', Ok tt)
    /\ RiskManager.closed_trades rm' = []
    /\ RiskManager.open_positions rm' = [0%nat]
    /\ exists p',
         RiskManager.objects rm' !! 0%nat = Some p'
         /\ (Position.stop_loss p' == 11060 # 10000)%Q.
Proof.
  destruct (quiet_bar_keeps_position config engine_with_long 0%nat long_position
              (mk_time 9 0)
              {| Bar.timestamp := mk_time 9 0; Bar.open := 11010 # 10000;
                 Bar.high := 11080 # 10000; Bar.low := 11000 # 10000;
                 Bar.close := 11070 # 10000 |})
    as (rm' & Hp & Hl & _ & Ho & Hobj & _).
  - reflexivity.
  - vm_compute. intros H. apply H. reflexivity.
  - vm_compute. intros H. apply H. reflexivity.
  - vm_compute. reflexivity.
  - exists rm'. split; [exact Hp|]. split; [exact Hl|]. split; [exact Ho|].
    eexists. split; [exact Hobj|]. vm_compute. reflexivity.
Defined.

(** X23. update_trailing_stop is idempotent in the price: a second call at
    the same price, right after the first, changes nothing and returns
    false. *)
Theorem trailing_stop_idempotent (cfg : Config) (p : Position.t) (price : Q) :
  let p1 := fst (RiskManager.update_trailing_stop cfg p price) in
  RiskManager.update_trailing_stop cfg p1 price = (p1, false).
Proof.
  cbv zeta.
  destruct (update_trailing_stop_cases cfg p price)
    as [H | (s & H & _ & _ & _ & Hs)]; rewrite H; simpl; [exact H|].
  destruct (update_trailing_stop_cases cfg (Position.set_stop_loss p s) price)
    as [H2 | (s2 & _ & _ & _ & Htight & Hs2)]; [exact H2|].
  exfalso. simpl in Htight, Hs2. rewrite <- Hs in Hs2. subst s2.
  unfold tighter in Htight. destruct (Position.side p); apply (Qlt_irrefl _ Htight).
Qed.

(** * The trend filter *)

(** X24. With TRADE_WITH_TREND_ONLY set, a LONG signal is never returned
    while calculate_trend_direction is -1 and a SHORT signal never while it
    is 1; and the direction is 0, so that nothing is filtered, when the trend
    filter is switched off or fewer than TREND_EMA_PERIOD bars lie at or
    before the timestamp. *)
Theorem trend_filter_blocks_countertrend
  (cfg : Config) (s s' : LondonBreakoutStrategy.t) (df : DataFrame) (t : datetime)
  (signal : TradeSignal.t) :
  (TRADE_WITH_TREND_ONLY cfg = true ->
   LondonBreakoutStrategy.generate_signal cfg s df t = (s', Ok (Some signal)) ->
   match TradeSignal.signal_type signal with
   | SignalType.LONG => LondonBreakoutStrategy.calculate_trend_direction cfg df t <> -1
   | SignalType.SHORT => LondonBreakoutStrategy.calculate_trend_direction cfg df t <> 1
   | SignalType.NONE => False
   end)
  /\ (USE_TREND_FILTER cfg = false
      \/ Z.of_nat (length (List.filter (fun b => Bar.timestamp b <=? t) df))
         < TREND_EMA_PERIOD cfg ->
      LondonBreakoutStrategy.calculate_trend_direction cfg df t = 0).
Proof.
  split.
  - intros Htrend. unfold LondonBreakoutStrategy.generate_signal.
    destruct (bool_decide _); [discriminate|].
    destruct (negb _); [discriminate|].
    match goal with
    | |- context [LondonBreakoutStrategy.current_range ?s1] =>
        destruct (LondonBreakoutStrategy.current_range s1) as [r|]; [|discriminate]
    end.
    destruct (df_loc df t) as [|bar|]; try discriminate.
    rewrite Htrend.
    destruct (LondonBreakoutStrategy.check_breakout cfg bar r); try discriminate.
    + destruct (Z.eqb_spec (LondonBreakoutStrategy.calculate_trend_direction cfg df t) (-1))
        as [Heq | Hne]; [discriminate|].
      simpl. destruct (Qltb _ _); [discriminate|]. intros [= _ <-]. exact Hne.
    + destruct (Z.eqb_spec (LondonBreakoutStrategy.calculate_trend_direction cfg df t) 1)
        as [Heq | Hne]; [discriminate|].
      simpl. destruct (Qltb _ _); [discriminate|]. intros [= _ <-]. exact Hne.
  - unfold LondonBreakoutStrategy.calculate_trend_direction.
    intros [-> | Hshort]; [reflexivity|].
    destruct (negb _); [reflexivity|].
    apply Z.ltb_lt in Hshort. rewrite Hshort. reflexivity.
Qed.

Lemma trend_filter_blocks_countertrend_witness :
  LondonBreakoutStrategy.calculate_trend_direction config sample_day (mk_time 8 0) = 0.
Proof.
  apply (proj2 (trend_filter_blocks_countertrend config
                  (LondonBreakoutStrategy.init "EURUSD")
                  (LondonBreakoutStrategy.init "EURUSD") sample_day (mk_time 8 0)
                  {| TradeSignal.signal_type := SignalType.NONE;
                     TradeSignal.timestamp := 0; TradeSignal.entry_price := 0;
                     TradeSignal.stop_loss := 0; TradeSignal.take_profit := 0;
                     TradeSignal.asian_range :=
                       {| AsianRange.high := 0; AsianRange.low := 0;
                          AsianRange.timestamp := 0 |} |})).
  right. vm_compute. reflexivity.
Defined.

(** * Trades per bar *)

Section TradesPerBar.
Variable cfg : Config.

Lemma generate_new_signals_log (e : BacktestEngine.t) (df : DataFrame) (t : datetime) :
  RiskManager.closed_trades
    (BacktestEngine.risk_manager (fst (BacktestEngine.generate_new_signals cfg e df t)))
  = RiskManager.closed_trades (BacktestEngine.risk_manager e)
  /\ RiskManager.current_equity
       (BacktestEngine.risk_manager (fst (BacktestEngine.generate_new_signals cfg e df t)))
     = RiskManager.current_equity (BacktestEngine.risk_manager e).
Proof.
  unfold BacktestEngine.generate_new_signals.
  destruct (BacktestEngine.symbol_is_open e); [split; reflexivity|].
  destruct (LondonBreakoutStrategy.generate_signal cfg _ df t) as [s [[signal|]|x]];
    try (split; reflexivity).
  unfold BacktestEngine._execute_signal.
  match goal with
  | |- context [RiskManager.open_position cfg ?rm ?a ?b ?c ?d ?f ?g ?h] =>
      pose proof (open_position_frame cfg rm a b c d f g h) as (He & _ & Hl);
      destruct (RiskManager.open_position cfg rm a b c d f g h) as [rm' o]
  end.
  simpl in *. split; assumption.
Qed.

End TradesPerBar.

(** X25. A bar closes at most one trade, and none at all when no position
    was open as the bar started: a position opened on a bar (at that bar's
    close) is never closed within the same bar, since exits are processed
    before the entry.  Stated for every state a simulation passes through
    that is at the start of a bar. *)
Theorem one_bar_closes_at_most_one_trade
  (cfg : Config) (e : BacktestEngine.t) (df : DataFrame) (t : datetime) (bar : Bar.t) :
  engine_inv e ->
  let e' := fst (BacktestEngine._process_bar cfg e df t bar) in
  (RiskManager.open_positions (BacktestEngine.risk_manager e) = [] ->
   RiskManager.closed_trades (BacktestEngine.risk_manager e')
   = RiskManager.closed_trades (BacktestEngine.risk_manager e)
   /\ RiskManager.current_equity (BacktestEngine.risk_manager e')
      = RiskManager.current_equity (BacktestEngine.risk_manager e))
  /\ exists later,
       RiskManager.closed_trades (BacktestEngine.risk_manager e')
       = RiskManager.closed_trades (BacktestEngine.risk_manager e) ++ later
       /\ (length later <= 1)%nat.
Proof.
  intros Hinv e'. subst e'. unfold BacktestEngine._process_bar.
  set (e1 := BacktestEngine.record_equity e t).
  assert (Hinv1 : engine_inv e1) by exact Hinv.
  split.
  - intros Hempty.
    change (RiskManager.open_positions (BacktestEngine.risk_manager e1))
      with (RiskManager.open_positions (BacktestEngine.risk_manager e)).
    rewrite Hempty. simpl.
    destruct (generate_new_signals_log cfg e1 df t) as [Hl He]. split; assumption.
  - destruct (proj1 Hinv1) as [Hnone | (r & p & Hopen & Hobj & Hsym)].
    + rewrite Hnone. simpl. exists []. rewrite app_nil_r. split; [|simpl; lia].
      apply (generate_new_signals_log cfg e1 df t).
    + rewrite Hopen. simpl.
      assert (Hin : In r (RiskManager.open_positions (BacktestEngine.risk_manager e1))).
      { rewrite Hopen. by left. }
      destruct (BacktestEngine.process_position cfg e1 r t bar) as [e2 res] eqn:Hp.
      destruct (process_position_inv cfg e1 r t bar e2 res Hinv1 Hin Hp) as [_ ->].
      assert (Hlog : exists later,
                 RiskManager.closed_trades (BacktestEngine.risk_manager e2)
                 = RiskManager.closed_trades (BacktestEngine.risk_manager e1) ++ later
                 /\ (length later <= 1)%nat).
      { unfold BacktestEngine.process_position in Hp. rewrite Hobj in Hp.
        destruct (BacktestEngine.exit_decision cfg p t bar) as [[price reason]|].
        - destruct (close_position_listed cfg _ r p price t reason Hobj Hin)
            as (rm1 & Hc & Hl & _).
          rewrite Hc in Hp. injection Hp as <-.
          eexists. split; [exact Hl | simpl; lia].
        - pose proof (update_trailing_stop_at_frame cfg (BacktestEngine.risk_manager e1) r
                        (Bar.close bar)) as (_ & _ & Hl & _).
          destruct (RiskManager.update_trailing_stop_at cfg _ r _) as [rm' b].
          injection Hp as <-. exists []. simpl in *.
          rewrite app_nil_r. split; [exact Hl | lia]. }
      destruct Hlog as (later & Hl & Hlen).
      exists later. split; [|exact Hlen].
      rewrite (proj1 (generate_new_signals_log cfg e2 df t)). exact Hl.
Qed.

Lemma one_bar_closes_at_most_one_trade_witness :
  RiskManager.closed_trades
    (BacktestEngine.risk_manager
       (fst (BacktestEngine._process_bar config
               (fst (BacktestEngine.process_bars config fresh_engine sample_day [asian_bar]))
               sample_day (mk_time 8 0)
               {| Bar.timestamp := mk_time 8 0; Bar.open := 11040 # 10000;
                  Bar.high := 11060 # 10000; Bar.low := 10900 # 10000;
                  Bar.close := 11053 # 10000 |})))
  = []
  /\ length (RiskManager.open_positions
               (BacktestEngine.risk_manager
                  (fst (BacktestEngine._process_bar config
                          (fst (BacktestEngine.process_bars config fresh_engine
                                  sample_day [asian_bar]))
                          sample_day (mk_time 8 0)
                          {| Bar.timestamp := mk_time 8 0; Bar.open := 11040 # 10000;
                             Bar.high := 11060 # 10000; Bar.low := 10900 # 10000;
                             Bar.close := 11053 # 10000 |})))) = 1%nat.
Proof.
  split.
  - apply (one_bar_closes_at_most_one_trade config
             (fst (BacktestEngine.process_bars config fresh_engine sample_day [asian_bar]))
             sample_day (mk_time 8 0)).
    + apply (reachable_inv config "EURUSD" None).
      apply (process_bars_reachable config "EURUSD" None sample_day [asian_bar]).
    + vm_compute. reflexivity.
  - vm_compute. reflexivity.
Defined.

(** * The grid search *)

(** The outcome of a run from a fresh engine: the exception of the empty
    frame, the KeyError of the report without trades, or the report. *)
Lemma run_outcome
  (cfg : Config) (symbol : string) (capital : option Q) (df : DataFrame) :
  unique_index df ->
  let r := BacktestEngine.run cfg (BacktestEngine.init cfg symbol capital) df None None in
  match RiskManager.closed_trades (BacktestEngine.risk_manager (fst r)) with
  | [] => exists x, snd r = Raise x
  | _ :: _ => snd r = Ok (BacktestEngine._generate_results (fst r) df)
  end.
Proof.
  intros Hunique. unfold BacktestEngine.run. cbn [BacktestEngine.filter_dates].
  destruct df as [|b rest]; [simpl; eauto|].
  pose proof (init_inv cfg symbol capital) as Hinv.
  destruct (process_bars_run cfg (b :: rest) _ (b :: rest) Hinv) as [Hrtc Hok].
  destruct (Hok Hunique) as (Hres & _).
  destruct (BacktestEngine.process_bars cfg _ (b :: rest) (b :: rest)) as [e1 res].
  simpl in Hres, Hrtc. subst res.
  assert (Hinv1 : engine_inv e1) by (eapply rtc_step_inv; eauto).
  destruct (close_remaining_run cfg e1 (Bar.close (List.last rest b))
              (Bar.timestamp (List.last rest b)) Hinv1) as (rm & -> & _ & _).
  destruct (BacktestEngine._print_results _) as [u|x] eqn:Hp; cbn [fst snd];
    destruct (RiskManager.closed_trades
                (BacktestEngine.risk_manager (BacktestEngine.with_risk_manager e1 rm)))
      as [|tr l] eqn:E.
  - rewrite (print_results_zero_trades _ (b :: rest) E) in Hp. discriminate.
  - reflexivity.
  - eauto.
  - rewrite (print_results_with_trades (BacktestEngine.with_risk_manager e1 rm)
               (b :: rest)) in Hp; [discriminate | congruence].
Qed.

Section GridSearch.
Context {P : Type}.
Variable symbol : string.
Variable df : DataFrame.
Hypothesis Hunique : unique_index df.

Lemma read_row_sound (results : gmap string value) (keys : list string)
  (m : list (string * value)) :
  StrategyOptimizer.read_row results keys = Ok m ->
  map fst m = keys /\ Forall (fun kv => results !! fst kv = Some (snd kv)) m.
Proof.
  revert m. induction keys as [|k keys IH]; simpl; intros m.
  - intros [= <-]. split; [reflexivity | constructor].
  - destruct (results !! k) as [v|] eqn:Ek; [|discriminate].
    destruct (StrategyOptimizer.read_row results keys) as [row|x]; [|discriminate].
    intros [= <-]. destruct (IH row eq_refl) as [Hk Hv].
    split; [simpl; by rewrite Hk|]. constructor; [exact Ek | exact Hv].
Qed.

Lemma read_row_with_trades (e : BacktestEngine.t) :
  RiskManager.closed_trades (BacktestEngine.risk_manager e) <> [] ->
  exists m, StrategyOptimizer.read_row (BacktestEngine._generate_results e df)
              StrategyOptimizer.row_keys = Ok m.
Proof.
  intros Hne.
  unfold BacktestEngine._generate_results, RiskManager.get_statistics.
  destruct (BacktestEngine._calculate_consecutive_trades e) as [w l].
  destruct (RiskManager.closed_trades (BacktestEngine.risk_manager e)) as [|tr0 l0] eqn:E;
    [congruence|].
  rewrite <- E. clear E Hne tr0 l0.
  unfold StrategyOptimizer.row_keys, StrategyOptimizer.read_row.
  repeat first [rewrite lookup_insert_eq | rewrite lookup_insert_ne by done].
  eexists. reflexivity.
Qed.

Lemma try_combination_cases
  (results : list (StrategyOptimizer.row P)) (p : P) (cfg : Config) :
  if closes_a_trade symbol df cfg
  then exists r, StrategyOptimizer.try_combination symbol df results p cfg
                 = results ++ [r]
                 /\ row_of_report symbol df r (p, cfg)
  else StrategyOptimizer.try_combination symbol df results p cfg = results.
Proof.
  unfold closes_a_trade, StrategyOptimizer.try_combination.
  pose proof (run_outcome cfg symbol (Some (INITIAL_CAPITAL cfg)) df Hunique) as Hrun.
  cbv zeta in Hrun.
  destruct (RiskManager.closed_trades _) as [|tr l] eqn:E.
  - destruct Hrun as [x ->]. reflexivity.
  - rewrite Hrun.
    destruct (read_row_with_trades
                (fst (BacktestEngine.run cfg
                        (BacktestEngine.init cfg symbol (Some (INITIAL_CAPITAL cfg)))
                        df None None))) as (m & Hm); [congruence|].
    rewrite Hm. destruct (read_row_sound _ _ _ Hm) as [Hk Hv].
    eexists. split; [reflexivity|].
    split; [reflexivity|]. split; [exact Hk | exact Hv].
Qed.

Lemma optimize_results_rows
  (combinations : list (P * Config)) (results : list (StrategyOptimizer.row P)) :
  exists rows,
    StrategyOptimizer.optimize_results symbol df results combinations = results ++ rows
    /\ Forall2 (row_of_report symbol df) rows
         (List.filter (fun pc => closes_a_trade symbol df (snd pc)) combinations).
Proof.
  revert results. induction combinations as [|[p cfg] rest IH]; intros results.
  - exists []. simpl. rewrite app_nil_r. split; [reflexivity | constructor].
  - unfold StrategyOptimizer.optimize_results. cbn [fold_left List.filter fst snd].
    fold (StrategyOptimizer.optimize_results symbol df
            (StrategyOptimizer.try_combination symbol df results p cfg) rest).
    pose proof (try_combination_cases results p cfg) as Hc.
    destruct (IH (StrategyOptimizer.try_combination symbol df results p cfg))
      as (rows & Heq & Hrows).
    destruct (closes_a_trade symbol df cfg).
    + destruct Hc as (r & Hc & Hr). exists (r :: rows). split.
      * rewrite Heq, Hc, <- app_assoc. reflexivity.
      * constructor; assumption.
    + exists rows. split; [rewrite Heq, Hc; reflexivity | exact Hrows].
Qed.

End GridSearch.

(** X26. The grid search keeps exactly the combinations that trade.  On a
    frame with a unique index the rows optimize collects correspond one to
    one, in grid order, to the parameter combinations whose backtest closes
    at least one trade: each row holds its combination and, under the seven
    keys total_trades, win_rate, profit_factor, return_percent,
    max_drawdown, sharpe_ratio and sortino_ratio, the values the report of
    that backtest has for them.  A combination whose backtest closes no
    trade (or whose frame is empty) gets no row, its exception being caught
    by the loop. *)
Theorem optimizer_keeps_trading_combinations
  {P : Type} (symbol : string) (df : DataFrame) (combinations : list (P * Config)) :
  unique_index df ->
  Forall2 (row_of_report symbol df)
    (StrategyOptimizer.optimize_results symbol df [] combinations)
    (List.filter (fun pc => closes_a_trade symbol df (snd pc)) combinations).
Proof.
  intros Hu.
  destruct (optimize_results_rows symbol df Hu combinations []) as (rows & Heq & Hrows).
  rewrite Heq. exact Hrows.
Qed.

Lemma optimizer_keeps_trading_combinations_witness :
  Forall2 (row_of_report "EURUSD" sample_day)
    (StrategyOptimizer.optimize_results "EURUSD" sample_day []
       [ (1%Q, with_risk_reward_ratio config 1);
         (2%Q, with_risk_reward_ratio config 2) ])
    [ (2%Q, with_risk_reward_ratio config 2) ].
Proof.
  apply (optimizer_keeps_trading_combinations "EURUSD" sample_day
           [ (1%Q, with_risk_reward_ratio config 1);
             (2%Q, with_risk_reward_ratio config 2) ]
           sample_day_unique).
Defined.

(** * Exits at the level of a bar *)

Section BarExits.
Variable cfg : Config.

(** [open_position] lists at most the reference it creates. *)
Lemma open_position_open_list
  (rm : RiskManager.t) (sym : string) (side : Side) (entry stop target : Q)
  (t : datetime) (size : option Q) (x : ref) :
  In x (RiskManager.open_positions
          (fst (RiskManager.open_position cfg rm sym side entry stop target t size))) ->
  In x (RiskManager.open_positions rm) \/ x = length (RiskManager.objects rm).
Proof.
  unfold RiskManager.open_position.
  destruct (Qeq_bool _ 0); simpl; [auto|].
  destruct (RiskManager.can_open_position _ _ _ _) as [[|] reason]; simpl; [|auto].
  intros Hx. apply in_app_or in Hx as [Hx | [<- | []]]; auto.
Qed.

Lemma generate_new_signals_open_list
  (e : BacktestEngine.t) (df : DataFrame) (t : datetime) (x : ref) :
  In x (RiskManager.open_positions
          (BacktestEngine.risk_manager
             (fst (BacktestEngine.generate_new_signals cfg e df t)))) ->
  In x (RiskManager.open_positions (BacktestEngine.risk_manager e))
  \/ x = length (RiskManager.objects (BacktestEngine.risk_manager e)).
Proof.
  unfold BacktestEngine.generate_new_signals.
  destruct (BacktestEngine.symbol_is_open e); [auto|].
  destruct (LondonBreakoutStrategy.generate_signal cfg _ df t) as [s [[signal|]|x0]];
    try (simpl; auto; fail).
  unfold BacktestEngine._execute_signal.
  match goal with
  | |- context [RiskManager.open_position cfg ?rm ?a ?b ?c ?d ?f ?g ?h] =>
      pose proof (open_position_open_list rm a b c d f g h x) as Hl;
      destruct (RiskManager.open_position cfg rm a b c d f g h) as [rm' o]
  end.
  simpl in *. exact Hl.
Qed.

(** A bar on which the one open position meets an exit condition: the
    position leaves the open list, its trade is the one appended to the log,
    and the equity moves by the trade's net P&L, whatever the entry step of
    the same bar does afterwards. *)
Lemma process_bar_exit
  (e : BacktestEngine.t) (df : DataFrame) (t : datetime) (bar : Bar.t)
  (r : ref) (p : Position.t) (price : Q) (reason : string) :
  RiskManager.objects (BacktestEngine.risk_manager e) !! r = Some p ->
  RiskManager.open_positions (BacktestEngine.risk_manager e) = [r] ->
  BacktestEngine.exit_decision cfg p t bar = Some (price, reason) ->
  let e' := fst (BacktestEngine._process_bar cfg e df t bar) in
  let tr := RiskManager.make_trade cfg p price t reason in
  RiskManager.closed_trades (BacktestEngine.risk_manager e')
  = RiskManager.closed_trades (BacktestEngine.risk_manager e) ++ [tr]
  /\ RiskManager.current_equity (BacktestEngine.risk_manager e')
     = (RiskManager.current_equity (BacktestEngine.risk_manager e) + Trade.net_pnl tr)%Q
  /\ ~ In r (RiskManager.open_positions (BacktestEngine.risk_manager e')).
Proof.
  intros Hobj Hopen Hdec e' tr. subst e' tr.
  unfold BacktestEngine._process_bar.
  set (e1 := BacktestEngine.record_equity e t).
  assert (Hrm : BacktestEngine.risk_manager e1 = BacktestEngine.risk_manager e)
    by reflexivity.
  rewrite Hrm, Hopen. cbn [BacktestEngine.process_positions].
  assert (Hobj1 : RiskManager.objects (BacktestEngine.risk_manager e1) !! r = Some p)
    by (rewrite Hrm; exact Hobj).
  assert (Hin1 : In r (RiskManager.open_positions (BacktestEngine.risk_manager e1))).
  { rewrite Hrm, Hopen. by left. }
  destruct (close_position_listed cfg _ r p price t reason Hobj1 Hin1)
    as (rm' & Hc & Hl & Heq & _ & Hobjs & Hrem).
  unfold BacktestEngine.process_position. rewrite Hobj1, Hdec, Hc.
  rewrite Hrm in Hl, Heq, Hobjs, Hrem. rewrite Hopen in Hrem.
  cbn [RiskManager.list_remove] in Hrem. rewrite same_position_refl in Hrem.
  injection Hrem as Hempty.
  set (e2 := BacktestEngine.with_risk_manager e1 rm').
  destruct (generate_new_signals_log cfg e2 df t) as [Hlog Hequity].
  split; [|split].
  - rewrite Hlog. exact Hl.
  - rewrite Hequity. exact Heq.
  - intros Hin. apply generate_new_signals_open_list in Hin as [Hin | Hlen].
    + cbn in Hin. rewrite <- Hempty in Hin. destruct Hin.
    + cbn in Hlen. rewrite Hobjs in Hlen.
      apply lookup_lt_Some in Hobj. lia.
Qed.

End BarExits.

(** C2. When the bar's range [low, high] contains both the stop-loss and the
    take-profit of the open position, long or short, the per-bar processing
    closes it at the stop-loss: the exit evaluation decides for the stop, the
    position is no longer in the open list after the bar, exactly one trade
    is appended to the log, with exit price the stop-loss level, exit reason
    "SL" (not "TP") and the bar's time, and the equity moves by that trade's
    net P&L.  The position is the one the simulation holds: a state of a
    simulation never lists more than one. *)
Theorem stop_loss_has_priority
  (cfg : Config) (e : BacktestEngine.t) (df : DataFrame) (r : ref) (p : Position.t)
  (t : datetime) (bar : Bar.t) :
  RiskManager.objects (BacktestEngine.risk_manager e) !! r = Some p ->
  RiskManager.open_positions (BacktestEngine.risk_manager e) = [r] ->
  within_bar bar (Position.stop_loss p) ->
  within_bar bar (Position.take_profit p) ->
  let e' := fst (BacktestEngine._process_bar cfg e df t bar) in
  BacktestEngine.exit_decision cfg p t bar = Some (Position.stop_loss p, "SL")
  /\ ~ In r (RiskManager.open_positions (BacktestEngine.risk_manager e'))
  /\ exists tr,
       RiskManager.closed_trades (BacktestEngine.risk_manager e')
       = RiskManager.closed_trades (BacktestEngine.risk_manager e) ++ [tr]
       /\ Trade.exit_price tr = Position.stop_loss p
       /\ Trade.exit_reason tr = "SL"
       /\ Trade.exit_reason tr <> "TP"
       /\ Trade.exit_time tr = t
       /\ Trade.pnl_pips tr = Position.calculate_pnl p (Position.stop_loss p)
       /\ RiskManager.current_equity (BacktestEngine.risk_manager e')
          = (RiskManager.current_equity (BacktestEngine.risk_manager e)
             + Trade.net_pnl tr)%Q.
Proof.
  intros Hobj Hopen [Hlo Hhi] _ e'.
  assert (Hstop : stop_touched p bar).
  { unfold stop_touched. destruct (Position.side p); assumption. }
  assert (Hdec : BacktestEngine.exit_decision cfg p t bar
                 = Some (Position.stop_loss p, "SL")).
  { unfold BacktestEngine.exit_decision. rewrite (stop_check_hit p bar Hstop).
    reflexivity. }
  destruct (process_bar_exit cfg e df t bar r p _ _ Hobj Hopen Hdec)
    as (Hlog & Hequity & Hgone).
  split; [exact Hdec|]. split; [exact Hgone|].
  exists (RiskManager.make_trade cfg p (Position.stop_loss p) t "SL").
  split; [exact Hlog|].
  split; [reflexivity|]. split; [reflexivity|]. split; [simpl; discriminate|].
  split; [reflexivity|].
  split; [|exact Hequity].
  unfold Position.calculate_pnl. simpl. destruct (Position.side p); reflexivity.
Qed.

Lemma stop_loss_has_priority_witness :
  ~ In 0%nat
      (RiskManager.open_positions
         (BacktestEngine.risk_manager
            (fst (BacktestEngine._process_bar config engine_with_long [wide_bar]
                    (mk_time 9 0) wide_bar))))
  /\ exists tr,
       RiskManager.closed_trades
         (BacktestEngine.risk_manager
            (fst (BacktestEngine._process_bar config engine_with_long [wide_bar]
                    (mk_time 9 0) wide_bar)))
       = RiskManager.closed_trades (BacktestEngine.risk_manager engine_with_long) ++ [tr]
       /\ Trade.exit_price tr = 10950 # 10000
       /\ Trade.exit_reason tr = "SL"
       /\ Trade.exit_reason tr <> "TP"
       /\ Trade.exit_time tr = mk_time 9 0
       /\ Trade.pnl_pips tr
          = Position.calculate_pnl long_position (Position.stop_loss long_position)
       /\ RiskManager.current_equity
            (BacktestEngine.risk_manager
               (fst (BacktestEngine._process_bar config engine_with_long [wide_bar]
                       (mk_time 9 0) wide_bar)))
          = (RiskManager.current_equity (BacktestEngine.risk_manager engine_with_long)
             + Trade.net_pnl tr)%Q.
Proof.
  apply (stop_loss_has_priority config engine_with_long [wide_bar] 0%nat long_position
           (mk_time 9 0) wide_bar).
  - reflexivity.
  - reflexivity.
  - split; vm_compute; discriminate.
  - split; vm_compute; discriminate.
Defined.

(** X22. When a bar reaches neither level of the open position and the time
    exit is due, the per-bar processing closes the position at the bar's
    close: it is no longer in the open list after the bar, exactly one trade
    is appended, with reason "TIME", the bar's close as exit price and the
    bar's time, and the equity moves by that trade's net P&L. *)
Theorem time_exit_closes_at_close
  (cfg : Config) (e : BacktestEngine.t) (df : DataFrame) (r : ref) (p : Position.t)
  (t : datetime) (bar : Bar.t) :
  RiskManager.objects (BacktestEngine.risk_manager e) !! r = Some p ->
  RiskManager.open_positions (BacktestEngine.risk_manager e) = [r] ->
  ~ stop_touched p bar ->
  ~ target_touched p bar ->
  LondonBreakoutStrategy.should_exit_time_based cfg t = true ->
  let e' := fst (BacktestEngine._process_bar cfg e df t bar) in
  ~ In r (RiskManager.open_positions (BacktestEngine.risk_manager e'))
  /\ exists tr,
       RiskManager.closed_trades (BacktestEngine.risk_manager e')
       = RiskManager.closed_trades (BacktestEngine.risk_manager e) ++ [tr]
       /\ Trade.exit_reason tr = "TIME"
       /\ Trade.exit_price tr = Bar.close bar
       /\ Trade.exit_time tr = t
       /\ Trade.pnl_pips tr = Position.calculate_pnl p (Bar.close bar)
       /\ RiskManager.current_equity (BacktestEngine.risk_manager e')
          = (RiskManager.current_equity (BacktestEngine.risk_manager e)
             + Trade.net_pnl tr)%Q.
Proof.
  intros Hobj Hopen Hs Ht Htime e'.
  assert (Hdec : BacktestEngine.exit_decision cfg p t bar = Some (Bar.close bar, "TIME")).
  { unfold BacktestEngine.exit_decision.
    rewrite (no_level_touched p bar Hs Ht), Htime. reflexivity. }
  destruct (process_bar_exit cfg e df t bar r p _ _ Hobj Hopen Hdec)
    as (Hlog & Hequity & Hgone).
  split; [exact Hgone|].
  exists (RiskManager.make_trade cfg p (Bar.close bar) t "TIME").
  split; [exact Hlog|].
  split; [reflexivity|]. split; [reflexivity|]. split; [reflexivity|].
  split; [|exact Hequity].
  unfold Position.calculate_pnl. simpl. destruct (Position.side p); reflexivity.
Qed.

Lemma time_exit_closes_at_close_witness :
  ~ In 0%nat
      (RiskManager.open_positions
         (BacktestEngine.risk_manager
            (fst (BacktestEngine._process_bar config engine_with_long []
                    (mk_time 15 30)
                    {| Bar.timestamp := mk_time 15 30; Bar.open := 11010 # 10000;
                       Bar.high := 11030 # 10000; Bar.low := 11000 # 10000;
                       Bar.close := 11020 # 10000 |}))))
  /\ exists tr,
       RiskManager.closed_trades
         (BacktestEngine.risk_manager
            (fst (BacktestEngine._process_bar config engine_with_long []
                    (mk_time 15 30)
                    {| Bar.timestamp := mk_time 15 30; Bar.open := 11010 # 10000;
                       Bar.high := 11030 # 10000; Bar.low := 11000 # 10000;
                       Bar.close := 11020 # 10000 |})))
       = RiskManager.closed_trades (BacktestEngine.risk_manager engine_with_long) ++ [tr]
       /\ Trade.exit_reason tr = "TIME"
       /\ Trade.exit_price tr = 11020 # 10000
       /\ Trade.exit_time tr = mk_time 15 30
       /\ Trade.pnl_pips tr = Position.calculate_pnl long_position (11020 # 10000)
       /\ RiskManager.current_equity
            (BacktestEngine.risk_manager
               (fst (BacktestEngine._process_bar config engine_with_long []
                       (mk_time 15 30)
                       {| Bar.timestamp := mk_time 15 30; Bar.open := 11010 # 10000;
                          Bar.high := 11030 # 10000; Bar.low := 11000 # 10000;
                          Bar.close := 11020 # 10000 |})))
          = (RiskManager.current_equity (BacktestEngine.risk_manager engine_with_long)
             + Trade.net_pnl tr)%Q.
Proof.
  apply (time_exit_closes_at_close config engine_with_long [] 0%nat long_position
           (mk_time 15 30)
           {| Bar.timestamp := mk_time 15 30; Bar.open := 11010 # 10000;
              Bar.high := 11030 # 10000; Bar.low := 11000 # 10000;
              Bar.close := 11020 # 10000 |}).
  - reflexivity.
  - reflexivity.
  - vm_compute. intros H. apply H. reflexivity.
  - vm_compute. intros H. apply H. reflexivity.
  - vm_compute. reflexivity.
Defined.
